(** * Data_preprocessing.py: the run tables of one experiment folder

    A shallow embedding of [src/Data_preprocessing.py].  The script is a
    pandas program, so the embedding has two layers:

    - a small model of the pandas operations the script calls (frames with
      row labels and column dtypes, column assignment with label alignment,
      row enlargement through [loc], [sort_index], positional slices,
      element-wise subtraction, the row-wise [mean], [set_index]);
    - the functions of the script itself ([asc_read], [add_run_numbers],
      [iterate_over_runs], [subtract_background],
      [get_averaged_data_column], the path lists and the main loop),
      written over that model line by line.  The Excel writer at the end of
      the script is input and output of a library and is not modelled.

    The pandas layer follows the behaviour of the pandas releases the
    script runs on (before 2.0: the script ends with [writer.save()], which
    2.0 removed).  Arithmetic on the measured values is kept abstract in the
    class [Numeric], so every statement holds for binary64 floats as well as
    for exact rationals; the instance [Q_Numeric] is used to run the model
    on concrete folders. *)

From Stdlib Require Import List ZArith String Ascii Bool Lia Arith QArith.
From Stdlib Require Import DecimalString DecimalNat Decimal FinFun.
Import ListNotations.
Local Open Scope list_scope.
Local Open Scope nat_scope.

Set Implicit Arguments.

(** ** Exceptions and the error monad *)

Inductive exn : Type :=
| OSError              (* a file or directory that cannot be opened *)
| NameError            (* a global name that is not bound *)
| ValueError           (* a ValueError proper, none of its subclasses below *)
| TypeError
| IndexError
| KeyError             (* a column label the frame does not have *)
| ParserError          (* pandas.errors.ParserError, in Python a ValueError *)
| UnicodeDecodeError.  (* bytes that are not UTF-8, in Python a ValueError *)

(** What a call does: it returns a value, it raises, or it does something
    that this development does not follow.  [Unmodelled] starts in
    [asc_read] alone, on the files named there; a call that depends on such
    a file is [Unmodelled] as a whole, and no statement says what the
    script does then. *)
Inductive result (A : Type) : Type :=
| Ok (a : A)
| Raise (e : exn)
| Unmodelled.

Arguments Ok {A} a.
Arguments Raise {A} e.
Arguments Unmodelled {A}.

Definition bind {A B : Type} (m : result A) (k : A -> result B) : result B :=
  match m with
  | Ok a => k a
  | Raise e => Raise e
  | Unmodelled => Unmodelled
  end.

Notation "x <- m ;; k" := (bind m (fun x => k))
  (at level 61, m at next level, right associativity).
Notation "' pat <- m ;; k" := (bind m (fun x => match x with pat => k end))
  (at level 61, pat pattern, m at next level, right associativity).

Definition is_ok {A : Type} (m : result A) : bool :=
  match m with
  | Ok _ => true
  | _ => false
  end.

Fixpoint mapM {A B : Type} (f : A -> result B) (l : list A) : result (list B) :=
  match l with
  | [] => Ok []
  | a :: t => b <- f a ;; bs <- mapM f t ;; Ok (b :: bs)
  end.

(** ** Numbers *)

(** What the script needs of the numbers in a run file: integer literals
    (the pixel numbers and the run labels), subtraction, and for the mean
    addition and division; [parse_num] recognises the fields of a run file
    that the delimited-text parser reads as numbers. *)
Class Numeric (num : Type) : Type := {
  of_Z : Z -> num;
  nsub : num -> num -> num;
  nadd : num -> num -> num;
  ndiv : num -> num -> num;
  parse_num : string -> option num
}.

(** ** Python helpers *)

(** [range(a, b)] *)
Definition py_range (a b : Z) : list Z :=
  map (fun i => (a + Z.of_nat i)%Z) (seq 0 (Z.to_nat (b - a))).

(** [pd.RangeIndex(n)], the default row labels [0 .. n-1]. *)
Definition RangeIndex (n : nat) : list Z := py_range 0 (Z.of_nat n).

Fixpoint prefixb (p s : list ascii) : bool :=
  match p, s with
  | [], _ => true
  | a :: p', b :: s' => Ascii.eqb a b && prefixb p' s'
  | _ :: _, [] => false
  end.

(** [s.endswith(suffix)] *)
Definition endswith (s suffix : string) : bool :=
  prefixb (List.rev (list_ascii_of_string suffix)) (List.rev (list_ascii_of_string s)).

(** The characters of a decimal numeral. *)
Definition is_digit (c : ascii) : bool :=
  existsb (Ascii.eqb c) ["0"; "1"; "2"; "3"; "4"; "5"; "6"; "7"; "8"; "9"]%char.

(** ["{}".format(i)] for a natural number. *)
Definition format_nat (i : nat) : string :=
  NilEmpty.string_of_uint (Nat.to_uint i).

(** ["Run: {}".format(i)] *)
Definition run_column_name (i : nat) : string :=
  String.append "Run: " (format_nat i).

Fixpoint zip_with {A B C : Type} (f : A -> B -> C) (l : list A) (m : list B) : list C :=
  match l, m with
  | a :: l', b :: m' => f a b :: zip_with f l' m'
  | _, _ => []
  end.

Fixpoint list_Z_eqb (l m : list Z) : bool :=
  match l, m with
  | [], [] => true
  | a :: l', b :: m' => Z.eqb a b && list_Z_eqb l' m'
  | _, _ => false
  end.

Fixpoint has_duplicates (l : list Z) : bool :=
  match l with
  | [] => false
  | a :: t => existsb (Z.eqb a) t || has_duplicates t
  end.

(** Sorting rows by their label (insertion sort; stable). *)
Fixpoint insert_row {A : Type} (k : Z) (a : A) (l : list (Z * A)) : list (Z * A) :=
  match l with
  | [] => [(k, a)]
  | (k', a') :: t =>
      if (k <=? k')%Z then (k, a) :: (k', a') :: t
      else (k', a') :: insert_row k a t
  end.

Definition sort_rows {A : Type} (l : list (Z * A)) : list (Z * A) :=
  fold_right (fun p acc => insert_row (fst p) (snd p) acc) [] l.

Section Pandas.

Context {num : Type} `{Numeric num}.

(** ** Cells, series and frames *)

(** One cell of a table: Python's [None], the float NaN that pandas uses
    for a missing value, a string, or a number. *)
Inductive cell : Type :=
| CNone
| CNaN
| CStr (s : string)
| CNum (x : num).

(** [pd.isna] on one cell. *)
Definition isna (c : cell) : bool :=
  match c with
  | CNone | CNaN => true
  | _ => false
  end.

Definition is_text (c : cell) : bool :=
  match c with
  | CStr _ => true
  | _ => false
  end.

(** A [Series]: row labels, the values at them, and whether its dtype is
    [object].  A Series or a column that is not of dtype [object] is
    numeric: int64 or float64, which the script never tells apart (an int64
    column that gets a NaN becomes float64, with the same numbers). *)
Record Series : Type := {
  s_index : list Z;
  s_values : list cell;
  s_object : bool
}.

(** A [DataFrame], column by column, in column order; every column has one
    cell per row label.  [objects] holds the names of the columns of dtype
    [object]. *)
Record DataFrame : Type := {
  index : list Z;
  columns : list (string * list cell);
  objects : list string
}.

Definition column_names (d : DataFrame) : list string := map fst (columns d).

(** [d[name].dtype == object] *)
Definition is_object (d : DataFrame) (name : string) : bool :=
  existsb (String.eqb name) (objects d).

(** [d.shape[1]] *)
Definition shape1 (d : DataFrame) : nat := List.length (columns d).

(** [d.iloc[:, j]] *)
Definition iloc_col (d : DataFrame) (j : nat) : result Series :=
  match nth_error (columns d) j with
  | Some (name, cells) =>
      Ok {| s_index := index d; s_values := cells; s_object := is_object d name |}
  | None => Raise IndexError
  end.

(** [d.iloc[1:, j]] *)
Definition iloc_rows1_col (d : DataFrame) (j : nat) : result Series :=
  match nth_error (columns d) j with
  | Some (name, cells) =>
      Ok {| s_index := skipn 1 (index d); s_values := skipn 1 cells;
            s_object := is_object d name |}
  | None => Raise IndexError
  end.

(** [d.iloc[:, start:]], with Python's reading of a negative start.  Note
    that [-0] is [0]: the slice [-0:] is the whole list. *)
Definition slice_start (len : nat) (start : Z) : nat :=
  if (start <? 0)%Z then Z.to_nat (Z.max (Z.of_nat len + start) 0)
  else Nat.min (Z.to_nat start) len.

Definition iloc_cols_from (d : DataFrame) (start : Z) : DataFrame :=
  {| index := index d;
     columns := skipn (slice_start (List.length (columns d)) start) (columns d);
     objects := objects d |}.

(** *** Element-wise subtraction

    [x - y] on two cells as pandas evaluates it inside a Series
    subtraction: a missing operand gives NaN (for object columns through
    the masked fallback of the arithmetic), two numbers are subtracted, and
    a string against a present value is Python's TypeError. *)
Definition sub_cell (x y : cell) : result cell :=
  if isna x || isna y then Ok CNaN
  else match x, y with
       | CNum a, CNum b => Ok (CNum (nsub a b))
       | _, _ => Raise TypeError
       end.

Definition sub_cells (xs ys : list cell) : result (list cell) :=
  mapM (fun p => sub_cell (fst p) (snd p)) (combine xs ys).

(** [d.iloc[1:, a] - d.iloc[1:, b]].  Both operands are row slices of the
    one frame [d], so they carry identical row labels and pandas subtracts
    them position by position, keeping those labels.  The difference has
    dtype [object] as soon as one operand has. *)
Definition column_difference (d : DataFrame) (a b : nat) : result Series :=
  x <- iloc_rows1_col d a ;;
  y <- iloc_rows1_col d b ;;
  vals <- sub_cells (s_values x) (s_values y) ;;
  Ok {| s_index := s_index x; s_values := vals;
        s_object := s_object x || s_object y |}.

(** *** Column assignment [d[name] = series] *)

Fixpoint lookup_label (l : Z) (labels : list Z) (vals : list cell) : cell :=
  match labels, vals with
  | k :: labels', v :: vals' => if Z.eqb k l then v else lookup_label l labels' vals'
  | _, _ => CNaN
  end.

(** The values of [s] at the row labels [target]: taken as they are when the
    labels already agree, otherwise looked up label by label, NaN where [s]
    has no such label; a Series with repeated labels cannot be realigned. *)
Definition reindex (s : Series) (target : list Z) : result (list cell) :=
  if list_Z_eqb (s_index s) target then Ok (s_values s)
  else if has_duplicates (s_index s) then Raise ValueError
  else Ok (map (fun l => lookup_label l (s_index s) (s_values s)) target).

(** An existing column of that name is replaced where it stands; a new name
    is appended after the last column. *)
Fixpoint set_column (name : string) (cells : list cell)
    (cols : list (string * list cell)) : list (string * list cell) :=
  match cols with
  | [] => [(name, cells)]
  | (n, c) :: rest =>
      if String.eqb n name then (name, cells) :: rest
      else (n, c) :: set_column name cells rest
  end.

(** The column [name] takes the dtype of what is assigned to it. *)
Definition set_dtype (name : string) (is_obj : bool) (objs : list string) : list string :=
  let others := filter (fun n => negb (String.eqb n name)) objs in
  if is_obj then others ++ [name] else others.

(** A frame without rows takes the row labels of the first non-empty Series
    assigned to it. *)
Definition setitem (d : DataFrame) (name : string) (s : Series) : result DataFrame :=
  match index d, s_values s with
  | [], _ :: _ =>
      Ok {| index := s_index s;
            columns := set_column name (s_values s)
                         (map (fun c => (fst c, map (fun _ => CNaN) (s_index s)))
                              (columns d));
            objects := set_dtype name (s_object s) (objects d) |}
  | _, _ =>
      cells <- reindex s (index d) ;;
      Ok {| index := index d; columns := set_column name cells (columns d);
            objects := set_dtype name (s_object s) (objects d) |}
  end.

(** *** Row assignment [d.loc[label, :] = values] *)

(** The values are set column by column.  A numeric column holds [None]
    as NaN and a number as it is; a string turns it into a column of dtype
    [object], its numbers unchanged.  A column of dtype [object] holds
    every value as it is. *)
Definition held (d : DataFrame) (name : string) (v : cell) : cell :=
  if is_object d name then v
  else match v with
       | CNone => CNaN
       | _ => v
       end.

(** The columns that a row of values turns into columns of dtype
    [object]. *)
Definition upcast (d : DataFrame) (values : list cell) : list string :=
  flat_map (fun p => if is_text (snd p) && negb (is_object d (fst (fst p)))
                     then [fst (fst p)] else [])
           (combine (columns d) values).

(** A label the frame has: the row is overwritten.  A new label: the frame
    is enlarged by one row at the bottom (a row of NaN, into which the
    values are then set).  In both cases the list must have one value per
    column. *)
Definition loc_set_row (d : DataFrame) (label : Z) (values : list cell) : result DataFrame :=
  if existsb (Z.eqb label) (index d) then
    if List.length values =? List.length (columns d) then
      Ok {| index := index d;
            columns := zip_with
                         (fun c v =>
                            (fst c, zip_with (fun l x => if Z.eqb l label
                                                         then held d (fst c) v else x)
                                             (index d) (snd c)))
                         (columns d) values;
            objects := objects d ++ upcast d values |}
    else Raise ValueError
  else if List.length (columns d) =? 0 then Raise ValueError
  else if List.length values =? List.length (columns d) then
    Ok {| index := index d ++ [label];
          columns := zip_with (fun c v => (fst c, snd c ++ [held d (fst c) v]))
                              (columns d) values;
          objects := objects d ++ upcast d values |}
  else Raise ValueError.

(** [d.index = d.index + 1] *)
Definition shift_index (d : DataFrame) : DataFrame :=
  {| index := map (fun l => (l + 1)%Z) (index d); columns := columns d;
     objects := objects d |}.

(** [d.sort_index(inplace=True)] *)
Definition sort_index (d : DataFrame) : DataFrame :=
  {| index := map fst (sort_rows (combine (index d) (index d)));
     columns := map (fun c => (fst c, map snd (sort_rows (combine (index d) (snd c)))))
                    (columns d);
     objects := objects d |}.

(** *** Row-wise mean [d.mean(axis=1)]

    With the defaults of pandas before 2.0: [skipna=True], so a missing cell
    is left out of its row's mean and a row without any present value gets
    NaN; and [numeric_only=None], "attempt to use everything, then use only
    numeric data": when the frame holds a string the reduction over all
    columns fails, and pandas repeats it over the columns of a numeric
    dtype alone. *)
Definition present_numbers (cs : list cell) : list num :=
  flat_map (fun c => match c with CNum x => [x] | _ => [] end) cs.

Definition nsum (xs : list num) : num := fold_left nadd xs (of_Z 0).

(** The mean of the numbers present in one row: their sum divided by their
    count, NaN when there is none. *)
Definition nanmean (cs : list cell) : cell :=
  match present_numbers cs with
  | [] => CNaN
  | xs => CNum (ndiv (nsum xs) (of_Z (Z.of_nat (List.length xs))))
  end.

(** Row [r] of the given columns. *)
Definition row_cells (cols : list (string * list cell)) (r : nat) : list cell :=
  map (fun c => nth r (snd c) CNaN) cols.

(** Some cell is a string: the sum over all columns raises TypeError. *)
Definition has_text (cols : list (string * list cell)) : bool :=
  existsb (fun c => existsb is_text (snd c)) cols.

(** The columns pandas keeps as numeric data in its second attempt: it
    goes by the dtype, whatever the cells are.  The first run column, which
    holds the label ["BG"], has dtype [object] and is dropped; so is a
    difference of [object] columns, though it holds numbers only. *)
Definition is_numeric_column (d : DataFrame) (c : string * list cell) : bool :=
  negb (is_object d (fst c)).

Definition mean_axis1 (d : DataFrame) : Series :=
  let cols := if has_text (columns d) then filter (is_numeric_column d) (columns d)
              else columns d in
  {| s_index := index d;
     s_values := map (fun r => nanmean (row_cells cols r)) (seq 0 (List.length (index d)));
     s_object := false |}.

End Pandas.

Arguments cell num : clear implicits.
Arguments Series num : clear implicits.
Arguments DataFrame num : clear implicits.

(** ** Run files and folders *)

(** A run file as [read_csv] meets it: a path that cannot be opened, bytes
    that are not UTF-8, or lines of text.  A line is given by its fields,
    the texts between its tabs as the tokenizer of [read_csv] yields them;
    a line without a tab has one field. *)
Inductive asc_file : Type :=
| Unreadable
| Undecodable
| Lines (lines : list (list string)).

(** [skip_blank_lines=True]: a line without any character, or with blanks
    only, is skipped.  The lines that are left are the records. *)
Fixpoint only_blanks (s : string) : bool :=
  match s with
  | EmptyString => true
  | String c rest => Ascii.eqb c " " && only_blanks rest
  end.

Definition is_blank (line : list string) : bool :=
  match line with
  | [] => true
  | [s] => only_blanks s
  | _ => false
  end.

Definition records (lines : list (list string)) : list (list string) :=
  filter (fun line => negb (is_blank line)) lines.

(** Field [j] of a record; a record that ends before it is filled up with
    empty fields. *)
Definition field (j : nat) (record : list string) : string :=
  nth j record EmptyString.

(** What [os.listdir] yields for an experiment folder, in enumeration
    order: each entry name with the file behind it. *)
Definition folder : Type := list (string * asc_file).

(** The texts that [read_csv] reads as a missing value by default. *)
Definition na_values : list string :=
  [""; "#N/A"; "#N/A N/A"; "#NA"; "-1.#IND"; "-1.#QNAN"; "-NaN"; "-nan";
   "1.#IND"; "1.#QNAN"; "<NA>"; "N/A"; "NA"; "NULL"; "NaN"; "n/a"; "nan";
   "null"]%string.

Definition is_na_text (s : string) : bool := existsb (String.eqb s) na_values.

(** The texts that [read_csv] reads as booleans by default. *)
Definition bool_values : list string :=
  ["True"; "TRUE"; "true"; "False"; "FALSE"; "false"]%string.

Definition is_bool_text (s : string) : bool := existsb (String.eqb s) bool_values.

Section Script.

Context {num : Type} `{Numeric num}.

Local Abbreviation cell := (cell num).
Local Abbreviation Series := (Series num).
Local Abbreviation DataFrame := (DataFrame num).

(** *** [asc_read] *)

Definition reads_as_number (s : string) : bool :=
  match parse_num s with
  | Some _ => true
  | None => false
  end.

(** The type inference of [read_csv] on one column: when every field that
    is not a missing-value text reads as a number the column is numeric,
    otherwise it keeps the texts as strings. *)
Definition convert_column (fields : list string) : list cell :=
  if forallb (fun s => is_na_text s || reads_as_number s) fields then
    map (fun s => if is_na_text s then CNaN
                  else match parse_num s with
                       | Some x => CNum x
                       | None => CNaN
                       end) fields
  else
    map (fun s => if is_na_text s then CNaN else CStr s) fields.

(** The column keeps its fields as strings: its dtype is [object]. *)
Definition keeps_text (fields : list string) : bool :=
  negb (forallb (fun s => is_na_text s || reads_as_number s) fields).

(** A column that is not numeric and whose fields are all booleans or
    missing-value texts is read as a column of booleans. *)
Definition reads_as_booleans (fields : list string) : bool :=
  keeps_text fields && forallb (fun s => is_na_text s || is_bool_text s) fields.

(** [pd.read_csv(file_path, sep="\t", names=["Pixel", "value"])]

    The first record fixes the number of fields that [read_csv] expects:
    its own number, but not less than the two names.  A later record with
    more fields raises ParserError; a record with fewer is filled up.  A
    file without any record gives two empty columns of dtype [object].

    Three kinds of file are not followed ([Unmodelled]): a first record of
    more than two fields (pandas then takes the leading fields as row
    labels); a file of one record with one field (pandas releases differ);
    and a column of booleans. *)
Definition asc_read (file : asc_file) : result DataFrame :=
  match file with
  | Unreadable => Raise OSError
  | Undecodable => Raise UnicodeDecodeError
  | Lines lines =>
      match records lines with
      | [] =>
          Ok {| index := [];
                columns := [("Pixel"%string, []); ("value"%string, [])];
                objects := ["Pixel"%string; "value"%string] |}
      | first :: rest =>
          if 2 <? List.length first then Unmodelled
          else if existsb (fun r => 2 <? List.length r) rest then Raise ParserError
          else if (List.length first =? 1) && (List.length rest =? 0) then Unmodelled
          else
            let pixel := map (field 0) (first :: rest) in
            let value := map (field 1) (first :: rest) in
            if reads_as_booleans pixel || reads_as_booleans value then Unmodelled
            else
              Ok {| index := RangeIndex (List.length (first :: rest));
                    columns := [("Pixel"%string, convert_column pixel);
                                ("value"%string, convert_column value)];
                    objects := (if keeps_text pixel then ["Pixel"%string] else []) ++
                               (if keeps_text value then ["value"%string] else []) |}
      end
  end.

(** *** [add_run_numbers]

    The list holds Python's [None] for the pixel column; what the pixel
    column keeps of it is decided in [loc_set_row]. *)

Definition run_numbers (dataframe : DataFrame) : list cell :=
  [CNone; CStr "BG"] ++
  map (fun x => CNum (of_Z x)) (py_range 1 (Z.of_nat (shape1 dataframe) - 1)).

Definition add_run_numbers (dataframe : DataFrame) : result DataFrame :=
  d <- loc_set_row dataframe (-1) (run_numbers dataframe) ;;
  Ok (sort_index (shift_index d)).

(** *** [iterate_over_runs] *)

(** [pd.DataFrame({"Pixel": [x for x in range(1, 1025)]})] *)
Definition pixel_frame : DataFrame :=
  {| index := RangeIndex (List.length (py_range 1 1025));
     columns := [("Pixel"%string, map (fun x => CNum (of_Z x)) (py_range 1 1025))];
     objects := [] |}.

(** The loop over [os.listdir(directory)]. *)
Fixpoint add_runs (listing : folder) (df : DataFrame) : result DataFrame :=
  match listing with
  | [] => Ok df
  | (filename, file) :: rest =>
      if endswith filename ".asc" then
        asc <- asc_read file ;;
        s <- iloc_col asc 1 ;;
        df' <- setitem df filename s ;;
        add_runs rest df'
      else add_runs rest df
  end.

Definition iterate_over_runs (directory : folder) : result DataFrame :=
  df <- add_runs directory pixel_frame ;;
  add_run_numbers df.

(** *** The store

    [subtract_background] and [get_averaged_data_column] change the table
    they are given in place, and [subtract_background] also reads the table
    that the module-level name [df] is bound to.  Tables therefore live in a
    store and are passed by reference. *)
Definition ref : Type := nat.
Definition heap : Type := list DataFrame.

Definition load (h : heap) (r : ref) : result DataFrame :=
  match nth_error h r with
  | Some d => Ok d
  | None => Raise NameError
  end.

Fixpoint store (h : heap) (r : ref) (d : DataFrame) : heap :=
  match h, r with
  | [], _ => []
  | _ :: t, O => d :: t
  | x :: t, S r' => x :: store t r' d
  end.

Definition alloc (h : heap) (d : DataFrame) : ref * heap :=
  (List.length h, h ++ [d]).

(** *** [subtract_background]

    The first argument is the table the global name [df] is bound to when
    the function runs; the function's parameter is [dataframe].  The column
    labels the [for] loop runs over are those of [dataframe.iloc[:, 2:]] as
    it is when the loop starts. *)
Fixpoint subtract_loop (df dataframe : ref) (cols : list string) (i : nat)
    (h : heap) : result (heap * nat) :=
  match cols with
  | [] => Ok (h, i)
  | _ :: rest =>
      g <- load h df ;;
      s <- column_difference g (i + 1) 1 ;;
      d <- load h dataframe ;;
      d' <- setitem d (run_column_name i) s ;;
      subtract_loop df dataframe rest (i + 1) (store h dataframe d')
  end.

Definition subtract_background (df dataframe : ref) (h : heap)
    : result (heap * (ref * nat)) :=
  d <- load h dataframe ;;
  ' (h', i) <- subtract_loop df dataframe (column_names (iloc_cols_from d 2)) 1 h ;;
  Ok (h', (dataframe, i - 1)).

(** *** [get_averaged_data_column] *)

Definition get_averaged_data_column (dataframe : ref) (number_of_runs : nat)
    (h : heap) : result (heap * ref) :=
  d <- load h dataframe ;;
  d' <- setitem d "Mean"
          (mean_axis1 (iloc_cols_from d (-1 * Z.of_nat number_of_runs))) ;;
  Ok (store h dataframe d', dataframe).

(** *** The main loop

    One pass of the loop body, up to [averaged_df]: the global [df] is bound
    to the fresh table of the folder, and that same table is handed to
    [subtract_background]. *)
Definition process_folder (sub_folder : folder) (h : heap) : result (heap * ref) :=
  t <- iterate_over_runs sub_folder ;;
  let (df, h0) := alloc h t in
  ' (h1, (subtracted_df, number_of_runs)) <- subtract_background df df h0 ;;
  get_averaged_data_column subtracted_df number_of_runs h1.

(** The loop over [sub_directory_list], collecting the averaged tables.
    ([sheets_loop] below is the loop with its last two lines.) *)
Fixpoint main_loop (sub_directory_list : list folder) (h : heap)
    : result (heap * list ref) :=
  match sub_directory_list with
  | [] => Ok (h, [])
  | sub_folder :: rest =>
      ' (h', averaged_df) <- process_folder sub_folder h ;;
      ' (h'', dataframes) <- main_loop rest h' ;;
      Ok (h'', averaged_df :: dataframes)
  end.

(** The calls of the main loop on a table that is alone in the store:
    [subtract_background] with the global [df] and the parameter bound to
    that one table (with the count it returns), [get_averaged_data_column],
    and the whole pass over one folder. *)
Definition subtracted_table (t : DataFrame) : result (DataFrame * nat) :=
  ' (h, (r, n)) <- subtract_background 0 0 [t] ;;
  d <- load h r ;;
  Ok (d, n).

Definition averaged_table (t : DataFrame) (number_of_runs : nat) : result DataFrame :=
  ' (h, r) <- get_averaged_data_column 0 number_of_runs [t] ;;
  load h r.

Definition finished_table (sub_folder : folder) : result DataFrame :=
  ' (h, r) <- process_folder sub_folder [] ;;
  load h r.

End Script.

(** ** Exact rational arithmetic as an instance *)

(** The decimal numerals that [read_csv] reads as numbers: blanks around
    them are skipped; then an optional sign, digits with an optional point
    (at least one digit before or after it), and an optional exponent.
    Every numeral has its exact value here, where binary64 rounds; the
    infinities, which have no rational value, are left out. *)
Fixpoint drop_blanks (l : list ascii) : list ascii :=
  match l with
  | c :: rest => if Ascii.eqb c " " then drop_blanks rest else l
  | [] => []
  end.

Definition strip (s : string) : list ascii :=
  List.rev (drop_blanks (List.rev (drop_blanks (list_ascii_of_string s)))).

Fixpoint span_digits (l : list ascii) : list ascii * list ascii :=
  match l with
  | c :: rest =>
      if is_digit c then let (ds, tail) := span_digits rest in (c :: ds, tail)
      else ([], l)
  | [] => ([], [])
  end.

Definition digits_number (ds : list ascii) : Z :=
  fold_left (fun acc c => (acc * 10 + (Z.of_nat (nat_of_ascii c) - 48))%Z) ds 0%Z.

Definition take_sign (l : list ascii) : bool * list ascii :=
  match l with
  | "-"%char :: rest => (true, rest)
  | "+"%char :: rest => (false, rest)
  | _ => (false, l)
  end.

(** The exponent part, when what follows the digits is one. *)
Definition parse_exponent (l : list ascii) : option Z :=
  match l with
  | [] => Some 0%Z
  | c :: rest =>
      if Ascii.eqb c "e" || Ascii.eqb c "E" then
        let (negative, l1) := take_sign rest in
        match span_digits l1 with
        | ((_ :: _) as ds, []) =>
            Some (if negative then (- digits_number ds)%Z else digits_number ds)
        | _ => None
        end
      else None
  end.

Definition parse_decimal (s : string) : option Q :=
  let (negative, l1) := take_sign (strip s) in
  let (ip, l2) := span_digits l1 in
  let (fp, l3) := match l2 with
                  | "."%char :: rest => span_digits rest
                  | _ => ([], l2)
                  end in
  match ip ++ fp, parse_exponent l3 with
  | _ :: _, Some e =>
      let digits := inject_Z (digits_number (ip ++ fp)) in
      let shift := (e - Z.of_nat (List.length fp))%Z in
      let q := if (0 <=? shift)%Z
               then Qmult digits (inject_Z (10 ^ shift))
               else Qdiv digits (inject_Z (10 ^ (- shift))) in
      Some (Qred (if negative then Qopp q else q))
  | _, _ => None
  end.

#[export] Instance Q_Numeric : Numeric Q := {
  of_Z := inject_Z;
  nsub := fun a b => Qred (Qminus a b);
  nadd := fun a b => Qred (Qplus a b);
  ndiv := fun a b => Qred (Qdiv a b);
  parse_num := parse_decimal
}.

(** * The rest of the script: the path lists and the sheets *)

(** ** Python helpers on strings and lists *)

Definition backslash : ascii := "092"%char.
Definition slash : ascii := "/"%char.

(** [s.replace(old, new)] for one-character [old] and [new]. *)
Fixpoint replace (old new : ascii) (s : string) : string :=
  match s with
  | EmptyString => EmptyString
  | String c rest =>
      String (if Ascii.eqb c old then new else c) (replace old new rest)
  end.

(** [s.split(sep)] for a one-character separator; the result is never the
    empty list. *)
Fixpoint split (sep : ascii) (s : string) : list string :=
  match s with
  | EmptyString => [EmptyString]
  | String c rest =>
      if Ascii.eqb c sep then EmptyString :: split sep rest
      else match split sep rest with
           | [] => [String c EmptyString]
           | w :: ws => String c w :: ws
           end
  end.

(** [l[-1]] *)
Definition getitem_last {A : Type} (l : list A) : result A :=
  match l with
  | [] => Raise IndexError
  | a :: _ => Ok (last l a)
  end.

(** ** The folders under the start path *)

(** What the script sees of the disk: the names [os.listdir] yields for a
    directory path ([None] when it raises), and the run file behind a file
    path. *)
Record filesystem : Type := {
  listdir : string -> option (list string);
  open_asc : string -> asc_file
}.

(** [os.listdir(directory)], each name with the file at
    [directory + filename]. *)
Definition listing (fs : filesystem) (directory : string) : result folder :=
  match listdir fs directory with
  | None => Raise OSError
  | Some names =>
      Ok (map (fun filename => (filename, open_asc fs (String.append directory filename)))
              names)
  end.

(** The list comprehension over [os.walk(start_path)]: [walk] holds the
    directory paths that [os.walk] yields, the start path first. *)
Definition all_sub_directories (walk : list string) : list string :=
  map (replace backslash slash) walk.

(** [all_sub_directories[1:]] *)
Definition raw_sub_directory_list (walk : list string) : list string :=
  skipn 1 (all_sub_directories walk).

(** The loop that fills [sub_directory_list] and [sub_directory_names]. *)
Fixpoint path_loop (raw : list string) (sub_directory_list sub_directory_names : list string)
    : result (list string * list string) :=
  match raw with
  | [] => Ok (sub_directory_list, sub_directory_names)
  | sub_directory :: rest =>
      name <- getitem_last (split slash sub_directory) ;;
      path_loop rest
        (sub_directory_list ++ [String.append sub_directory "/"])
        (sub_directory_names ++ [name])
  end.

(** ** The main loop with [set_index] *)

Section Sheets.

Context {num : Type} `{Numeric num}.

Local Abbreviation cell := (cell num).
Local Abbreviation DataFrame := (DataFrame num).

(** A table whose rows are labelled by the cells of a former column, as
    [set_index] returns it. *)
Record IndexedFrame : Type := {
  row_labels : list cell;
  sheet_columns : list (string * list cell)
}.

(** [d.set_index(name)]: a new table; the column [name] becomes the row
    labels and is dropped from the columns; KeyError when there is no such
    column.  (Column names are distinct in every table this script builds,
    so one column is concerned.) *)
Definition set_index (d : DataFrame) (name : string) : result IndexedFrame :=
  match find (fun c => String.eqb (fst c) name) (columns d) with
  | None => Raise KeyError
  | Some c =>
      Ok {| row_labels := snd c;
            sheet_columns :=
              filter (fun c => negb (String.eqb (fst c) name)) (columns d) |}
  end.

(** [iterate_over_runs(directory)] on a directory path. *)
Definition iterate_over_runs_at (fs : filesystem) (directory : string)
    : result DataFrame :=
  l <- listing fs directory ;;
  iterate_over_runs l.

(** The main loop with its last two lines: [final_df] is a new table and
    is appended to [dataframes]. *)
Fixpoint sheets_loop (fs : filesystem) (sub_directory_list : list string)
    (h : list DataFrame) (dataframes : list IndexedFrame)
    : result (list DataFrame * list IndexedFrame) :=
  match sub_directory_list with
  | [] => Ok (h, dataframes)
  | sub_folder :: rest =>
      l <- listing fs sub_folder ;;
      ' (h', averaged_df) <- process_folder l h ;;
      d <- load h' averaged_df ;;
      final_df <- set_index d "Pixel" ;;
      sheets_loop fs rest h' (dataframes ++ [final_df])
  end.

(** The script from the walk over the start path to the end of the main
    loop: the names and the tables that the loop over [dataframes] then
    hands to the Excel writer, [dataframes[i]] under the name
    [sub_directory_names[i]].  The writer itself ([pd.ExcelWriter],
    [to_excel], [writer.save()]) is not modelled. *)
Definition before_writer (fs : filesystem) (walk : list string)
    : result (list string * list IndexedFrame) :=
  ' (sub_directory_list, sub_directory_names) <-
    path_loop (raw_sub_directory_list walk) [] [] ;;
  ' (_, dataframes) <- sheets_loop fs sub_directory_list [] [] ;;
  Ok (sub_directory_names, dataframes).

End Sheets.

Arguments IndexedFrame num : clear implicits.

(** * The vocabulary of the statements *)

(** Rows whose labels ascend, none below [lo]. *)
Fixpoint keys_ascending {A : Type} (lo : Z) (l : list (Z * A)) : Prop :=
  match l with
  | [] => True
  | (k, _) :: t => (lo <= k)%Z /\ keys_ascending k t
  end.

(** The number of data rows, fixed by the pixel column [range(1, 1025)]. *)
Definition n_pixels : nat := 1024.

Section Statements.

Context {num : Type} `{Numeric num}.

Local Abbreviation cell := (cell num).
Local Abbreviation Series := (Series num).
Local Abbreviation DataFrame := (DataFrame num).

(** A Series with row labels [0 .. m-1] read at the row labels [0 .. n-1]:
    cut off, or filled up with NaN. *)
Definition align (n : nat) (v : list cell) : list cell :=
  map (fun i => nth i v CNaN) (seq 0 n).

(** A well-formed frame: one cell per row label in every column. *)
Definition well_formed (d : DataFrame) : Prop :=
  Forall (fun c => List.length (snd c) = List.length (index d)) (columns d).

(** [t[name]], and single cells by column name or column position and row
    position. *)
Definition column (d : DataFrame) (name : string) : option (list cell) :=
  option_map snd (find (fun c => String.eqb (fst c) name) (columns d)).

Definition cell_of (d : DataFrame) (name : string) (r : nat) : option cell :=
  match column d name with
  | Some cells => nth_error cells r
  | None => None
  end.

Definition cell_iloc (d : DataFrame) (j r : nat) : option cell :=
  match nth_error (columns d) j with
  | Some c => nth_error (snd c) r
  | None => None
  end.

(** The entries of a folder that the loop of [iterate_over_runs] reads. *)
Definition runs_of (fs : folder) : folder :=
  filter (fun e => endswith (fst e) ".asc") fs.

(** What [iterate_over_runs] takes of a run file:
    [asc_read(...).iloc[:, 1]]. *)
Definition run_series (f : asc_file) : result Series :=
  asc <- asc_read f ;;
  iloc_col asc 1.

(** The column a run file contributes to a table of [n] rows. *)
Definition run_column (n : nat) (e : string * asc_file) : result (string * list cell) :=
  s <- run_series (snd e) ;;
  Ok (fst e, align n (s_values s)).

(** The run columns of dtype [object] after the loop of
    [iterate_over_runs], and after the label row is in place: the label
    ["BG"] makes the first run column one of them. *)
Definition run_is_object (f : asc_file) : bool :=
  match run_series f with
  | Ok s => s_object s
  | _ => false
  end.

Definition objects_of_runs (runs : folder) : list string :=
  fold_left (fun objs e => set_dtype (fst e) (run_is_object (snd e)) objs) runs [].

Definition labelled_objects (runs : folder) : list string :=
  objects_of_runs runs ++
  match runs with
  | e :: _ => if existsb (String.eqb (fst e)) (objects_of_runs runs) then [] else [fst e]
  | [] => []
  end.

(** Every column gets its label on top. *)
Definition label_columns (cols : list (string * list cell)) (labels : list cell)
    : list (string * list cell) :=
  zip_with (fun c v => (fst c, v :: snd c)) cols labels.

(** The row of run numbers as a table of [ncols] columns holds it when its
    first column is numeric: NaN for the [None] of the list. *)
Definition labels_for (ncols : nat) : list cell :=
  [CNaN; CStr "BG"] ++
  map (fun x => CNum (of_Z x)) (py_range 1 (Z.of_nat ncols - 1)).

(** The pixel numbers 1 .. 1024. *)
Definition pixels : list cell := map (fun x => CNum (of_Z x)) (py_range 1 1025).

(** The column that one pass of the loop of [subtract_background] appends,
    computed from the table [t]. *)
Definition difference_column (t : DataFrame) (k : nat) : result (string * list cell) :=
  s <- column_difference t (k + 1) 1 ;;
  Ok (run_column_name k, CNaN :: s_values s).

(** The dtype of that column, and the dtypes of the table once the loop
    has appended the columns [ks]. *)
Definition difference_is_object (t : DataFrame) (k : nat) : bool :=
  match column_difference t (k + 1) 1 with
  | Ok s => s_object s
  | _ => false
  end.

Definition difference_objects (t : DataFrame) (ks : list nat) (objs : list string)
    : list string :=
  fold_left (fun o k => set_dtype (run_column_name k) (difference_is_object t k) o) ks objs.

(** The values [get_averaged_data_column] puts into the [Mean] column. *)
Definition mean_values (t : DataFrame) (number_of_runs : nat) : list cell :=
  s_values (mean_axis1 (iloc_cols_from t (-1 * Z.of_nat number_of_runs))).

(** The table of an experiment with [N] run files once the label row is in
    place: rows [0 .. 1024], the pixel column, and [N] columns named after
    the run files. *)
Definition experiment_table (N : nat) (t : DataFrame) : Prop :=
  index t = RangeIndex (S n_pixels) /\
  well_formed t /\
  exists raw : list (string * list cell),
    columns t = ("Pixel"%string, CNaN :: pixels) :: raw /\
    List.length raw = N /\
    Forall (fun c => endswith (fst c) ".asc" = true) raw.

(** No string among the measured values: rows from 1 on, columns from 1 on. *)
Definition numeric_data (t : DataFrame) : Prop :=
  forall j r x, 1 <= j -> 1 <= r -> cell_iloc t j r = Some x -> is_text x = false.

(** The arithmetic mean of a list of numbers. *)
Definition average (xs : list num) : num :=
  ndiv (nsum xs) (of_Z (Z.of_nat (List.length xs))).

(** The lines of a file that [asc_read] returns a table for: no record
    has more than two fields, the file is not one record of one field, and
    neither column reads as booleans. *)
Definition is_plain (lines : list (list string)) : bool :=
  forallb (fun r => List.length r <=? 2) (records lines) &&
  negb (match records lines with
        | [[_]] => true
        | _ => false
        end) &&
  negb (reads_as_booleans (map (field 0) (records lines))) &&
  negb (reads_as_booleans (map (field 1) (records lines))).

(** A run file that [asc_read] returns a table for and whose intensity
    fields are all numbers or missing-value texts. *)
Definition numeric_file (f : asc_file) : Prop :=
  exists lines,
    f = Lines lines /\
    is_plain lines = true /\
    forallb (fun s => is_na_text s || reads_as_number s)
            (map (field 1) (records lines)) = true.

(** 1025 rows labelled [0 .. 1024], one cell per row in every column, and
    the pixel column: the missing label cell, then 1 .. 1024. *)
Definition table_invariant (t : DataFrame) : Prop :=
  index t = RangeIndex (S n_pixels) /\
  well_formed t /\
  column t "Pixel" = Some (CNaN :: pixels).

(** A table as [iterate_over_runs] has it before the label row is added:
    rows [0 .. 1023], a numeric first column (the pixel column) and [N] run
    columns. *)
Definition aggregated_table (N : nat) (d : DataFrame) : Prop :=
  index d = RangeIndex n_pixels /\
  well_formed d /\
  List.length (columns d) = S N /\
  forall c, nth_error (columns d) 0 = Some c -> is_object d (fst c) = false.

End Statements.

(** ** Paths, listings and a stale [df] *)

(** The character [c] occurs in [s]. *)
Fixpoint contains (c : ascii) (s : string) : bool :=
  match s with
  | EmptyString => false
  | String a rest => Ascii.eqb a c || contains c rest
  end.

(** [path.split("/")[-1]] as a string: [split] never gives the empty
    list, so the subscript is always in range. *)
Definition last_component (path : string) : string :=
  last (split slash path) EmptyString.

Section MoreStatements.

Context {num : Type} `{Numeric num}.

(** Two entries of the same name whose files agree in what can be read
    and, record by record, in every field after the first; the first
    fields, the pixel fields, may differ, as long as they make a column of
    booleans in both files or in neither (such a column is not followed,
    see [asc_read]). *)
Definition same_intensities (e e' : string * asc_file) : Prop :=
  fst e = fst e' /\
  match snd e, snd e' with
  | Lines lines, Lines lines' =>
      Forall2 (fun r r' => tl r = tl r') (records lines) (records lines') /\
      reads_as_booleans (map (field 0) (records lines)) =
      reads_as_booleans (map (field 0) (records lines'))
  | Unreadable, Unreadable => True
  | Undecodable, Undecodable => True
  | _, _ => False
  end.

(** The column one pass of the loop of [subtract_background] computes when
    the global [df] is bound to [g] and the input has the row labels
    [labels]: the difference of two columns of [g], realigned. *)
Definition stale_column (g : DataFrame num) (labels : list Z) (k : nat)
    : result (string * list (cell num)) :=
  s <- column_difference g (k + 1) 1 ;;
  cells <- reindex s labels ;;
  Ok (run_column_name k, cells).

(** Column assignments one after the other. *)
Definition set_columns (news cols : list (string * list (cell num)))
    : list (string * list (cell num)) :=
  fold_left (fun acc c => set_column (fst c) (snd c) acc) news cols.

(** The sheet of the folder at a directory path: the finished table with
    its rows labelled by the pixel column. *)
Definition final_table_at (fs : filesystem) (directory : string)
    : result (IndexedFrame num) :=
  l <- listing fs directory ;;
  t <- finished_table l ;;
  set_index t "Pixel".

End MoreStatements.

(** The path of a sub-folder as the main loop gets it, and the name of its
    sheet, from the directory path [os.walk] yields. *)
Definition sub_folder_path (directory : string) : string :=
  String.append (replace backslash slash directory) "/".

Definition sheet_name_of (directory : string) : string :=
  last_component (replace backslash slash directory).

(** [os.listdir] names no entry twice. *)
Definition distinct_listing (fs : filesystem) (directory : string) : Prop :=
  match listdir fs directory with
  | Some names => NoDup names
  | None => True
  end.

(** * Worked folders, over the rationals *)

(** A run file of [n] lines, all with the same intensity text. *)
Definition constant_run (value : string) (n : nat) : asc_file :=
  Lines (map (fun i => [format_nat i; value]) (seq 1 n)).

Definition empty_frame : DataFrame Q := {| index := []; columns := []; objects := [] |}.

(** The table a call returned; the empty frame stands for a call that did
    not return. *)
Definition table_of (r : result (DataFrame Q)) : DataFrame Q :=
  match r with
  | Ok t => t
  | _ => empty_frame
  end.

(** The folder [700] of the specification: three runs with the constant
    intensities 10, 15 and 12, listed in this order, next to a file that is
    not a run. *)
Definition folder_700 : folder :=
  [("run1.asc", constant_run "10" 1024);
   ("notes.txt", Unreadable);
   ("run2.asc", constant_run "15" 1024);
   ("run3.asc", constant_run "12" 1024)]%string.

Definition table_700 : DataFrame Q := table_of (iterate_over_runs folder_700).
Definition finished_700 : DataFrame Q := table_of (finished_table folder_700).

(** The cell holds a number equal to [q]. *)
Definition holds_number (c : option (cell Q)) (q : Q) : bool :=
  match c with
  | Some (CNum a) => Qeq_bool a q
  | _ => false
  end.

(** [Run: 1] is [a], [Run: 2] is [b] and [Mean] is [m] in every data row. *)
Definition constant_rows (t : DataFrame Q) (a b m : Q) : bool :=
  forallb (fun r =>
             holds_number (cell_of t "Run: 1" r) a &&
             holds_number (cell_of t "Run: 2" r) b &&
             holds_number (cell_of t "Mean" r) m) (seq 1 1024).

(** The cells of one row under the given column names. *)
Definition row_under (t : DataFrame Q) (names : list string) (r : nat)
    : list (option (cell Q)) :=
  map (fun name => cell_of t name r) names.

(** A folder whose third run file stops after three lines. *)
Definition short_folder : folder :=
  [("run1.asc", constant_run "10" 1024);
   ("run2.asc", constant_run "15" 1024);
   ("run3.asc", constant_run "12" 3)]%string.

Definition short_finished : DataFrame Q := table_of (finished_table short_folder).

(** A folder with one run file, and a folder with none. *)
Definition one_run_folder : folder := [("run1.asc", constant_run "10" 1024)]%string.
Definition one_run_finished : DataFrame Q := table_of (finished_table one_run_folder).

Definition no_run_folder : folder := [("notes.txt", Unreadable)]%string.

(** A stale table for the global [df]: the table of another folder. *)
Definition other_folder : folder :=
  [("a.asc", constant_run "20" 1024);
   ("b.asc", constant_run "50" 1024);
   ("c.asc", constant_run "12" 1024)]%string.

Definition other_table : DataFrame Q := table_of (iterate_over_runs other_folder).

(** The column that [subtract_background] appends under [name] to the
    table [t] when the global [df] is bound to another table [g] of the
    store. *)
Definition appended_column (g t : DataFrame Q) (name : string)
    : option (list (cell Q)) :=
  match subtract_background 0 1 [g; t] with
  | Ok (h, _) =>
      match load h 1 with
      | Ok d => column d name
      | _ => None
      end
  | _ => None
  end.

(** An aggregated table before its label row, with two runs. *)
Definition aggregated_example : DataFrame Q :=
  {| index := RangeIndex n_pixels;
     columns := [("Pixel", pixels);
                 ("run1.asc", repeat (CNum (10 # 1)%Q) n_pixels);
                 ("run2.asc", repeat (CNum (15 # 1)%Q) n_pixels)]%string;
     objects := [] |}.

(** A table of two data rows with its background-subtracted columns, the
    second of them without a value in the last row. *)
Definition two_row_table : DataFrame Q :=
  {| index := [0; 1; 2]%Z;
     columns := [("Pixel", [CNaN; CNum (1 # 1)%Q; CNum (2 # 1)%Q]);
                 ("run1.asc", [CStr "BG"; CNum (10 # 1)%Q; CNum (10 # 1)%Q]);
                 ("run2.asc", [CNum (1 # 1)%Q; CNum (15 # 1)%Q; CNum (15 # 1)%Q]);
                 ("run3.asc", [CNum (2 # 1)%Q; CNum (12 # 1)%Q; CNaN]);
                 ("Run: 1", [CNaN; CNum (5 # 1)%Q; CNum (5 # 1)%Q]);
                 ("Run: 2", [CNaN; CNum (2 # 1)%Q; CNaN])]%string;
     objects := ["run1.asc"; "Run: 1"; "Run: 2"]%string |}.

(** Two folders whose files hold the same intensities under other pixel
    fields. *)
Definition plain_folder : folder :=
  [("run1.asc", Lines [["1"; "10"]; ["2"; "11"]]);
   ("run2.asc", Lines [["1"; "15"]])]%string.

Definition renumbered_folder : folder :=
  [("run1.asc", Lines [["7"; "10"]; ["x"; "11"]]);
   ("run2.asc", Lines [[""; "15"]])]%string.

(** Small tables of two data rows: one with a single run, and two with
    three runs each and the same row labels. *)
Definition one_run_rows : DataFrame Q :=
  {| index := [0; 1; 2]%Z;
     columns := [("Pixel", [CNaN; CNum (1 # 1)%Q; CNum (2 # 1)%Q]);
                 ("run1.asc", [CStr "BG"; CNum (10 # 1)%Q; CNum (10 # 1)%Q])]%string;
     objects := ["run1.asc"]%string |}.

Definition stale_rows : DataFrame Q :=
  {| index := [0; 1; 2]%Z;
     columns := [("Pixel", [CNaN; CNum (1 # 1)%Q; CNum (2 # 1)%Q]);
                 ("a.asc", [CStr "BG"; CNum (20 # 1)%Q; CNum (20 # 1)%Q]);
                 ("b.asc", [CNum (1 # 1)%Q; CNum (50 # 1)%Q; CNum (50 # 1)%Q]);
                 ("c.asc", [CNum (2 # 1)%Q; CNum (12 # 1)%Q; CNaN])]%string;
     objects := ["a.asc"]%string |}.

Definition fresh_rows : DataFrame Q :=
  {| index := [0; 1; 2]%Z;
     columns := [("Pixel", [CNaN; CNum (1 # 1)%Q; CNum (2 # 1)%Q]);
                 ("run1.asc", [CStr "BG"; CNum (10 # 1)%Q; CNum (10 # 1)%Q]);
                 ("run2.asc", [CNum (1 # 1)%Q; CNum (15 # 1)%Q; CNum (15 # 1)%Q]);
                 ("run3.asc", [CNum (2 # 1)%Q; CNum (12 # 1)%Q; CNum (12 # 1)%Q])]%string;
     objects := ["run1.asc"]%string |}.

Definition later_rows : DataFrame Q :=
  {| index := [0; 1; 2]%Z;
     columns := [("Pixel", [CNaN; CNum (1 # 1)%Q; CNum (2 # 1)%Q]);
                 ("x.asc", [CStr "BG"; CNum (7 # 1)%Q; CNaN]);
                 ("y.asc", [CNum (1 # 1)%Q; CNum (8 # 1)%Q; CNum (9 # 1)%Q]);
                 ("z.asc", [CNum (2 # 1)%Q; CNaN; CNum (1 # 2)%Q])]%string;
     objects := ["x.asc"]%string |}.

(** The disk of the worked example: the start path [data] holds the folder
    [700] and nothing else; [os.walk] on Windows yields the path of the
    folder with a backslash. *)
Definition disk_700 : filesystem :=
  {| listdir := fun directory =>
       if String.eqb directory "data/700/" then Some (map fst folder_700)
       else if String.eqb directory "data/" then Some ["700"%string]
       else None;
     open_asc := fun path =>
       if String.eqb path "data/700/run1.asc" then constant_run "10" 1024
       else if String.eqb path "data/700/run2.asc" then constant_run "15" 1024
       else if String.eqb path "data/700/run3.asc" then constant_run "12" 1024
       else Unreadable |}.

Definition walk_700 : list string := ["data"; "data\700"]%string.

(** The sheet a pass returned; the empty sheet stands for a pass that did
    not return. *)
Definition sheet_of (o : result (IndexedFrame Q)) : IndexedFrame Q :=
  match o with
  | Ok s => s
  | _ => {| row_labels := []; sheet_columns := [] |}
  end.

Definition sheet_700 : IndexedFrame Q := sheet_of (final_table_at disk_700 "data/700/").

(** * Properties *)

(** ** Lists, ranges and row labels *)

Lemma py_range_length (a b : Z) : List.length (py_range a b) = Z.to_nat (b - a).
Proof. unfold py_range. now rewrite length_map, length_seq. Qed.

Lemma RangeIndex_seq (n : nat) : RangeIndex n = map Z.of_nat (seq 0 n).
Proof.
  unfold RangeIndex, py_range.
  replace (Z.to_nat (Z.of_nat n - 0)) with n by lia.
  apply map_ext. intros i. lia.
Qed.

Lemma RangeIndex_length (n : nat) : List.length (RangeIndex n) = n.
Proof. rewrite RangeIndex_seq. now rewrite length_map, length_seq. Qed.

Lemma RangeIndex_S (n : nat) :
  RangeIndex (S n) = 0%Z :: map (fun l => (l + 1)%Z) (RangeIndex n).
Proof.
  rewrite !RangeIndex_seq. simpl. f_equal.
  rewrite <- seq_shift, !map_map. apply map_ext. intros i. lia.
Qed.

Lemma RangeIndex_NoDup (n : nat) : NoDup (RangeIndex n).
Proof.
  rewrite RangeIndex_seq. apply Injective_map_NoDup.
  - intros i j. lia.
  - apply seq_NoDup.
Qed.

Lemma RangeIndex_In (n : nat) (l : Z) : In l (RangeIndex n) <-> (0 <= l < Z.of_nat n)%Z.
Proof.
  rewrite RangeIndex_seq, in_map_iff. split.
  - intros (i & <- & Hi). apply in_seq in Hi. lia.
  - intros Hl. exists (Z.to_nat l). split; [lia|]. apply in_seq. lia.
Qed.

Lemma list_Z_eqb_refl (l : list Z) : list_Z_eqb l l = true.
Proof. induction l; simpl; [reflexivity|]. now rewrite Z.eqb_refl. Qed.

Lemma list_Z_eqb_eq (l m : list Z) : list_Z_eqb l m = true -> l = m.
Proof.
  revert m. induction l as [|a l IH]; intros [|b m]; simpl; try discriminate; auto.
  intros E. apply andb_prop in E. destruct E as [E1 E2].
  apply Z.eqb_eq in E1. subst b. f_equal. now apply IH.
Qed.

Lemma existsb_Zeqb_false (a : Z) (l : list Z) :
  ~ In a l -> existsb (Z.eqb a) l = false.
Proof.
  intros Hn. destruct (existsb (Z.eqb a) l) eqn:E; [|reflexivity].
  apply existsb_exists in E. destruct E as (x & Hx & E).
  apply Z.eqb_eq in E. subst x. contradiction.
Qed.

Lemma has_duplicates_NoDup (l : list Z) : NoDup l -> has_duplicates l = false.
Proof.
  induction 1 as [|a l Hn Hd IH]; simpl; [reflexivity|].
  now rewrite (existsb_Zeqb_false _ _ Hn), IH.
Qed.

Lemma nth_seq_self {A : Type} (d : A) (v : list A) :
  map (fun i => nth i v d) (seq 0 (List.length v)) = v.
Proof.
  induction v as [|a v IH]; simpl; [reflexivity|].
  f_equal. rewrite <- seq_shift, map_map. exact IH.
Qed.

Lemma zip_with_same_length {A B C : Type} (f : A -> B -> C) (xs : list A) :
  forall ys : list B,
    List.length xs = List.length ys ->
    List.length (zip_with f xs ys) = List.length xs.
Proof.
  induction xs as [|x xs IH]; intros [|y ys] E; simpl in *; try discriminate; auto.
Qed.

Lemma zip_with_map_fst {A B C : Type} (g : A -> C) (f : A -> B -> A)
    (l : list A) (m : list B) :
  (forall a b, g (f a b) = g a) ->
  List.length l = List.length m ->
  map g (zip_with f l m) = map g l.
Proof.
  intros Hg. revert m. induction l as [|a l IH]; intros [|b m]; simpl;
    try discriminate; auto.
  intros [= E]. now rewrite Hg, IH.
Qed.

(** ** The error monad *)

Lemma bind_Ok {A B : Type} (m : result A) (k : A -> result B) (b : B) :
  bind m k = Ok b -> exists a, m = Ok a /\ k a = Ok b.
Proof. destruct m as [a|e|]; simpl; [eauto|discriminate|discriminate]. Qed.

Lemma mapM_length {A B : Type} (f : A -> result B) (l : list A) (l' : list B) :
  mapM f l = Ok l' -> List.length l' = List.length l.
Proof.
  revert l'. induction l as [|a l IH]; simpl; intros l' E.
  - now inversion E.
  - apply bind_Ok in E. destruct E as (b & _ & E).
    apply bind_Ok in E. destruct E as (bs & Ebs & E).
    inversion E. simpl. f_equal. now apply IH.
Qed.

Lemma mapM_nth_error {A B : Type} (f : A -> result B) (l : list A) (l' : list B) :
  mapM f l = Ok l' ->
  forall i a, nth_error l i = Some a ->
    exists b, nth_error l' i = Some b /\ f a = Ok b.
Proof.
  revert l'. induction l as [|x l IH]; simpl; intros l' E i a Hi.
  - destruct i; discriminate.
  - apply bind_Ok in E. destruct E as (b & Eb & E).
    apply bind_Ok in E. destruct E as (bs & Ebs & E).
    inversion E. subst l'. destruct i as [|i]; simpl in *.
    + inversion Hi. subst. eauto.
    + eapply IH; eauto.
Qed.

Lemma mapM_app {A B : Type} (f : A -> result B) (l m : list A) :
  mapM f (l ++ m) = (xs <- mapM f l ;; ys <- mapM f m ;; Ok (xs ++ ys)).
Proof.
  induction l as [|a l IH]; simpl.
  - destruct (mapM f m); reflexivity.
  - destruct (f a); simpl; try reflexivity. rewrite IH.
    destruct (mapM f l); simpl; try reflexivity.
    destruct (mapM f m); reflexivity.
Qed.

Lemma mapM_total {A B : Type} (f : A -> result B) (l : list A) :
  (forall a, In a l -> exists b, f a = Ok b) -> exists l', mapM f l = Ok l'.
Proof.
  induction l as [|a l IH]; simpl; intros Hf; [eauto|].
  destruct (Hf a (or_introl eq_refl)) as (b & ->).
  destruct IH as (l' & ->); [intros; apply Hf; auto|]. simpl. eauto.
Qed.

(** The first element on which [f] does not return decides the outcome. *)
Lemma mapM_Raise {A B : Type} (f : A -> result B) (l : list A) (e : exn) :
  mapM f l = Raise e ->
  exists done a rest,
    l = done ++ a :: rest /\
    Forall (fun x => is_ok (f x) = true) done /\
    f a = Raise e.
Proof.
  induction l as [|x l IH]; simpl; [discriminate|].
  destruct (f x) as [b|e'|] eqn:Ex; cbn [bind]; [| |discriminate].
  - destruct (mapM f l) as [bs|e''|] eqn:El; cbn [bind]; try discriminate.
    intros [= <-]. destruct (IH eq_refl) as (done & a & rest & -> & Hdone & Ha).
    exists (x :: done), a, rest. repeat split; auto.
    constructor; [now rewrite Ex|exact Hdone].
  - intros [= <-]. exists [], x, l. repeat split; auto.
Qed.

Lemma mapM_first_failure {A B : Type} (f : A -> result B) (done rest : list A)
    (a : A) (e : exn) :
  Forall (fun x => is_ok (f x) = true) done ->
  f a = Raise e ->
  mapM f (done ++ a :: rest) = Raise e.
Proof.
  intros Hdone Ha. induction Hdone as [|x done Hx _ IH]; simpl.
  - now rewrite Ha.
  - destruct (f x); try discriminate Hx. cbn [bind]. now rewrite IH.
Qed.

Lemma mapM_Ok_all {A B : Type} (f : A -> result B) (l : list A) :
  (exists bs, mapM f l = Ok bs) <-> Forall (fun x => is_ok (f x) = true) l.
Proof.
  induction l as [|x l IH]; simpl.
  - split; [constructor|eauto].
  - split.
    + intros (bs & E). apply bind_Ok in E. destruct E as (b & Eb & E).
      apply bind_Ok in E. destruct E as (bs' & Ebs & _).
      constructor; [now rewrite Eb|]. apply IH. eauto.
    + intros Hall. apply Forall_cons_iff in Hall. destruct Hall as [Hx Hl].
      apply IH in Hl. destruct Hl as (bs & ->).
      destruct (f x); try discriminate Hx. cbn [bind]. eauto.
Qed.

(** ** Sorting a frame whose new row was put last *)

Lemma insert_row_head {A : Type} (k : Z) (a : A) (l : list (Z * A)) :
  keys_ascending k l -> insert_row k a l = (k, a) :: l.
Proof.
  destruct l as [|[k' a'] t]; simpl; [reflexivity|].
  intros [Hk _]. destruct (Z.leb_spec k k'); [reflexivity|lia].
Qed.

Lemma sort_rows_sorted {A : Type} (lo : Z) (l : list (Z * A)) :
  keys_ascending lo l -> sort_rows l = l.
Proof.
  revert lo. induction l as [|[k a] t IH]; simpl; intros lo; [reflexivity|].
  intros [_ Ht]. unfold sort_rows in *. simpl.
  rewrite (IH k Ht). now apply insert_row_head.
Qed.

Lemma sort_rows_last {A : Type} (lo k : Z) (a : A) (l : list (Z * A)) :
  keys_ascending lo l -> (k < lo)%Z -> sort_rows (l ++ [(k, a)]) = (k, a) :: l.
Proof.
  revert lo. induction l as [|[k1 a1] t IH]; simpl; intros lo Hl Hk; [reflexivity|].
  destruct Hl as [Hlo Ht]. unfold sort_rows in *. simpl.
  rewrite (IH k1 Ht) by lia. simpl.
  destruct (Z.leb_spec k1 k); [lia|].
  f_equal. now apply insert_row_head.
Qed.

Lemma keys_ascending_range {A : Type} (s : nat) (v : list A) (lo : Z) (n : nat) :
  (lo <= Z.of_nat s)%Z ->
  keys_ascending lo (combine (map Z.of_nat (seq s n)) v).
Proof.
  revert s v lo. induction n as [|n IH]; intros s v lo Hlo; simpl; [exact I|].
  destruct v as [|a v]; simpl; [exact I|].
  split; [exact Hlo|]. apply IH. lia.
Qed.

(** ** Column names *)

Lemma string_of_uint_digits (d : uint) :
  forallb is_digit (list_ascii_of_string (NilEmpty.string_of_uint d)) = true.
Proof. induction d; simpl; auto. Qed.

Lemma to_uint_not_Nil (i : nat) : Nat.to_uint i <> Nil.
Proof.
  intros E. pose proof (Unsigned.of_to i) as Hi. rewrite E in Hi.
  simpl in Hi. subst i. discriminate E.
Qed.

Lemma format_nat_inj (i j : nat) : format_nat i = format_nat j -> i = j.
Proof.
  unfold format_nat. intros E.
  assert (Some (Nat.to_uint i) = Some (Nat.to_uint j)) as E'.
  { rewrite <- !NilEmpty.usu. now rewrite E. }
  inversion E' as [E'']. rewrite <- (Unsigned.of_to i), <- (Unsigned.of_to j).
  now rewrite E''.
Qed.

Lemma run_column_name_inj (i j : nat) :
  run_column_name i = run_column_name j -> i = j.
Proof.
  unfold run_column_name. simpl. intros E. inversion E. now apply format_nat_inj.
Qed.

Lemma list_ascii_of_append (a b : string) :
  list_ascii_of_string (String.append a b) =
  list_ascii_of_string a ++ list_ascii_of_string b.
Proof. induction a; simpl; [reflexivity|]. now rewrite IHa. Qed.

Lemma format_nat_last (i : nat) :
  exists l c, list_ascii_of_string (format_nat i) = l ++ [c] /\ is_digit c = true.
Proof.
  unfold format_nat.
  pose proof (string_of_uint_digits (Nat.to_uint i)) as Hd.
  destruct (list_ascii_of_string (NilEmpty.string_of_uint (Nat.to_uint i)))
    as [|a l] eqn:E.
  - exfalso. apply (to_uint_not_Nil i).
    destruct (Nat.to_uint i); simpl in E; try discriminate. reflexivity.
  - destruct (@exists_last _ (a :: l)) as (l' & c & E'); [discriminate|].
    exists l', c. split; [exact E'|].
    rewrite E' in Hd. rewrite forallb_app in Hd.
    apply andb_prop in Hd. destruct Hd as [_ Hc]. simpl in Hc.
    now rewrite andb_true_r in Hc.
Qed.

Lemma endswith_asc_last (s : string) :
  endswith s ".asc" = true ->
  exists l, list_ascii_of_string s = l ++ ["c"%char].
Proof.
  unfold endswith.
  change (List.rev (list_ascii_of_string ".asc")) with ["c"; "s"; "a"; "."]%char.
  destruct (List.rev (list_ascii_of_string s)) as [|c l] eqn:E;
    cbn [prefixb]; [discriminate|].
  intros Hp. apply andb_prop in Hp. destruct Hp as [Hc _].
  apply Ascii.eqb_eq in Hc. subst c.
  exists (List.rev l).
  rewrite <- (rev_involutive (list_ascii_of_string s)), E. reflexivity.
Qed.

Lemma run_column_name_not_asc (i : nat) :
  endswith (run_column_name i) ".asc" = false.
Proof.
  destruct (endswith (run_column_name i) ".asc") eqn:E; [|reflexivity].
  apply endswith_asc_last in E. destruct E as (l & E).
  unfold run_column_name in E. rewrite list_ascii_of_append in E.
  destruct (format_nat_last i) as (l' & c & E' & Hc).
  rewrite E', app_assoc in E. apply app_inj_tail in E.
  destruct E as [_ ->]. discriminate Hc.
Qed.

Lemma run_column_name_not_Pixel (i : nat) : run_column_name i <> "Pixel"%string.
Proof. unfold run_column_name. simpl. discriminate. Qed.

Lemma run_column_name_not_Mean (i : nat) : run_column_name i <> "Mean"%string.
Proof. unfold run_column_name. simpl. discriminate. Qed.

Lemma filter_keeps_names_distinct {E K : Type} (key : E -> K) (keep : E -> bool) :
  forall entries : list E,
    NoDup (map key entries) -> NoDup (map key (filter keep entries)).
Proof.
  intros entries. induction entries as [|e rest IHrest]; simpl; intros Hdistinct.
  - constructor.
  - apply NoDup_cons_iff in Hdistinct. destruct Hdistinct as [Hfresh Hrest].
    destruct (keep e); simpl; [|now apply IHrest].
    constructor; [|now apply IHrest].
    intros Hin. apply Hfresh. apply in_map_iff in Hin.
    destruct Hin as (x & <- & Hx).
    apply filter_In in Hx. apply in_map. tauto.
Qed.

Lemma combine_snoc {A B : Type} (l : list A) (m : list B) (a : A) (b : B) :
  List.length l = List.length m ->
  combine (l ++ [a]) (m ++ [b]) = combine l m ++ [(a, b)].
Proof.
  revert m. induction l as [|x l IH]; intros [|y m]; simpl; try discriminate; auto.
  intros [= E]. now rewrite IH.
Qed.

Lemma map_fst_combine_eq {A B : Type} (l : list A) (m : list B) :
  List.length l = List.length m -> map fst (combine l m) = l.
Proof.
  revert m. induction l as [|x l IH]; intros [|y m]; simpl; try discriminate; auto.
  intros [= E]. now rewrite IH.
Qed.

Lemma map_snd_combine_eq {A B : Type} (l : list A) (m : list B) :
  List.length l = List.length m -> map snd (combine l m) = m.
Proof.
  revert m. induction l as [|x l IH]; intros [|y m]; simpl; try discriminate; auto.
  intros [= E]. now rewrite IH.
Qed.

(** ** Frames *)

Section Frames.

Context {num : Type} `{Numeric num}.

Local Abbreviation cell := (cell num).
Local Abbreviation Series := (Series num).
Local Abbreviation DataFrame := (DataFrame num).

Lemma align_length (n : nat) (v : list cell) : List.length (align n v) = n.
Proof. unfold align. now rewrite length_map, length_seq. Qed.

Lemma set_column_fresh (name : string) (cells : list cell)
    (cols : list (string * list cell)) :
  ~ In name (map fst cols) -> set_column name cells cols = cols ++ [(name, cells)].
Proof.
  induction cols as [|[n c] rest IH]; simpl; intros Hn; [reflexivity|].
  destruct (String.eqb_spec n name) as [E|E]; [tauto|].
  f_equal. apply IH. tauto.
Qed.

Lemma reindex_same (idx : list Z) (v : list cell) (o : bool) :
  reindex {| s_index := idx; s_values := v; s_object := o |} idx = Ok v.
Proof. unfold reindex. simpl. now rewrite list_Z_eqb_refl. Qed.

Lemma lookup_label_absent (l : Z) (labels : list Z) (vals : list cell) :
  ~ In l labels -> lookup_label l labels vals = CNaN.
Proof.
  revert vals. induction labels as [|k labels IH]; intros [|v vals] Hn; simpl; auto.
  destruct (Z.eqb_spec k l) as [E|E]; [simpl in Hn; tauto|].
  apply IH. simpl in Hn. tauto.
Qed.

Lemma lookup_label_self (labels : list Z) (vals : list cell) :
  NoDup labels -> List.length vals = List.length labels ->
  map (fun l => lookup_label l labels vals) labels = vals.
Proof.
  revert vals. induction labels as [|k labels IH]; intros [|v vals] Hn Hl;
    simpl in *; try discriminate; auto.
  inversion Hn as [|? ? Hk Hn']; subst.
  rewrite Z.eqb_refl. f_equal.
  transitivity (map (fun l => lookup_label l labels vals) labels);
    [|apply IH; [assumption|lia]].
  apply map_ext_in. intros l Hl'.
  destruct (Z.eqb_spec k l) as [E|E]; [subst; contradiction|reflexivity].
Qed.

Lemma lookup_label_range (v : list cell) (i s : nat) :
  s <= i ->
  lookup_label (Z.of_nat i) (map Z.of_nat (seq s (List.length v))) v = nth (i - s) v CNaN.
Proof.
  revert i s. induction v as [|x v IH]; intros i s Hs; simpl.
  - now destruct (i - s).
  - destruct (Z.eqb_spec (Z.of_nat s) (Z.of_nat i)) as [E|E].
    + replace (i - s) with 0 by lia. reflexivity.
    + rewrite IH by lia. replace (i - s) with (S (i - S s)) by lia. reflexivity.
Qed.

(** Realigning a Series that was cut from row 1 on: the first row gets NaN. *)
Lemma reindex_tail (a : Z) (rest : list Z) (vals : list cell) (o : bool) :
  NoDup (a :: rest) -> List.length vals = List.length rest ->
  reindex {| s_index := rest; s_values := vals; s_object := o |} (a :: rest) =
  Ok (CNaN :: vals).
Proof.
  intros Hn Hl. unfold reindex. simpl.
  destruct (list_Z_eqb rest (a :: rest)) eqn:E.
  - apply list_Z_eqb_eq in E. apply (f_equal (@List.length Z)) in E.
    simpl in E. lia.
  - inversion Hn as [|? ? Ha Hr]; subst.
    rewrite (has_duplicates_NoDup Hr).
    rewrite (lookup_label_absent _ _ _ Ha), (lookup_label_self _ Hr Hl).
    reflexivity.
Qed.

(** Realigning a freshly read run column at the rows of the pixel frame. *)
Lemma reindex_range (m n : nat) (v : list cell) (o : bool) :
  List.length v = m ->
  reindex {| s_index := RangeIndex m; s_values := v; s_object := o |} (RangeIndex n) =
  Ok (align n v).
Proof.
  intros Hl. unfold reindex. simpl.
  destruct (list_Z_eqb (RangeIndex m) (RangeIndex n)) eqn:E.
  - apply list_Z_eqb_eq in E. apply (f_equal (@List.length Z)) in E.
    rewrite !RangeIndex_length in E. subst n m.
    unfold align. now rewrite nth_seq_self.
  - rewrite (has_duplicates_NoDup (RangeIndex_NoDup m)).
    unfold align. rewrite (RangeIndex_seq n), map_map. f_equal.
    apply map_ext. intros i. rewrite RangeIndex_seq, <- Hl.
    rewrite lookup_label_range by lia. now rewrite Nat.sub_0_r.
Qed.

Lemma setitem_rows (d : DataFrame) (name : string) (s : Series) :
  index d <> [] ->
  setitem d name s =
  (cells <- reindex s (index d) ;;
   Ok {| index := index d; columns := set_column name cells (columns d);
         objects := set_dtype name (s_object s) (objects d) |}).
Proof. unfold setitem. destruct (index d); [congruence|reflexivity]. Qed.

(** A Series without rows, read at other row labels: NaN everywhere. *)
Lemma reindex_empty (n : nat) (o : bool) :
  reindex (num := num) {| s_index := []; s_values := []; s_object := o |} (RangeIndex n) =
  Ok (align n []).
Proof.
  unfold reindex. cbn [s_index s_values has_duplicates].
  destruct (list_Z_eqb [] (RangeIndex n)) eqn:E.
  - apply list_Z_eqb_eq in E. apply (f_equal (@List.length Z)) in E.
    rewrite RangeIndex_length in E. subst n. reflexivity.
  - unfold align. rewrite (RangeIndex_seq n), map_map. f_equal.
    apply map_ext. intros i. now destruct i.
Qed.

(** *** The dtypes *)

Lemma set_dtype_self (name : string) (o : bool) (objs : list string) :
  existsb (String.eqb name) (set_dtype name o objs) = o.
Proof.
  unfold set_dtype.
  assert (existsb (String.eqb name)
            (filter (fun n => negb (String.eqb n name)) objs) = false) as E.
  { induction objs as [|n objs IH]; simpl; [reflexivity|].
    destruct (String.eqb_spec n name) as [->|Hn]; simpl; [exact IH|].
    rewrite IH. destruct (String.eqb_spec name n); [congruence|reflexivity]. }
  destruct o; [|exact E].
  rewrite existsb_app, E. simpl. now rewrite String.eqb_refl.
Qed.

Lemma set_dtype_other (name other : string) (o : bool) (objs : list string) :
  other <> name ->
  existsb (String.eqb other) (set_dtype name o objs) = existsb (String.eqb other) objs.
Proof.
  intros Hne. unfold set_dtype.
  assert (existsb (String.eqb other)
            (filter (fun n => negb (String.eqb n name)) objs) =
          existsb (String.eqb other) objs) as E.
  { induction objs as [|n objs IH]; simpl; [reflexivity|].
    destruct (String.eqb_spec n name) as [->|Hn]; simpl.
    - rewrite IH. destruct (String.eqb_spec other name); [congruence|reflexivity].
    - now rewrite IH. }
  destruct o; [|exact E].
  rewrite existsb_app, E. simpl.
  destruct (String.eqb_spec other name); [congruence|]. now rewrite orb_false_r.
Qed.

Lemma RangeIndex_not_nil (n : nat) : 0 < n -> RangeIndex n <> [].
Proof.
  intros Hn E. apply (f_equal (@List.length Z)) in E.
  rewrite RangeIndex_length in E. simpl in E. lia.
Qed.

Lemma find_app_fresh (name : string) (cols more : list (string * list cell)) :
  ~ In name (map fst cols) ->
  find (fun c => String.eqb (fst c) name) (cols ++ more) =
  find (fun c => String.eqb (fst c) name) more.
Proof.
  induction cols as [|[n c] rest IH]; simpl; intros Hn; [reflexivity|].
  destruct (String.eqb_spec n name) as [E|E]; [tauto|]. apply IH. tauto.
Qed.

Lemma find_app_found (name : string) (cols more : list (string * list cell)) c :
  find (fun c => String.eqb (fst c) name) cols = Some c ->
  find (fun c => String.eqb (fst c) name) (cols ++ more) = Some c.
Proof.
  induction cols as [|[n x] rest IH]; simpl; [discriminate|].
  destruct (String.eqb n name); auto.
Qed.

Lemma find_set_column (name : string) (cells : list cell)
    (cols : list (string * list cell)) :
  find (fun c => String.eqb (fst c) name) (set_column name cells cols) =
  Some (name, cells).
Proof.
  induction cols as [|[n c] rest IH]; simpl.
  - now rewrite String.eqb_refl.
  - destruct (String.eqb n name) eqn:E; simpl.
    + now rewrite String.eqb_refl.
    + now rewrite E.
Qed.

End Frames.

(** ** The stages of one folder in closed form *)

Section Stages.

Context {num : Type} `{Numeric num}.

Local Abbreviation cell := (cell num).
Local Abbreviation Series := (Series num).
Local Abbreviation DataFrame := (DataFrame num).

Lemma convert_column_length (fields : list string) :
  List.length (convert_column fields) = List.length fields.
Proof.
  unfold convert_column.
  destruct (forallb _ fields); now rewrite length_map.
Qed.

Lemma runs_of_cons (e : string * asc_file) (fs : folder) :
  runs_of (e :: fs) = if endswith (fst e) ".asc" then e :: runs_of fs else runs_of fs.
Proof. reflexivity. Qed.

(** What [asc_read] returns: rows labelled from 0, the two columns, one
    cell per row in each. *)
Lemma asc_read_shape (f : asc_file) (asc : DataFrame) :
  asc_read f = Ok asc ->
  exists p v objs,
    asc = {| index := RangeIndex (List.length v);
             columns := [("Pixel"%string, p); ("value"%string, v)];
             objects := objs |} /\
    List.length p = List.length v.
Proof.
  destruct f as [| |lines]; cbn [asc_read]; try discriminate.
  destruct (records lines) as [|first rest];
    [intros [= <-]; now exists [], [], ["Pixel"%string; "value"%string]|].
  destruct (2 <? List.length first); [discriminate|].
  destruct (existsb _ rest); [discriminate|].
  destruct ((List.length first =? 1) && (List.length rest =? 0)); [discriminate|].
  cbv zeta. destruct (reads_as_booleans _ || reads_as_booleans _); [discriminate|].
  intros [= <-].
  exists (convert_column (map (field 0) (first :: rest))),
         (convert_column (map (field 1) (first :: rest))),
         ((if keeps_text (map (field 0) (first :: rest)) then ["Pixel"%string] else []) ++
          (if keeps_text (map (field 1) (first :: rest)) then ["value"%string] else [])).
  split.
  - now rewrite convert_column_length, length_map.
  - now rewrite !convert_column_length, !length_map.
Qed.

Lemma no_wide_record (rs : list (list string)) :
  forallb (fun r => List.length r <=? 2) rs = negb (existsb (fun r => 2 <? List.length r) rs).
Proof.
  induction rs as [|r rs IH]; simpl; [reflexivity|].
  rewrite IH, negb_orb. f_equal. now rewrite Nat.ltb_antisym, negb_involutive.
Qed.

Lemma one_short_record (first : list string) (rest : list (list string)) :
  match first :: rest with
  | [[_]] => true
  | _ => false
  end = (List.length first =? 1) && (List.length rest =? 0).
Proof. destruct first as [|a [|b f]]; destruct rest; reflexivity. Qed.

(** [asc_read] returns a table for the files of [is_plain] lines, and for
    no other file. *)
Lemma asc_read_plain (lines : list (list string)) :
  is_plain lines = true ->
  exists objs,
    asc_read (Lines lines) =
    Ok {| index := RangeIndex (List.length (records lines));
          columns := [("Pixel"%string, convert_column (map (field 0) (records lines)));
                      ("value"%string, convert_column (map (field 1) (records lines)))];
          objects := objs |}.
Proof.
  unfold is_plain. cbn [asc_read]. rewrite no_wide_record.
  destruct (records lines) as [|first rest] eqn:E; [intros _; now eexists|].
  rewrite one_short_record. cbn [existsb]. intros Hp.
  apply andb_true_iff in Hp. destruct Hp as [Hp H4].
  apply andb_true_iff in Hp. destruct Hp as [Hp H3].
  apply andb_true_iff in Hp. destruct Hp as [H1 H2].
  apply negb_true_iff in H1, H2, H3, H4. apply orb_false_iff in H1.
  destruct H1 as [-> ->]. rewrite H2. cbv zeta. rewrite H3, H4. cbn [orb].
  now eexists.
Qed.

Lemma asc_read_Ok (f : asc_file) (asc : DataFrame) :
  asc_read f = Ok asc ->
  exists lines, f = Lines lines /\ is_plain lines = true.
Proof.
  destruct f as [| |lines]; cbn [asc_read]; try discriminate.
  intros E. exists lines. split; [reflexivity|].
  unfold is_plain. rewrite no_wide_record.
  destruct (records lines) as [|first rest]; [reflexivity|].
  rewrite one_short_record. cbn [existsb].
  destruct (2 <? List.length first); [discriminate|].
  destruct (existsb _ rest); [discriminate|].
  destruct ((List.length first =? 1) && (List.length rest =? 0)); [discriminate|].
  cbv zeta in E.
  destruct (reads_as_booleans (map (field 0) (first :: rest))); [discriminate|].
  destruct (reads_as_booleans (map (field 1) (first :: rest))); [discriminate|].
  reflexivity.
Qed.

Lemma run_series_plain (lines : list (list string)) :
  is_plain lines = true ->
  exists o,
    run_series (Lines lines) =
    Ok {| s_index := RangeIndex (List.length (records lines));
          s_values := convert_column (map (field 1) (records lines));
          s_object := o |}.
Proof.
  intros Hp. destruct (asc_read_plain _ Hp) as (objs & E).
  unfold run_series. rewrite E. cbn. now eexists.
Qed.

Lemma run_series_Ok (f : asc_file) (s : Series) :
  run_series f = Ok s ->
  exists lines,
    f = Lines lines /\ is_plain lines = true /\
    s_index s = RangeIndex (List.length (records lines)) /\
    s_values s = convert_column (map (field 1) (records lines)).
Proof.
  intros E. assert (E' := E). unfold run_series in E'.
  apply bind_Ok in E'. destruct E' as (asc & Easc & _).
  destruct (asc_read_Ok _ Easc) as (lines & -> & Hp).
  exists lines. split; [reflexivity|]. split; [exact Hp|].
  destruct (run_series_plain _ Hp) as (o & E'). rewrite E' in E.
  inversion E. split; reflexivity.
Qed.

Lemma run_series_shape (f : asc_file) (s : Series) :
  run_series f = Ok s ->
  exists v o, s = {| s_index := RangeIndex (List.length v); s_values := v; s_object := o |}.
Proof.
  unfold run_series. intros E. apply bind_Ok in E. destruct E as (asc & Easc & E).
  destruct (asc_read_shape _ Easc) as (p & v & objs & -> & _).
  cbn in E. inversion E. eauto.
Qed.

Lemma run_is_object_series (f : asc_file) (s : Series) :
  run_series f = Ok s -> run_is_object f = s_object s.
Proof. unfold run_is_object. now intros ->. Qed.

Lemma add_runs_spec (listing : folder) :
  forall (df : DataFrame) (n : nat),
    index df = RangeIndex n -> 0 < n ->
    NoDup (map fst (runs_of listing)) ->
    (forall e, In e (runs_of listing) -> ~ In (fst e) (column_names df)) ->
    add_runs listing df =
    (cs <- mapM (run_column n) (runs_of listing) ;;
     Ok {| index := index df; columns := columns df ++ cs;
           objects := fold_left (fun objs e => set_dtype (fst e) (run_is_object (snd e)) objs)
                                (runs_of listing) (objects df) |}).
Proof.
  induction listing as [|[filename file] rest IH]; intros df n Hidx Hn Hnd Hfresh.
  - simpl. rewrite app_nil_r. now destruct df.
  - rewrite runs_of_cons in *. cbn [add_runs fst].
    cbn [fst] in Hnd, Hfresh.
    destruct (endswith filename ".asc") eqn:E; [|now apply IH].
    cbn [mapM fold_left]. unfold run_column at 1. cbn [snd fst].
    assert ((asc <- asc_read file ;; s <- iloc_col asc 1 ;;
             df' <- setitem df filename s ;; add_runs rest df') =
            (s <- run_series file ;; df' <- setitem df filename s ;; add_runs rest df'))
      as -> by (unfold run_series; now destruct (asc_read file)).
    destruct (run_series file) as [s|e|] eqn:Es; cbn [bind]; try reflexivity.
    rewrite (run_is_object_series _ Es).
    destruct (run_series_shape _ Es) as (v & o & ->). cbn [s_values s_object].
    rewrite setitem_rows by (rewrite Hidx; now apply RangeIndex_not_nil).
    rewrite Hidx, reindex_range by reflexivity.
    cbn [bind s_object].
    rewrite set_column_fresh by (apply (Hfresh (filename, file)); now left).
    cbn [map fst] in Hnd. inversion Hnd as [|? ? Hfn Hnd']; subst.
    rewrite (IH _ n); cbn [index columns objects]; auto.
    + destruct (mapM (run_column n) (runs_of rest)) as [cs|e|]; cbn [bind];
        try reflexivity.
      now rewrite <- app_assoc.
    + intros e He. unfold column_names. cbn [columns]. rewrite map_app, in_app_iff.
      intros [Hin|Hin].
      * apply (Hfresh e); [now right|exact Hin].
      * cbn in Hin. destruct Hin as [Hin|[]]. apply Hfn. rewrite Hin.
        now apply in_map.
Qed.

Lemma label_sorted (n : nat) (c : list cell) (v : cell) :
  List.length c = n ->
  map snd (sort_rows (combine (map (fun l => (l + 1)%Z) (RangeIndex n ++ [(-1)%Z]))
                              (c ++ [v]))) = v :: c.
Proof.
  intros Hl. rewrite map_app. cbn [map].
  rewrite combine_snoc by (now rewrite length_map, RangeIndex_length).
  change (-1 + 1)%Z with 0%Z.
  rewrite (@sort_rows_last _ 1%Z).
  - cbn [map snd]. f_equal. apply map_snd_combine_eq.
    now rewrite length_map, RangeIndex_length.
  - rewrite RangeIndex_seq, map_map.
    rewrite (map_ext _ (fun i => Z.of_nat (S i))) by (intros; lia).
    rewrite <- (map_map S Z.of_nat), seq_shift.
    apply keys_ascending_range. lia.
  - lia.
Qed.

Lemma label_sorted_index (n : nat) :
  map fst (sort_rows (combine (map (fun l => (l + 1)%Z) (RangeIndex n ++ [(-1)%Z]))
                              (map (fun l => (l + 1)%Z) (RangeIndex n ++ [(-1)%Z]))))
  = RangeIndex (S n).
Proof.
  rewrite map_app. cbn [map].
  rewrite combine_snoc by reflexivity.
  change (-1 + 1)%Z with 0%Z.
  rewrite (@sort_rows_last _ 1%Z).
  - cbn [map fst]. rewrite map_fst_combine_eq by reflexivity.
    now rewrite RangeIndex_S.
  - rewrite RangeIndex_seq, map_map.
    rewrite (map_ext _ (fun i => Z.of_nat (S i))) by (intros; lia).
    rewrite <- (map_map S Z.of_nat), seq_shift.
    apply keys_ascending_range. lia.
  - lia.
Qed.

Lemma sort_labelled_columns (n : nat) (cols : list (string * list cell)) :
  forall labels,
    Forall (fun c => List.length (snd c) = n) cols ->
    map (fun c => (fst c,
                   map snd (sort_rows
                     (combine (map (fun l => (l + 1)%Z) (RangeIndex n ++ [(-1)%Z]))
                              (snd c)))))
        (zip_with (fun c v => (fst c, snd c ++ [v])) cols labels)
    = label_columns cols labels.
Proof.
  induction cols as [|c cols IH]; intros [|v labels] Hf; simpl; auto.
  apply Forall_cons_iff in Hf. destruct Hf as [Hc Hf'].
  rewrite label_sorted by exact Hc. unfold label_columns in IH. now rewrite IH.
Qed.

Lemma labels_for_length (ncols : nat) :
  2 <= ncols -> List.length (labels_for ncols) = ncols.
Proof.
  intros Hn. unfold labels_for. rewrite length_app, length_map, py_range_length.
  simpl. lia.
Qed.

(** What the columns hold of the row of run numbers. *)
Lemma held_kept (d : DataFrame) (name : string) (v : cell) :
  v <> CNone -> held d name v = v.
Proof. unfold held. destruct (is_object d name); [reflexivity|]. now destruct v. Qed.

Lemma held_None_numeric (d : DataFrame) (name : string) :
  is_object d name = false -> held d name CNone = CNaN.
Proof. unfold held. now intros ->. Qed.

Lemma zip_with_held (d : DataFrame) (cols : list (string * list cell)) :
  forall values,
    Forall (fun v => v <> CNone) values ->
    zip_with (fun c v => (fst c, snd c ++ [held d (fst c) v])) cols values =
    zip_with (fun c v => (fst c, snd c ++ [v])) cols values.
Proof.
  induction cols as [|c cols IH]; intros [|v values] Hv; simpl; auto.
  apply Forall_cons_iff in Hv. destruct Hv as [Hv Hvs].
  now rewrite held_kept, IH.
Qed.

Lemma run_labels_not_None (xs : list Z) :
  Forall (fun v : cell => v <> CNone) (CStr "BG" :: map (fun x => CNum (of_Z x)) xs).
Proof.
  constructor; [discriminate|]. apply Forall_forall. intros v Hv.
  apply in_map_iff in Hv. destruct Hv as (x & <- & _). discriminate.
Qed.

Lemma upcast_numbers (d : DataFrame) (cols : list (string * list cell)) (xs : list Z) :
  flat_map (fun p : (string * list cell) * cell =>
              if is_text (snd p) && negb (is_object d (fst (fst p)))
              then [fst (fst p)] else [])
           (combine cols (map (fun x => CNum (of_Z x)) xs)) = [].
Proof.
  revert xs. induction cols as [|c cols IH]; intros [|x xs]; simpl; auto.
Qed.

(** The label ["BG"] is the one string of the row: the first run column
    becomes a column of dtype [object], if it is none yet. *)
Lemma upcast_run_numbers (d : DataFrame) c0 c1 rest :
  columns d = c0 :: c1 :: rest ->
  upcast d (run_numbers d) = if is_object d (fst c1) then [] else [fst c1].
Proof.
  intros Hc. unfold upcast, run_numbers. rewrite Hc.
  cbn [List.app combine flat_map is_text snd fst andb].
  rewrite upcast_numbers, app_nil_r. now destruct (is_object d (fst c1)).
Qed.

(** [add_run_numbers] on a table with rows [0 .. n-1], a numeric first
    column and at least one run column. *)
Lemma add_run_numbers_spec (d : DataFrame) (n : nat) :
  index d = RangeIndex n ->
  Forall (fun c => List.length (snd c) = n) (columns d) ->
  2 <= List.length (columns d) ->
  (forall c, nth_error (columns d) 0 = Some c -> is_object d (fst c) = false) ->
  add_run_numbers d =
  Ok {| index := RangeIndex (S n);
        columns := label_columns (columns d) (labels_for (List.length (columns d)));
        objects := objects d ++ upcast d (run_numbers d) |}.
Proof.
  intros Hidx Hwf Hc Hnum. unfold add_run_numbers, loc_set_row.
  rewrite Hidx.
  rewrite existsb_Zeqb_false by (rewrite RangeIndex_In; lia).
  destruct (Nat.eqb_spec (List.length (columns d)) 0); [lia|].
  assert (List.length (run_numbers d) = List.length (columns d)) as Hlen.
  { change (List.length (labels_for (List.length (columns d))) = List.length (columns d)).
    now apply labels_for_length. }
  rewrite Hlen, Nat.eqb_refl.
  cbn [bind]. unfold sort_index, shift_index. cbn [index columns objects].
  rewrite label_sorted_index. f_equal. f_equal.
  assert (zip_with (fun c v => (fst c, snd c ++ [held d (fst c) v])) (columns d)
                   (run_numbers d) =
          zip_with (fun c v => (fst c, snd c ++ [v])) (columns d)
                   (labels_for (List.length (columns d)))) as ->.
  { unfold run_numbers, labels_for, shape1.
    destruct (columns d) as [|c0 cols] eqn:Ecols; [reflexivity|].
    cbn [List.app zip_with]. rewrite held_None_numeric by (now apply Hnum).
    f_equal. apply zip_with_held. apply run_labels_not_None. }
  now apply sort_labelled_columns.
Qed.

(** With the pixel column alone the row of run numbers has one value too
    many. *)
Lemma add_run_numbers_one_column (d : DataFrame) (n : nat) :
  index d = RangeIndex n ->
  List.length (columns d) = 1 ->
  add_run_numbers d = Raise ValueError.
Proof.
  intros Hidx Hc. unfold add_run_numbers, loc_set_row.
  rewrite Hidx.
  rewrite existsb_Zeqb_false by (rewrite RangeIndex_In; lia).
  unfold run_numbers, shape1. rewrite Hc. reflexivity.
Qed.

End Stages.

Section Tables.

Context {num : Type} `{Numeric num}.

Local Abbreviation cell := (cell num).
Local Abbreviation Series := (Series num).
Local Abbreviation DataFrame := (DataFrame num).

Lemma pixels_length : List.length (pixels (num := num)) = n_pixels.
Proof. unfold pixels. rewrite length_map, py_range_length. reflexivity. Qed.

Lemma pixel_frame_index : index (pixel_frame (num := num)) = RangeIndex n_pixels.
Proof. unfold pixel_frame. cbn [index]. now rewrite py_range_length. Qed.

Lemma n_pixels_pos : 0 < n_pixels.
Proof. unfold n_pixels. lia. Qed.

Lemma run_column_shape (n : nat) (l : folder) (cs : list (string * list cell)) :
  mapM (run_column n) l = Ok cs ->
  map fst cs = map fst l /\ Forall (fun c => List.length (snd c) = n) cs.
Proof.
  revert cs. induction l as [|e l IH]; simpl; intros cs E.
  - inversion E. split; [reflexivity|constructor].
  - apply bind_Ok in E. destruct E as (c & Ec & E).
    apply bind_Ok in E. destruct E as (cs' & Ecs & E). inversion E. subst cs.
    destruct (IH _ Ecs) as [IH1 IH2].
    unfold run_column in Ec. apply bind_Ok in Ec. destruct Ec as (s & _ & Ec).
    inversion Ec. subst c. simpl.
    split; [now rewrite IH1|]. constructor; [apply align_length|exact IH2].
Qed.

Lemma runs_of_endswith (fs : folder) (e : string * asc_file) :
  In e (runs_of fs) -> endswith (fst e) ".asc" = true.
Proof. unfold runs_of. intros Hin. now apply filter_In in Hin. Qed.

Lemma objects_fold_other (name : string) (runs : folder) :
  forall objs,
    ~ In name (map fst runs) ->
    existsb (String.eqb name)
      (fold_left (fun objs e => set_dtype (fst e) (run_is_object (snd e)) objs) runs objs) =
    existsb (String.eqb name) objs.
Proof.
  induction runs as [|e runs IH]; intros objs Hn; cbn [fold_left]; [reflexivity|].
  cbn [map] in Hn. rewrite IH by (intros Hin; apply Hn; now right).
  apply set_dtype_other. intros ->. apply Hn. now left.
Qed.

(** [iterate_over_runs] in closed form: the pixel column and one column per
    run file, each under its label; a folder without run files ends in the
    ValueError of [add_run_numbers]. *)
Lemma iterate_over_runs_spec (fs : folder) :
  NoDup (map fst (runs_of fs)) ->
  iterate_over_runs fs =
  (cs <- mapM (run_column n_pixels) (runs_of fs) ;;
   match cs with
   | [] => Raise ValueError
   | _ :: _ =>
       Ok {| index := RangeIndex (S n_pixels);
             columns := label_columns (("Pixel"%string, pixels) :: cs)
                                      (labels_for (S (List.length cs)));
             objects := labelled_objects (runs_of fs) |}
   end).
Proof.
  intros Hnd. unfold iterate_over_runs.
  rewrite (@add_runs_spec _ _ fs pixel_frame n_pixels).
  - destruct (mapM (run_column n_pixels) (runs_of fs)) as [cs|e|] eqn:E;
      cbn [bind]; try reflexivity.
    destruct (run_column_shape _ _ E) as [Hnames Hlen].
    destruct cs as [|c cs].
    + apply add_run_numbers_one_column with (n := n_pixels).
      * apply pixel_frame_index.
      * reflexivity.
    + rewrite (@add_run_numbers_spec _ _ _ n_pixels).
      * f_equal. f_equal.
        rewrite (@upcast_run_numbers _ _ _ ("Pixel"%string, pixels) c cs) by reflexivity.
        unfold labelled_objects, is_object, objects_of_runs. cbn [objects pixel_frame].
        destruct (runs_of fs) as [|e0 runs]; [discriminate Hnames|].
        cbn [map] in Hnames. injection Hnames as Hc _. now rewrite Hc.
      * apply pixel_frame_index.
      * cbn [columns pixel_frame List.app]. constructor; [apply pixels_length|exact Hlen].
      * cbn [columns]. rewrite length_app. cbn [pixel_frame columns List.length]. lia.
      * intros c0 Hc0. cbn [columns pixel_frame List.app nth_error] in Hc0.
        injection Hc0 as <-. unfold is_object. cbn [objects fst].
        rewrite objects_fold_other; [reflexivity|].
        intros Hin. apply in_map_iff in Hin. destruct Hin as (e0 & He0 & Hin).
        apply runs_of_endswith in Hin. rewrite He0 in Hin. discriminate Hin.
  - apply pixel_frame_index.
  - apply n_pixels_pos.
  - exact Hnd.
  - intros e He Hin. apply runs_of_endswith in He.
    cbn in Hin. destruct Hin as [Hin|[]]. rewrite <- Hin in He. discriminate He.
Qed.

(** *** The store *)

Lemma store_length (h : heap) (r : ref) (d : DataFrame) :
  List.length (store h r d) = List.length h.
Proof.
  revert r. induction h as [|x h IH]; intros [|r]; simpl; auto.
Qed.

Lemma subtract_loop_heap_length (df dataframe : ref) (cols : list string) :
  forall i h h' n,
    subtract_loop df dataframe cols i h = Ok (h', n) ->
    List.length h' = List.length h.
Proof.
  induction cols as [|c cols IH]; simpl; intros i h h' n E.
  - now inversion E.
  - apply bind_Ok in E. destruct E as (g & _ & E).
    apply bind_Ok in E. destruct E as (s & _ & E).
    apply bind_Ok in E. destruct E as (d & _ & E).
    apply bind_Ok in E. destruct E as (d' & _ & E).
    apply IH in E. now rewrite store_length in E.
Qed.

(** *** Subtraction *)

Lemma sub_cells_length (xs ys vals : list cell) :
  sub_cells xs ys = Ok vals ->
  List.length vals = Nat.min (List.length xs) (List.length ys).
Proof.
  unfold sub_cells. intros E. apply mapM_length in E.
  now rewrite length_combine in E.
Qed.

Lemma column_difference_shape (idx : list Z) (base : list (string * list cell))
    (objs : list string) (a b : nat) (s : Series) :
  Forall (fun c => List.length (snd c) = List.length idx) base ->
  column_difference {| index := idx; columns := base; objects := objs |} a b = Ok s ->
  s_index s = skipn 1 idx /\ List.length (s_values s) = List.length (skipn 1 idx).
Proof.
  intros Hwf E. unfold column_difference, iloc_rows1_col in E. cbn [columns index] in E.
  destruct (nth_error base a) as [[na ca]|] eqn:Ea; [|discriminate].
  destruct (nth_error base b) as [[nb cb]|] eqn:Eb; [|discriminate].
  cbn [bind s_values s_index] in E.
  destruct (sub_cells (skipn 1 ca) (skipn 1 cb)) as [vals| |] eqn:Ev; try discriminate.
  cbn [bind] in E. inversion E. subst s. cbn [s_index s_values].
  split; [reflexivity|].
  apply sub_cells_length in Ev. rewrite Ev, !length_skipn.
  rewrite Forall_forall in Hwf.
  apply nth_error_In in Ea, Eb. apply Hwf in Ea, Eb. cbn [snd] in Ea, Eb. lia.
Qed.

(** Columns appended behind the first ones, and dtypes set for them, leave
    a difference of two of the first columns as it is. *)
Lemma column_difference_app (idx : list Z) (base added : list (string * list cell))
    (objs objs' : list string) (a b : nat) :
  a < List.length base -> b < List.length base ->
  (forall name, In name (map fst base) ->
                existsb (String.eqb name) objs' = existsb (String.eqb name) objs) ->
  column_difference {| index := idx; columns := base ++ added; objects := objs' |} a b =
  column_difference {| index := idx; columns := base; objects := objs |} a b.
Proof.
  intros Ha Hb Hobjs. unfold column_difference, iloc_rows1_col. cbn [columns index].
  rewrite !nth_error_app1 by assumption.
  destruct (nth_error base a) as [[na ca]|] eqn:Ea; [|reflexivity].
  destruct (nth_error base b) as [[nb cb]|] eqn:Eb; [|reflexivity].
  unfold is_object. cbn [objects].
  rewrite (Hobjs na), (Hobjs nb); [reflexivity| |].
  - apply nth_error_In in Eb. now apply (in_map fst) in Eb.
  - apply nth_error_In in Ea. now apply (in_map fst) in Ea.
Qed.

Lemma subtract_loop_spec (idx : list Z) (base : list (string * list cell))
    (objs : list string) :
  idx <> [] -> NoDup idx ->
  Forall (fun c => List.length (snd c) = List.length idx) base ->
  (forall k, ~ In (run_column_name k) (map fst base)) ->
  forall (cols : list string) (i : nat) (added : list (string * list cell))
         (objs' : list string),
    i + List.length cols < List.length base ->
    (forall k, i <= k -> ~ In (run_column_name k) (map fst added)) ->
    (forall name, In name (map fst base) ->
                  existsb (String.eqb name) objs' = existsb (String.eqb name) objs) ->
    subtract_loop 0 0 cols i
      [{| index := idx; columns := base ++ added; objects := objs' |}] =
    (news <- mapM (difference_column {| index := idx; columns := base; objects := objs |})
                  (seq i (List.length cols)) ;;
     Ok ([{| index := idx; columns := base ++ added ++ news;
             objects := difference_objects
                          {| index := idx; columns := base; objects := objs |}
                          (seq i (List.length cols)) objs' |}],
         i + List.length cols)).
Proof.
  intros Hne Hnd Hwf Hbase. induction cols as [|c cols IH];
    intros i added objs' Hi Hadded Hobjs.
  - cbn [subtract_loop List.length seq mapM bind difference_objects fold_left].
    now rewrite app_nil_r, Nat.add_0_r.
  - cbn [subtract_loop List.length seq mapM load nth_error bind].
    cbn [List.length] in Hi.
    rewrite (@column_difference_app idx base added objs objs') by (auto; lia).
    unfold difference_column at 1. unfold difference_objects. cbn [fold_left].
    unfold difference_is_object at 2.
    destruct (column_difference {| index := idx; columns := base; objects := objs |}
                (i + 1) 1) as [s|e|] eqn:Es; cbn [bind]; try reflexivity.
    destruct (@column_difference_shape idx base objs _ _ _ Hwf Es) as [Hsi Hsl].
    destruct s as [si sv so]. cbn [s_index s_values s_object] in *. subst si.
    rewrite setitem_rows by exact Hne. cbn [index columns objects s_object].
    destruct idx as [|a rest]; [congruence|]. cbn [skipn] in *.
    rewrite reindex_tail by assumption. cbn [bind store].
    rewrite set_column_fresh.
    2:{ rewrite map_app, in_app_iff. intros [Hin|Hin].
        - now apply (Hbase i).
        - now apply (Hadded i (le_n i)). }
    rewrite <- app_assoc.
    rewrite (IH (i + 1) (added ++ [(run_column_name i, CNaN :: sv)])
                (set_dtype (run_column_name i) so objs')).
    + replace (i + 1) with (S i) by lia.
      destruct (mapM _ (seq (S i) (List.length cols))) as [news|e|]; cbn [bind];
        try reflexivity.
      rewrite <- !app_assoc. cbn [List.app]. unfold difference_objects.
      do 2 f_equal. lia.
    + lia.
    + intros k Hk. rewrite map_app, in_app_iff. intros [Hin|Hin].
      * apply (Hadded k); [lia|exact Hin].
      * cbn in Hin. destruct Hin as [Hin|[]].
        apply run_column_name_inj in Hin. lia.
    + intros name Hname. rewrite set_dtype_other; [now apply Hobjs|].
      intros ->. now apply (Hbase i).
Qed.

Lemma subtracted_table_spec (t : DataFrame) :
  index t <> [] -> NoDup (index t) -> well_formed t ->
  (forall k, ~ In (run_column_name k) (column_names t)) ->
  2 <= List.length (columns t) ->
  subtracted_table t =
  (news <- mapM (difference_column t) (seq 1 (List.length (columns t) - 2)) ;;
   Ok ({| index := index t; columns := columns t ++ news;
          objects := difference_objects t (seq 1 (List.length (columns t) - 2))
                                        (objects t) |},
       List.length (columns t) - 2)).
Proof.
  intros Hne Hnd Hwf Hnames Hlen. destruct t as [idx base objs].
  cbn [index columns objects] in *.
  unfold subtracted_table, subtract_background.
  cbn [load nth_error bind].
  assert (List.length (column_names (iloc_cols_from
            {| index := idx; columns := base; objects := objs |} 2))
          = List.length base - 2) as Hcols.
  { unfold column_names, iloc_cols_from, slice_start. cbn [columns].
    rewrite length_map, length_skipn.
    change (2 <? 0)%Z with false. change (Z.to_nat 2) with 2. cbv iota. lia. }
  pose proof (@subtract_loop_spec idx base objs Hne Hnd Hwf Hnames
                (column_names (iloc_cols_from
                   {| index := idx; columns := base; objects := objs |} 2))
                1 [] objs) as Hloop.
  rewrite app_nil_r in Hloop. rewrite Hloop; [|lia|intros k _ []|reflexivity].
  rewrite Hcols.
  destruct (mapM _ (seq 1 (List.length base - 2))) as [news|e|]; cbn [bind];
    try reflexivity.
  cbn [List.app load nth_error bind]. do 2 f_equal. lia.
Qed.

End Tables.
Section Averaging.

Context {num : Type} `{Numeric num}.

Local Abbreviation cell := (cell num).
Local Abbreviation Series := (Series num).
Local Abbreviation DataFrame := (DataFrame num).

(** [get_averaged_data_column] never raises: the Series it assigns carries
    the row labels of the table itself. *)
Lemma averaged_table_spec (t : DataFrame) (n : nat) :
  averaged_table t n =
  Ok {| index := index t;
        columns := set_column "Mean" (mean_values t n) (columns t);
        objects := set_dtype "Mean" false (objects t) |}.
Proof.
  unfold averaged_table, get_averaged_data_column, mean_values.
  cbn [load nth_error bind].
  unfold setitem, mean_axis1. cbn [s_values s_index s_object index iloc_cols_from].
  destruct (index t) as [|a idx] eqn:E.
  - cbn [List.length seq map]. rewrite reindex_same. reflexivity.
  - cbn [List.length seq map]. rewrite reindex_same. reflexivity.
Qed.

Lemma get_averaged_data_column_one (t : DataFrame) (n : nat) :
  get_averaged_data_column 0 n [t] =
  (d <- averaged_table t n ;; Ok ([d], 0)).
Proof.
  rewrite averaged_table_spec. cbn [bind].
  unfold get_averaged_data_column, mean_values.
  cbn [load nth_error bind].
  unfold setitem, mean_axis1. cbn [s_values s_index s_object index iloc_cols_from].
  destruct (index t) as [|a idx] eqn:E.
  - cbn [List.length seq map]. rewrite reindex_same. reflexivity.
  - cbn [List.length seq map]. rewrite reindex_same. reflexivity.
Qed.

(** The slice [iloc[:, -n:]] of a table whose last [n >= 1] columns are
    [trailing]. *)
Lemma iloc_trailing (idx : list Z) (base trailing : list (string * list cell))
    (objs : list string) :
  1 <= List.length trailing ->
  columns (iloc_cols_from {| index := idx; columns := base ++ trailing; objects := objs |}
                          (-1 * Z.of_nat (List.length trailing))) = trailing.
Proof.
  intros Hn. unfold iloc_cols_from, slice_start. cbn [columns].
  destruct (Z.ltb_spec (-1 * Z.of_nat (List.length trailing)) 0); [|lia].
  rewrite length_app.
  replace (Z.to_nat _) with (List.length base + 0) by lia.
  now rewrite skipn_app, Nat.add_0_r, skipn_all, Nat.sub_diag.
Qed.

(** The slice [iloc[:, -0:]] is the whole table. *)
Lemma iloc_minus_zero (t : DataFrame) :
  iloc_cols_from t (-1 * Z.of_nat 0) = t.
Proof. destruct t as [idx cols objs]. reflexivity. Qed.

Lemma sub_cell_not_text (x y z : cell) : sub_cell x y = Ok z -> is_text z = false.
Proof.
  unfold sub_cell. destruct (isna x || isna y).
  - now intros [= <-].
  - destruct x, y; try discriminate. now intros [= <-].
Qed.

Lemma sub_cells_not_text (xs ys vals : list cell) :
  sub_cells xs ys = Ok vals -> existsb is_text vals = false.
Proof.
  unfold sub_cells. generalize (combine xs ys). intros l. revert vals.
  induction l as [|p l IH]; simpl; intros vals E.
  - now inversion E.
  - apply bind_Ok in E. destruct E as (z & Ez & E).
    apply bind_Ok in E. destruct E as (zs & Ezs & E). inversion E. subst vals.
    simpl. now rewrite (sub_cell_not_text _ _ Ez), (IH _ Ezs).
Qed.

Lemma difference_column_not_text (t : DataFrame) (k : nat) (c : string * list cell) :
  difference_column t k = Ok c -> existsb is_text (snd c) = false.
Proof.
  unfold difference_column, column_difference. intros E.
  apply bind_Ok in E. destruct E as (s & Es & E). inversion E. subst c.
  apply bind_Ok in Es. destruct Es as (x & _ & Es).
  apply bind_Ok in Es. destruct Es as (y & _ & Es).
  apply bind_Ok in Es. destruct Es as (vals & Ev & Es). inversion Es.
  cbn [snd s_values existsb is_text orb]. now apply sub_cells_not_text in Ev.
Qed.

Lemma difference_columns_no_text (t : DataFrame) (ks : list nat)
    (news : list (string * list cell)) :
  mapM (difference_column t) ks = Ok news -> has_text news = false.
Proof.
  revert news. induction ks as [|k ks IH]; simpl; intros news E.
  - now inversion E.
  - apply bind_Ok in E. destruct E as (c & Ec & E).
    apply bind_Ok in E. destruct E as (cs & Ecs & E). inversion E. subst news.
    unfold has_text in *. simpl.
    now rewrite (difference_column_not_text _ _ Ec), (IH _ Ecs).
Qed.

Lemma mapM_fst {A B C : Type} (f : A -> result B) (g : B -> C) (h : A -> C)
    (l : list A) (l' : list B) :
  (forall a b, f a = Ok b -> g b = h a) ->
  mapM f l = Ok l' -> map g l' = map h l.
Proof.
  intros Hgh. revert l'. induction l as [|a l IH]; simpl; intros l' E.
  - now inversion E.
  - apply bind_Ok in E. destruct E as (b & Eb & E).
    apply bind_Ok in E. destruct E as (bs & Ebs & E). inversion E. subst l'.
    simpl. now rewrite (Hgh _ _ Eb), (IH _ Ebs).
Qed.

Lemma difference_columns_names (t : DataFrame) (ks : list nat)
    (news : list (string * list cell)) :
  mapM (difference_column t) ks = Ok news ->
  map fst news = map run_column_name ks.
Proof.
  apply mapM_fst. intros k c E. unfold difference_column in E.
  apply bind_Ok in E. destruct E as (s & _ & E). now inversion E.
Qed.

(** One folder, stage by stage. *)
Lemma finished_table_stages (fs : folder) :
  finished_table fs =
  (t1 <- iterate_over_runs fs ;;
   ' (t2, n) <- subtracted_table t1 ;;
   averaged_table t2 n).
Proof.
  unfold finished_table, process_folder, subtracted_table.
  destruct (iterate_over_runs fs) as [t1|e|]; cbn [bind]; try reflexivity.
  unfold alloc. change (@nil DataFrame ++ [t1]) with [t1].
  change (List.length (@nil DataFrame)) with 0.
  destruct (subtract_background 0 0 [t1]) as [[h1 [r n]]|e|] eqn:E; cbn [bind];
    try reflexivity.
  unfold subtract_background in E. cbn [load nth_error bind] in E.
  apply bind_Ok in E. destruct E as ([h' i] & Eloop & E). inversion E. subst.
  apply subtract_loop_heap_length in Eloop.
  destruct h1 as [|t2 [|? ?]]; try discriminate Eloop.
  cbn [load nth_error bind]. rewrite get_averaged_data_column_one.
  destruct (averaged_table t2 (i - 1)); reflexivity.
Qed.

End Averaging.

Lemma nth_error_combine_both {A B : Type} (l : list A) (m : list B) (i : nat)
    (a : A) (b : B) :
  nth_error l i = Some a -> nth_error m i = Some b ->
  nth_error (combine l m) i = Some (a, b).
Proof.
  revert m i. induction l as [|x l IH]; intros [|y m] [|i]; simpl; try discriminate.
  - now intros [= ->] [= ->].
  - apply IH.
Qed.

Lemma nth_error_defined {A : Type} (l : list A) (i : nat) :
  i < List.length l -> exists a, nth_error l i = Some a.
Proof.
  intros Hi. destruct (nth_error l i) as [a|] eqn:E; [eauto|].
  apply nth_error_None in E. lia.
Qed.

(** ** Experiment tables *)

Section Experiment.

Context {num : Type} `{Numeric num}.

Local Abbreviation cell := (cell num).
Local Abbreviation Series := (Series num).
Local Abbreviation DataFrame := (DataFrame num).

Lemma label_columns_names (cols : list (string * list cell)) (labels : list cell) :
  List.length cols = List.length labels ->
  map fst (label_columns cols labels) = map fst cols.
Proof. intros Hl. unfold label_columns. now apply zip_with_map_fst. Qed.

Lemma label_columns_length (cols : list (string * list cell)) (labels : list cell) :
  List.length cols = List.length labels ->
  List.length (label_columns cols labels) = List.length cols.
Proof. intros Hl. unfold label_columns. now apply zip_with_same_length. Qed.

Lemma label_columns_rows (n : nat) (cols : list (string * list cell)) :
  forall labels,
    Forall (fun c => List.length (snd c) = n) cols ->
    Forall (fun c => List.length (snd c) = S n) (label_columns cols labels).
Proof.
  induction cols as [|c cols IH]; intros [|v labels] Hf; simpl; try constructor.
  - apply Forall_cons_iff in Hf. simpl. f_equal. tauto.
  - apply IH. apply Forall_cons_iff in Hf. tauto.
Qed.

Lemma label_columns_first_row (cols : list (string * list cell)) :
  forall labels,
    List.length cols = List.length labels ->
    map (fun c => nth 0 (snd c) CNaN) (label_columns cols labels) = labels.
Proof.
  induction cols as [|c cols IH]; intros [|v labels]; simpl; try discriminate; auto.
  intros [= E]. f_equal. now apply IH.
Qed.

Lemma label_columns_data (cols : list (string * list cell)) :
  forall labels j r,
    List.length cols = List.length labels ->
    option_map (fun c => nth_error (snd c) (S r)) (nth_error (label_columns cols labels) j)
    = option_map (fun c => nth_error (snd c) r) (nth_error cols j).
Proof.
  induction cols as [|c cols IH]; intros [|v labels] j r; simpl; try discriminate.
  - now destruct j.
  - intros [= E]. destruct j as [|j]; simpl; [reflexivity|]. now apply IH.
Qed.

Lemma asc_names_not_run (names : list string) (k : nat) :
  Forall (fun s => endswith s ".asc" = true) names ->
  ~ In (run_column_name k) names.
Proof.
  intros Hf Hin. rewrite Forall_forall in Hf. apply Hf in Hin.
  rewrite run_column_name_not_asc in Hin. discriminate.
Qed.

Lemma experiment_table_names (N : nat) (t : DataFrame) :
  experiment_table N t ->
  exists raw_names,
    column_names t = "Pixel"%string :: raw_names /\
    List.length raw_names = N /\
    Forall (fun s => endswith s ".asc" = true) raw_names.
Proof.
  intros (_ & _ & raw & Hc & Hl & Hf). exists (map fst raw).
  unfold column_names. rewrite Hc. cbn [map fst].
  repeat split; [now rewrite length_map|].
  rewrite Forall_map. exact Hf.
Qed.

Lemma experiment_table_no_run_names (N : nat) (t : DataFrame) (k : nat) :
  experiment_table N t -> ~ In (run_column_name k) (column_names t).
Proof.
  intros Ht. destruct (experiment_table_names Ht) as (names & -> & _ & Hf).
  intros [Hin|Hin].
  - symmetry in Hin. now apply run_column_name_not_Pixel in Hin.
  - now apply (asc_names_not_run k Hf).
Qed.

Lemma experiment_table_columns (N : nat) (t : DataFrame) :
  experiment_table N t -> List.length (columns t) = S N.
Proof. intros (_ & _ & raw & -> & Hl & _). simpl. now rewrite Hl. Qed.

Lemma experiment_table_rows (N : nat) (t : DataFrame) :
  experiment_table N t -> List.length (index t) = S n_pixels.
Proof. intros (-> & _). apply RangeIndex_length. Qed.

(** What [iterate_over_runs] returns is an experiment table. *)
Lemma iterate_over_runs_table (fs : folder) (t : DataFrame) :
  NoDup (map fst fs) ->
  iterate_over_runs fs = Ok t ->
  experiment_table (List.length (runs_of fs)) t /\
  1 <= List.length (runs_of fs) /\
  column_names t = "Pixel"%string :: map fst (runs_of fs) /\
  map (fun c => nth 0 (snd c) CNaN) (columns t) = labels_for (S (List.length (runs_of fs))).
Proof.
  intros Hnd E.
  rewrite iterate_over_runs_spec in E by (unfold runs_of; now apply filter_keeps_names_distinct).
  apply bind_Ok in E. destruct E as (cs & Ecs & E).
  destruct (run_column_shape _ _ Ecs) as [Hnames Hlen].
  pose proof (mapM_length _ _ Ecs) as Hcs.
  destruct cs as [|c cs]; [discriminate|]. inversion E. subst t. clear E.
  rewrite <- Hcs.
  assert (List.length (("Pixel"%string, pixels (num := num)) :: c :: cs) =
          List.length (labels_for (num := num) (S (List.length (c :: cs))))) as Hlab.
  { rewrite labels_for_length; simpl; lia. }
  assert (Forall (fun c0 : string * list cell => List.length (snd c0) = n_pixels)
                 (("Pixel"%string, pixels) :: c :: cs)) as Hwf.
  { constructor; [apply pixels_length|exact Hlen]. }
  repeat split.
  - unfold well_formed. cbn [index columns]. rewrite RangeIndex_length.
    now apply label_columns_rows.
  - exists (label_columns (c :: cs)
              (CStr "BG" :: map (fun x => CNum (of_Z x))
                 (py_range 1 (Z.of_nat (S (List.length (c :: cs))) - 1)))).
    cbn [columns]. split; [reflexivity|]. split.
    + rewrite label_columns_length; [reflexivity|].
      cbn [List.length]. rewrite length_map, py_range_length. lia.
    + assert (map fst (label_columns (c :: cs)
                (CStr "BG" :: map (fun x => CNum (of_Z x))
                   (py_range 1 (Z.of_nat (S (List.length (c :: cs))) - 1))))
              = map fst (c :: cs)) as Hn.
      { apply label_columns_names.
        cbn [List.length]. rewrite length_map, py_range_length. lia. }
      apply (proj1 (Forall_map fst (fun s => endswith s ".asc" = true) _)).
      rewrite Hn, Hnames.
      apply (proj2 (Forall_map fst (fun s => endswith s ".asc" = true) _)).
      rewrite Forall_forall. intros e He. now apply runs_of_endswith in He.
  - simpl. lia.
  - unfold column_names. cbn [columns]. rewrite label_columns_names by exact Hlab.
    cbn [map fst]. now rewrite <- Hnames.
  - cbn [columns]. now apply label_columns_first_row.
Qed.

End Experiment.

(** ** Background subtraction *)

Section Subtraction.

Context {num : Type} `{Numeric num}.

Local Abbreviation cell := (cell num).
Local Abbreviation Series := (Series num).
Local Abbreviation DataFrame := (DataFrame num).

Lemma difference_column_cells (t : DataFrame) (k : nat) (c : string * list cell) :
  well_formed t ->
  difference_column t k = Ok c ->
  fst c = run_column_name k /\
  List.length (snd c) = S (List.length (index t) - 1) /\
  nth_error (snd c) 0 = Some CNaN /\
  forall r, 1 <= r < List.length (index t) ->
    exists x y z,
      cell_iloc t (k + 1) r = Some x /\ cell_iloc t 1 r = Some y /\
      nth_error (snd c) r = Some z /\ sub_cell x y = Ok z.
Proof.
  intros Hwf E. unfold difference_column in E.
  apply bind_Ok in E. destruct E as (s & Es & E). inversion E. subst c. clear E.
  cbn [fst snd]. split; [reflexivity|].
  destruct t as [idx base objs]. cbn [index] in *.
  destruct (@column_difference_shape _ _ idx base objs _ _ _ Hwf Es) as [_ Hlen].
  rewrite length_skipn in Hlen.
  split; [cbn [List.length]; now rewrite Hlen|]. split; [reflexivity|].
  intros r Hr. unfold column_difference, iloc_rows1_col in Es. cbn [columns index] in Es.
  unfold cell_iloc. cbn [columns].
  destruct (nth_error base (k + 1)) as [[na ca]|] eqn:Ea; [|discriminate].
  destruct (nth_error base 1) as [[nb cb]|] eqn:Eb; [|discriminate].
  cbn [bind s_values s_index snd] in *.
  apply bind_Ok in Es. destruct Es as (vals & Ev & Es). inversion Es. subst s.
  cbn [s_values] in *. clear Es.
  unfold well_formed in Hwf. cbn [index columns] in Hwf. rewrite Forall_forall in Hwf.
  pose proof (Hwf _ (nth_error_In _ _ Ea)) as Hca.
  pose proof (Hwf _ (nth_error_In _ _ Eb)) as Hcb. cbn [snd] in Hca, Hcb.
  destruct (@nth_error_defined _ ca r) as (x & Ex); [lia|].
  destruct (@nth_error_defined _ cb r) as (y & Ey); [lia|].
  destruct r as [|r]; [lia|].
  unfold sub_cells in Ev.
  destruct (@mapM_nth_error _ _ _ _ _ Ev r (x, y)) as (z & Ez & Hz).
  { apply nth_error_combine_both; now rewrite nth_error_skipn. }
  exists x, y, z. cbn [nth_error]. auto.
Qed.

Lemma find_run_column (news : list (string * list cell)) :
  forall s k more,
    map fst news = map run_column_name (seq s (List.length news)) ->
    s <= k < s + List.length news ->
    find (fun c => String.eqb (fst c) (run_column_name k)) (news ++ more) =
    nth_error news (k - s).
Proof.
  induction news as [|c rest IH]; intros s k more Hn Hk; [simpl in Hk; lia|].
  cbn [List.length seq map] in Hn. inversion Hn as [[Hc Hrest]].
  cbn [List.app find].
  destruct (String.eqb_spec (fst c) (run_column_name k)) as [E|E].
  - rewrite Hc in E. apply run_column_name_inj in E. subst k.
    now rewrite Nat.sub_diag.
  - assert (k <> s) as Hks by (intros ->; now apply E).
    cbn [List.length] in Hk.
    rewrite (IH (S s) k more Hrest) by lia.
    replace (k - s) with (S (k - S s)) by lia. reflexivity.
Qed.

(** [subtract_background] on an experiment table, called with the global
    [df] bound to that same table. *)
Lemma experiment_table_subtracted (N : nat) (t : DataFrame) :
  experiment_table N t -> 1 <= N ->
  subtracted_table t =
  (news <- mapM (difference_column t) (seq 1 (N - 1)) ;;
   Ok ({| index := index t; columns := columns t ++ news;
          objects := difference_objects t (seq 1 (N - 1)) (objects t) |}, N - 1)).
Proof.
  intros Ht HN.
  pose proof (experiment_table_columns Ht) as Hc.
  rewrite subtracted_table_spec.
  - rewrite Hc. replace (S N - 2) with (N - 1) by lia. reflexivity.
  - destruct Ht as (-> & _). apply RangeIndex_not_nil. lia.
  - destruct Ht as (-> & _). apply RangeIndex_NoDup.
  - now destruct Ht as (_ & Hwf & _).
  - intros k. now apply experiment_table_no_run_names with (N := N).
  - lia.
Qed.

Lemma sub_cell_total (x y : cell) :
  is_text x = false -> is_text y = false -> exists z, sub_cell x y = Ok z.
Proof.
  unfold sub_cell. destruct x, y; simpl; try discriminate; eauto.
Qed.

Lemma difference_column_total (N : nat) (t : DataFrame) (k : nat) :
  experiment_table N t -> numeric_data t -> 1 <= k <= N - 1 ->
  exists c, difference_column t k = Ok c.
Proof.
  intros Ht Hnum Hk. pose proof (experiment_table_columns Ht) as Hc.
  unfold difference_column, column_difference, iloc_rows1_col.
  destruct (@nth_error_defined _ (columns t) (k + 1)) as ([na ca] & Ea); [lia|].
  destruct (@nth_error_defined _ (columns t) 1) as ([nb cb] & Eb); [lia|].
  rewrite Ea, Eb. cbn [bind s_values s_index].
  destruct (@mapM_total _ _ (fun p : cell * cell => sub_cell (fst p) (snd p))
              (combine (skipn 1 ca) (skipn 1 cb))) as (vals & Ev).
  - intros [x y] Hin. cbn [fst snd].
    pose proof (in_combine_l _ _ _ _ Hin) as Hx.
    pose proof (in_combine_r _ _ _ _ Hin) as Hy.
    apply In_nth_error in Hx, Hy. destruct Hx as (i & Hx). destruct Hy as (j & Hy).
    rewrite nth_error_skipn in Hx, Hy.
    apply sub_cell_total.
    + apply (Hnum (k + 1) (1 + i)); [lia|lia|].
      unfold cell_iloc. now rewrite Ea.
    + apply (Hnum 1 (1 + j)); [lia|lia|].
      unfold cell_iloc. now rewrite Eb.
  - unfold sub_cells. rewrite Ev. cbn [bind]. eauto.
Qed.

Lemma subtracted_table_total (N : nat) (t : DataFrame) :
  experiment_table N t -> numeric_data t -> 1 <= N ->
  exists t2, subtracted_table t = Ok (t2, N - 1).
Proof.
  intros Ht Hnum HN. rewrite (experiment_table_subtracted Ht HN).
  destruct (@mapM_total _ _ (difference_column t) (seq 1 (N - 1))) as (news & ->).
  - intros k Hk. apply in_seq in Hk.
    apply difference_column_total with (N := N); auto. lia.
  - cbn [bind]. eauto.
Qed.

(** C1.  Called as in the main loop (the global [df] is the table that is
    passed in) on an experiment table with at least two run columns,
    [subtract_background] returns whenever the measured values hold no
    text, and in the table it returns the cell of column ["Run: k"] at each
    data row [r] of 1 .. 1024 is the cell of run column [k+1] at row [r]
    minus the cell of the first run column, the background, at row [r]: for
    two numbers their difference. *)
Theorem subtract_background_is_run_minus_background (N : nat) (t : DataFrame) :
  experiment_table N t -> 2 <= N ->
  (numeric_data t -> exists t2, subtracted_table t = Ok (t2, N - 1)) /\
  forall t2 n, subtracted_table t = Ok (t2, n) ->
    forall k r, 1 <= k <= N - 1 -> 1 <= r <= n_pixels ->
      exists x y z,
        cell_iloc t (k + 1) r = Some x /\
        cell_iloc t 1 r = Some y /\
        cell_of t2 (run_column_name k) r = Some z /\
        sub_cell x y = Ok z /\
        (forall a b, x = CNum a -> y = CNum b -> z = CNum (nsub a b)).
Proof.
  intros Ht HN. split.
  - intros Hnum. apply subtracted_table_total; auto. lia.
  - intros t2 n E k r Hk Hr.
    rewrite (experiment_table_subtracted Ht) in E by lia.
    apply bind_Ok in E. destruct E as (news & Enews & E). inversion E. subst t2 n.
    clear E.
    destruct (@mapM_nth_error _ _ _ _ _ Enews (k - 1) k) as (c & Ec & Hc).
    { rewrite nth_error_seq. destruct (Nat.ltb_spec (k - 1) (N - 1)); [|lia].
      f_equal. lia. }
    destruct Ht as (Hidx & Hwf & Hraw).
    destruct (@difference_column_cells t k c Hwf Hc) as (Hname & _ & _ & Hcells).
    destruct (Hcells r) as (x & y & z & Hx & Hy & Hz & Hsub).
    { rewrite Hidx, RangeIndex_length. lia. }
    exists x, y, z. repeat split; auto.
    + unfold cell_of, column. cbn [columns].
      rewrite find_app_fresh.
      2:{ apply experiment_table_no_run_names with (N := N).
          unfold experiment_table. auto. }
      rewrite <- (app_nil_r news).
      rewrite (@find_run_column news 1 k []).
      * rewrite Ec. cbn [option_map]. exact Hz.
      * rewrite (difference_columns_names _ _ Enews).
        now rewrite (mapM_length _ _ Enews), length_seq.
      * rewrite (mapM_length _ _ Enews), length_seq. lia.
    + intros a b -> ->. cbn in Hsub. now inversion Hsub.
Qed.

End Subtraction.

(** ** The finished table *)

Section Finished.

Context {num : Type} `{Numeric num}.

Local Abbreviation cell := (cell num).
Local Abbreviation Series := (Series num).
Local Abbreviation DataFrame := (DataFrame num).

Lemma present_numbers_all (xs : list num) : present_numbers (map CNum xs) = xs.
Proof. induction xs as [|x xs IH]; simpl; [reflexivity|]. now rewrite IH. Qed.

Lemma nanmean_numbers (xs : list num) :
  xs <> [] -> nanmean (map CNum xs) = CNum (average xs).
Proof.
  intros Hne. unfold nanmean. rewrite present_numbers_all.
  destruct xs; [congruence|reflexivity].
Qed.

Lemma present_numbers_nil (cs : list cell) :
  present_numbers cs = [] <-> forallb (fun c => match c with CNum _ => false | _ => true end) cs = true.
Proof.
  induction cs as [|c cs IH]; simpl; [tauto|].
  destruct c; simpl; try exact IH. split; discriminate.
Qed.

Lemma nanmean_missing (cs : list cell) :
  existsb is_text cs = false ->
  (isna (nanmean cs) = true <-> forallb isna cs = true).
Proof.
  intros Ht. unfold nanmean.
  destruct (present_numbers cs) as [|x xs] eqn:E.
  - split; [|reflexivity]. intros _. apply present_numbers_nil in E.
    clear - E Ht. induction cs as [|c cs IH]; [reflexivity|].
    simpl in *. destruct c; simpl in *; try discriminate; auto.
  - split; [discriminate|]. intros Hall. exfalso.
    assert (present_numbers cs = []) as E'.
    { clear - Hall. induction cs as [|c cs IH]; [reflexivity|].
      simpl in *. destruct c; simpl in *; try discriminate; auto. }
    congruence.
Qed.

Lemma row_cells_no_text (cols : list (string * list cell)) (r : nat) :
  has_text cols = false -> existsb is_text (row_cells cols r) = false.
Proof.
  unfold has_text, row_cells. induction cols as [|c cols IH]; simpl; [reflexivity|].
  intros E. apply orb_false_iff in E. destruct E as [Ec Ecols].
  rewrite (IH Ecols), orb_false_r.
  destruct (Nat.ltb_spec r (List.length (snd c))) as [Hr|Hr].
  - destruct (is_text (nth r (snd c) CNaN)) eqn:Et; [|reflexivity].
    rewrite <- Ec. symmetry. apply existsb_exists.
    exists (nth r (snd c) CNaN). split; [now apply nth_In|exact Et].
  - now rewrite nth_overflow.
Qed.

(** The [Mean] values of a table whose last [length news >= 1] columns
    hold no text. *)
Lemma mean_values_trailing (idx : list Z) (base news : list (string * list cell))
    (objs : list string) :
  1 <= List.length news -> has_text news = false ->
  mean_values {| index := idx; columns := base ++ news; objects := objs |}
              (List.length news) =
  map (fun r => nanmean (row_cells news r)) (seq 0 (List.length idx)).
Proof.
  intros Hn Ht. unfold mean_values, mean_axis1. cbn [s_values].
  rewrite iloc_trailing by exact Hn. now rewrite Ht.
Qed.

Lemma no_text_numbers (l : list Z) :
  existsb is_text (map (fun x => CNum (num := num) (of_Z x)) l) = false.
Proof. induction l; simpl; auto. Qed.

(** The [Mean] values when no column was appended: the slice is the whole
    table; the label ["BG"] makes the sum over all columns fail, the first
    run column has dtype [object] and is dropped, and the mean is taken
    over the pixel column alone. *)
Lemma mean_values_one_run (idx : list Z) (name : string) (p data : list cell)
    (objs : list string) :
  existsb (String.eqb "Pixel"%string) objs = false ->
  existsb (String.eqb name) objs = true ->
  mean_values {| index := idx;
                 columns := [("Pixel"%string, p); (name, CStr "BG" :: data)];
                 objects := objs |} 0 =
  map (fun r => nanmean [nth r p CNaN]) (seq 0 (List.length idx)).
Proof.
  intros Hp Hn. unfold mean_values. rewrite iloc_minus_zero. unfold mean_axis1.
  cbn [s_values columns index].
  assert (has_text [("Pixel"%string, p); (name, CStr "BG" :: data)] = true) as ->.
  { unfold has_text. cbn [existsb snd is_text]. now rewrite orb_true_r. }
  cbn [filter]. unfold is_numeric_column, is_object. cbn [objects fst].
  rewrite Hp, Hn. reflexivity.
Qed.

Lemma Mean_not_asc : endswith "Mean" ".asc" = false.
Proof. reflexivity. Qed.

Lemma experiment_table_no_Mean (N : nat) (t : DataFrame) :
  experiment_table N t -> ~ In "Mean"%string (column_names t).
Proof.
  intros Ht. destruct (experiment_table_names Ht) as (names & -> & _ & Hf).
  intros [Hin|Hin]; [discriminate|].
  rewrite Forall_forall in Hf. apply Hf in Hin. discriminate.
Qed.

Lemma run_names_no_Mean (ks : list nat) : ~ In "Mean"%string (map run_column_name ks).
Proof.
  intros Hin. apply in_map_iff in Hin. destruct Hin as (k & Hk & _).
  now apply run_column_name_not_Mean in Hk.
Qed.

(** The finished table of an experiment table [t1] with [N >= 1] runs: its
    columns, then the differences, then the mean. *)
Lemma finished_from_table (N : nat) (t1 t2 t3 : DataFrame) (n : nat) :
  experiment_table N t1 -> 1 <= N ->
  subtracted_table t1 = Ok (t2, n) ->
  averaged_table t2 n = Ok t3 ->
  exists news,
    mapM (difference_column t1) (seq 1 (N - 1)) = Ok news /\
    n = N - 1 /\
    t2 = {| index := index t1; columns := columns t1 ++ news;
            objects := difference_objects t1 (seq 1 (N - 1)) (objects t1) |} /\
    t3 = {| index := index t1;
            columns := (columns t1 ++ news) ++ [("Mean"%string, mean_values t2 n)];
            objects := set_dtype "Mean" false (objects t2) |}.
Proof.
  intros Ht HN E2 E3.
  rewrite (experiment_table_subtracted Ht HN) in E2.
  apply bind_Ok in E2. destruct E2 as (news & Enews & E2). inversion E2. subst t2 n.
  exists news. repeat split; auto.
  rewrite averaged_table_spec in E3. inversion E3. cbn [index columns objects].
  rewrite set_column_fresh; [reflexivity|].
  rewrite map_app, in_app_iff. intros [Hin|Hin].
  - now apply (experiment_table_no_Mean Ht).
  - rewrite (difference_columns_names _ _ Enews) in Hin.
    now apply run_names_no_Mean in Hin.
Qed.

End Finished.

(** ** The mean column *)

Unset Implicit Arguments.

Section Mean.

Context {num : Type} `{Numeric num}.

Local Abbreviation cell := (cell num).
Local Abbreviation Series := (Series num).
Local Abbreviation DataFrame := (DataFrame num).

Lemma finished_table_folder (fs : folder) (t : DataFrame) :
  NoDup (map fst fs) ->
  finished_table fs = Ok t ->
  exists t1 t2 news,
    iterate_over_runs fs = Ok t1 /\
    experiment_table (List.length (runs_of fs)) t1 /\
    1 <= List.length (runs_of fs) /\
    subtracted_table t1 = Ok (t2, List.length (runs_of fs) - 1) /\
    averaged_table t2 (List.length (runs_of fs) - 1) = Ok t /\
    mapM (difference_column t1) (seq 1 (List.length (runs_of fs) - 1)) = Ok news /\
    t2 = {| index := index t1; columns := columns t1 ++ news;
            objects := difference_objects t1 (seq 1 (List.length (runs_of fs) - 1))
                                          (objects t1) |} /\
    t = {| index := index t1;
           columns := (columns t1 ++ news) ++
                      [("Mean"%string, mean_values t2 (List.length (runs_of fs) - 1))];
           objects := set_dtype "Mean" false (objects t2) |}.
Proof.
  intros Hnd E. rewrite finished_table_stages in E.
  apply bind_Ok in E. destruct E as (t1 & E1 & E).
  apply bind_Ok in E. destruct E as ([t2 n] & E2 & E3).
  destruct (@iterate_over_runs_table _ _ fs t1 Hnd E1) as (Ht & HN & _).
  destruct (@finished_from_table _ _ _ t1 t2 t n Ht HN E2 E3)
    as (news & Enews & -> & -> & ->).
  exists t1, {| index := index t1; columns := columns t1 ++ news;
                objects := difference_objects t1 (seq 1 (List.length (runs_of fs) - 1))
                                              (objects t1) |}, news.
  repeat (split; [assumption|]). split; reflexivity.
Qed.

Lemma difference_columns_rows (t : DataFrame) (ks : list nat)
    (news : list (string * list cell)) :
  well_formed t -> index t <> [] ->
  mapM (difference_column t) ks = Ok news ->
  Forall (fun c => List.length (snd c) = List.length (index t)) news.
Proof.
  intros Hwf Hne E. rewrite Forall_forall. intros c Hc.
  apply In_nth_error in Hc. destruct Hc as (i & Hi).
  assert (exists k, nth_error ks i = Some k) as (k & Hk).
  { apply nth_error_defined. rewrite <- (@mapM_length _ _ _ _ _ E).
    apply nth_error_Some. congruence. }
  destruct (@mapM_nth_error _ _ _ _ _ E i k Hk) as (c' & Hc' & Ec).
  assert (c' = c) by congruence. subst c'.
  destruct (@difference_column_cells _ _ t k c Hwf Ec) as (_ & Hl & _).
  rewrite Hl. destruct (index t); [congruence|]. simpl. lia.
Qed.

(** C3.  In the finished table of a folder with at least two run files
    (listed under distinct names), at every data row [r] of 1 .. 1024 the
    cell of [Mean] is the mean over the cells [zs] that the columns
    ["Run: 1"], ..., ["Run: N-1"] hold at row [r], exactly those [N-1]
    columns and no other; when these cells are the numbers [xs] it is their
    arithmetic mean, the sum divided by [N-1]. *)
Theorem mean_is_average_of_run_columns (fs : folder) (t : DataFrame) :
  NoDup (map fst fs) ->
  2 <= List.length (runs_of fs) ->
  finished_table fs = Ok t ->
  forall r, 1 <= r <= n_pixels ->
    exists zs : list cell,
      List.length zs = List.length (runs_of fs) - 1 /\
      (forall k, 1 <= k <= List.length (runs_of fs) - 1 ->
         cell_of t (run_column_name k) r = nth_error zs (k - 1)) /\
      cell_of t "Mean" r = Some (nanmean zs) /\
      (forall xs, zs = map CNum xs -> cell_of t "Mean" r = Some (CNum (average xs))).
Proof.
  intros Hnd HN E r Hr.
  destruct (finished_table_folder fs t Hnd E)
    as (t1 & t2 & news & E1 & Ht & _ & E2 & E3 & Enews & Et2 & Et).
  pose proof (@mapM_length _ _ _ _ _ Enews) as Hlen. rewrite length_seq in Hlen.
  pose proof (@difference_columns_names _ _ _ _ _ Enews) as Hnames.
  pose proof (@difference_columns_no_text _ _ _ _ _ Enews) as Htext.
  pose proof (@experiment_table_rows _ _ _ _ Ht) as Hrows.
  assert (Forall (fun c => List.length (snd c) = List.length (index t1)) news) as Hnews.
  { apply difference_columns_rows with (ks := seq 1 (List.length (runs_of fs) - 1)).
    - now destruct Ht as (_ & Hwf & _).
    - intros E0. rewrite E0 in Hrows. discriminate.
    - exact Enews. }
  assert (cell_of t "Mean" r = Some (nanmean (row_cells news r))) as HMean.
  { subst t. unfold cell_of, column. cbn [columns].
    rewrite find_app_fresh.
    2:{ rewrite map_app, in_app_iff. intros [Hin|Hin].
        - now apply (@experiment_table_no_Mean _ _ _ _ Ht).
        - rewrite Hnames in Hin. now apply run_names_no_Mean in Hin. }
    cbn [find fst String.eqb Ascii.eqb Bool.eqb option_map snd].
    rewrite Et2, <- Hlen.
    rewrite mean_values_trailing by (auto; lia).
    rewrite nth_error_map, nth_error_seq.
    destruct (Nat.ltb_spec r (List.length (index t1))); [reflexivity|lia]. }
  exists (row_cells news r). split; [|split; [|split]].
  - unfold row_cells. now rewrite length_map.
  - intros k Hk. subst t. unfold cell_of, column. cbn [columns].
    rewrite <- app_assoc.
    rewrite find_app_fresh by (now apply experiment_table_no_run_names with
                                 (N := List.length (runs_of fs))).
    rewrite (@find_run_column _ news 1 k) by (rewrite ?Hnames, Hlen; auto; lia).
    unfold row_cells. rewrite nth_error_map.
    destruct (nth_error news (k - 1)) as [c|] eqn:Ec; cbn [option_map]; [|reflexivity].
    apply nth_error_nth'. rewrite Forall_forall in Hnews.
    rewrite (Hnews c (nth_error_In _ _ Ec)). lia.
  - exact HMean.
  - intros xs Hxs. rewrite HMean, Hxs. f_equal. apply nanmean_numbers.
    intros ->. apply (f_equal (@List.length _)) in Hxs.
    unfold row_cells in Hxs. rewrite length_map in Hxs. simpl in Hxs. lia.
Qed.

(** C4, as the code has it.  [get_averaged_data_column] with
    [number_of_runs >= 1], on a table whose [number_of_runs] trailing
    columns hold no string (as the background-subtracted columns never
    do): the call returns, and at every row the cell of [Mean] is the mean
    of the values present in that row of those columns, the missing ones
    left out: NaN when none is present, else the sum of the present values
    divided by their number.  So [Mean] is missing exactly when all of
    them are missing in that row. *)
Theorem mean_leaves_missing_values_out (t : DataFrame) (number_of_runs : nat)
    (before trailing : list (string * list cell)) :
  1 <= number_of_runs ->
  columns t = before ++ trailing ->
  List.length trailing = number_of_runs ->
  has_text trailing = false ->
  exists t',
    averaged_table t number_of_runs = Ok t' /\
    forall r, r < List.length (index t) ->
      (present_numbers (row_cells trailing r) = [] ->
       cell_of t' "Mean" r = Some CNaN) /\
      (present_numbers (row_cells trailing r) <> [] ->
       cell_of t' "Mean" r =
         Some (CNum (average (present_numbers (row_cells trailing r))))) /\
      (cell_of t' "Mean" r = Some CNaN <->
       forallb isna (row_cells trailing r) = true).
Proof.
  intros Hn Hcols Hlen Ht. rewrite averaged_table_spec. eexists. split; [reflexivity|].
  intros r Hr.
  assert (cell_of {| index := index t;
                     columns := set_column "Mean" (mean_values t number_of_runs) (columns t);
                     objects := set_dtype "Mean" false (objects t) |} "Mean" r =
          Some (nanmean (row_cells trailing r))) as ->.
  { unfold cell_of, column. cbn [columns]. rewrite find_set_column.
    cbn [option_map snd]. destruct t as [idx cols objs]. cbn [columns index] in *.
    subst cols number_of_runs. rewrite mean_values_trailing by assumption.
    rewrite nth_error_map, nth_error_seq.
    destruct (Nat.ltb_spec r (List.length idx)); [reflexivity|lia]. }
  pose proof (nanmean_missing (row_cells trailing r) (row_cells_no_text trailing r Ht))
    as Hmiss.
  unfold nanmean in *. unfold average.
  destruct (present_numbers (row_cells trailing r)) as [|x xs].
  - split; [reflexivity|]. split; [congruence|].
    split; [intros _; now apply Hmiss|reflexivity].
  - split; [discriminate|]. split; [reflexivity|].
    split; [discriminate|]. intros Hall. apply Hmiss in Hall. discriminate Hall.
Qed.

End Mean.

(** ** The columns of the finished table *)

Section Columns.

Context {num : Type} `{Numeric num}.

Local Abbreviation cell := (cell num).
Local Abbreviation Series := (Series num).
Local Abbreviation DataFrame := (DataFrame num).

Lemma convert_column_numeric (fields : list string) :
  forallb (fun s => is_na_text s || reads_as_number s) fields = true ->
  existsb is_text (convert_column fields) = false.
Proof.
  intros Hf. unfold convert_column. rewrite Hf.
  clear Hf. induction fields as [|s fields IH]; simpl; [reflexivity|].
  rewrite IH, orb_false_r. destruct (is_na_text s); [reflexivity|].
  now destruct (parse_num s).
Qed.

Lemma align_no_text (n : nat) (v : list cell) :
  existsb is_text v = false -> existsb is_text (align n v) = false.
Proof.
  intros Hv. unfold align.
  destruct (existsb is_text (map (fun i => nth i v CNaN) (seq 0 n))) eqn:E;
    [|reflexivity].
  apply existsb_exists in E. destruct E as (x & Hx & Ht).
  apply in_map_iff in Hx. destruct Hx as (i & <- & _).
  destruct (Nat.ltb_spec i (List.length v)) as [Hi|Hi].
  - rewrite <- Hv. symmetry. apply existsb_exists.
    exists (nth i v CNaN). split; [now apply nth_In|exact Ht].
  - rewrite nth_overflow in Ht by exact Hi. discriminate.
Qed.

Lemma mapM_In {A B : Type} (f : A -> result B) (l : list A) (l' : list B) (b : B) :
  mapM f l = Ok l' -> In b l' -> exists a, In a l /\ f a = Ok b.
Proof.
  intros E Hb. apply In_nth_error in Hb. destruct Hb as (i & Hi).
  assert (exists a, nth_error l i = Some a) as (a & Ha).
  { apply nth_error_defined. rewrite <- (@mapM_length _ _ _ _ _ E).
    apply nth_error_Some. congruence. }
  destruct (@mapM_nth_error _ _ _ _ _ E i a Ha) as (b' & Hb' & Eb).
  exists a. split; [now apply nth_error_In with (n := i)|congruence].
Qed.

Lemma label_columns_cell (cols : list (string * list cell)) :
  forall labels j r,
    List.length cols = List.length labels ->
    match nth_error (label_columns cols labels) j with
    | Some c => nth_error (snd c) (S r)
    | None => None
    end =
    match nth_error cols j with
    | Some c => nth_error (snd c) r
    | None => None
    end.
Proof.
  induction cols as [|c cols IH]; intros [|v labels] j r; simpl; try discriminate.
  - now destruct j.
  - intros [= E]. destruct j as [|j]; simpl; [reflexivity|]. now apply IH.
Qed.

(** On a folder of readable numeric run files [iterate_over_runs] returns,
    and the table it returns holds no text below the label row. *)
Lemma iterate_over_runs_total (fs : folder) :
  NoDup (map fst fs) ->
  1 <= List.length (runs_of fs) ->
  (forall e, In e (runs_of fs) -> numeric_file (snd e)) ->
  exists t1, iterate_over_runs fs = Ok t1 /\ numeric_data t1.
Proof.
  intros Hnd HN Hnum.
  rewrite iterate_over_runs_spec by (unfold runs_of; now apply filter_keeps_names_distinct).
  destruct (@mapM_total _ _ (run_column (num := num) n_pixels) (runs_of fs)) as (cs & Ecs).
  { intros e He. destruct (Hnum e He) as (lines & Hlines & Hp & _).
    unfold run_column. rewrite Hlines.
    destruct (run_series_plain _ Hp) as (o & ->). cbn [bind]. eauto. }
  rewrite Ecs. cbn [bind].
  pose proof (@mapM_length _ _ _ _ _ Ecs) as Hlen.
  destruct cs as [|c cs]; [simpl in Hlen; lia|].
  eexists. split; [reflexivity|].
  intros j r x Hj Hr Hx. unfold cell_iloc in Hx. cbn [columns] in Hx.
  destruct j as [|j]; [lia|]. destruct r as [|r]; [lia|].
  rewrite label_columns_cell in Hx by (rewrite labels_for_length; simpl; lia).
  cbn [nth_error] in Hx.
  destruct (nth_error (c :: cs) j) as [c'|] eqn:Ec; [|discriminate].
  apply nth_error_In in Ec.
  destruct (@mapM_In _ _ _ _ _ c' Ecs Ec) as (e & He & Ee).
  destruct (Hnum e He) as (lines & Hlines & Hp & Hall).
  unfold run_column in Ee. rewrite Hlines in Ee.
  destruct (run_series_plain _ Hp) as (o & Es). rewrite Es in Ee.
  cbn [bind s_values] in Ee. inversion Ee. subst c'.
  cbn [snd] in Hx.
  pose proof (align_no_text n_pixels _ (convert_column_numeric _ Hall)) as Hno.
  destruct (is_text x) eqn:Ex; [|reflexivity].
  rewrite <- Hno. symmetry. apply existsb_exists.
  exists x. split; [now apply nth_error_In with (n := r)|exact Ex].
Qed.

Lemma run_names_NoDup (s m : nat) : NoDup (map run_column_name (seq s m)).
Proof.
  apply Injective_map_NoDup.
  - intros i j. apply run_column_name_inj.
  - apply seq_NoDup.
Qed.

Lemma finished_names_NoDup (raw : list string) (m : nat) :
  NoDup raw ->
  Forall (fun s => endswith s ".asc" = true) raw ->
  NoDup (("Pixel"%string :: raw) ++ map run_column_name (seq 1 m) ++ ["Mean"%string]).
Proof.
  intros Hraw Hasc. rewrite Forall_forall in Hasc.
  apply NoDup_app.
  - constructor; [|exact Hraw]. intros Hin. apply Hasc in Hin. discriminate.
  - apply NoDup_app.
    + apply run_names_NoDup.
    + constructor; [intros []|constructor].
    + intros a Ha [Hm|[]]. subst a. now apply run_names_no_Mean in Ha.
  - intros a Ha Hb. apply in_app_iff in Hb.
    destruct Ha as [Ha|Ha].
    + subst a. destruct Hb as [Hb|[Hb|[]]]; [|discriminate].
      apply in_map_iff in Hb. destruct Hb as (k & Hk & _).
      now apply run_column_name_not_Pixel in Hk.
    + apply Hasc in Ha. destruct Hb as [Hb|[Hb|[]]].
      * apply in_map_iff in Hb. destruct Hb as (k & Hk & _). subst a.
        rewrite run_column_name_not_asc in Ha. discriminate.
      * subst a. discriminate.
Qed.

(** C7.  For a folder with [N >= 1] run files, listed under distinct
    names: the pipeline finishes when the run files are readable and
    numeric; the finished table has the columns [Pixel], the [N] run files
    in listing order, ["Run: 1"] .. ["Run: N-1"], and [Mean], each name
    once; [subtract_background] returns the count [N-1]; and every column
    ["Run: k"] is computed from column [k+1 <= N] and column 1 of the
    table as it was before any column was appended, never from an appended
    column. *)
Theorem finished_table_columns (fs : folder) :
  NoDup (map fst fs) ->
  1 <= List.length (runs_of fs) ->
  ((forall e, In e (runs_of fs) -> numeric_file (snd e)) ->
   exists t, finished_table fs = Ok t) /\
  (forall t, finished_table fs = Ok t ->
     column_names t =
       ("Pixel"%string :: map fst (runs_of fs)) ++
       map run_column_name (seq 1 (List.length (runs_of fs) - 1)) ++ ["Mean"%string] /\
     NoDup (column_names t)) /\
  (forall t1 t2 n,
     iterate_over_runs fs = Ok t1 ->
     subtracted_table t1 = Ok (t2, n) ->
     n = List.length (runs_of fs) - 1 /\
     forall k, 1 <= k <= List.length (runs_of fs) - 1 ->
       exists s,
         k + 1 <= List.length (runs_of fs) /\
         column_difference t1 (k + 1) 1 = Ok s /\
         column t2 (run_column_name k) = Some (CNaN :: s_values s)).
Proof.
  intros Hnd HN. split; [|split].
  - intros Hnum.
    destruct (iterate_over_runs_total fs Hnd HN Hnum) as (t1 & E1 & Hdata).
    destruct (@iterate_over_runs_table _ _ fs t1 Hnd E1) as (Ht & _).
    destruct (@subtracted_table_total _ _ _ t1 Ht Hdata HN) as (t2 & E2).
    rewrite finished_table_stages, E1. cbn [bind]. rewrite E2. cbn [bind].
    rewrite averaged_table_spec. eauto.
  - intros t E.
    destruct (finished_table_folder fs t Hnd E)
      as (t1 & t2 & news & E1 & Ht & _ & E2 & E3 & Enews & Et2 & Et).
    destruct (@iterate_over_runs_table _ _ fs t1 Hnd E1) as (_ & _ & Hnames & _).
    assert (column_names t =
            ("Pixel"%string :: map fst (runs_of fs)) ++
            map run_column_name (seq 1 (List.length (runs_of fs) - 1)) ++
            ["Mean"%string]) as Hcols.
    { subst t. unfold column_names in *. cbn [columns].
      rewrite !map_app, Hnames, (@difference_columns_names _ _ _ _ _ Enews).
      now rewrite <- app_assoc. }
    split; [exact Hcols|]. rewrite Hcols. apply finished_names_NoDup.
    + unfold runs_of. now apply filter_keeps_names_distinct.
    + apply (proj2 (Forall_map fst (fun s => endswith s ".asc" = true) _)).
      rewrite Forall_forall. intros e He. now apply runs_of_endswith in He.
  - intros t1 t2 n E1 E2.
    destruct (@iterate_over_runs_table _ _ fs t1 Hnd E1) as (Ht & _).
    rewrite (@experiment_table_subtracted _ _ _ t1 Ht HN) in E2.
    apply bind_Ok in E2. destruct E2 as (news & Enews & E2). inversion E2. subst t2 n.
    split; [reflexivity|]. intros k Hk.
    destruct (@mapM_nth_error _ _ _ _ _ Enews (k - 1) k) as (c & Ec & Hc).
    { rewrite nth_error_seq.
      destruct (Nat.ltb_spec (k - 1) (List.length (runs_of fs) - 1)); [|lia].
      f_equal. lia. }
    unfold difference_column in Hc.
    apply bind_Ok in Hc. destruct Hc as (s & Es & Hc). inversion Hc. subst c.
    exists s. split; [lia|]. split; [exact Es|].
    unfold column. cbn [columns].
    rewrite find_app_fresh
      by (now apply experiment_table_no_run_names with (N := List.length (runs_of fs))).
    rewrite <- (app_nil_r news).
    rewrite (@find_run_column _ news 1 k []).
    + now rewrite Ec.
    + rewrite (@difference_columns_names _ _ _ _ _ Enews).
      now rewrite (@mapM_length _ _ _ _ _ Enews), length_seq.
    + rewrite (@mapM_length _ _ _ _ _ Enews), length_seq. lia.
Qed.

End Columns.

(** ** The table invariant, the label row, and the degenerate folders *)

Section Invariant.

Context {num : Type} `{Numeric num}.

Local Abbreviation cell := (cell num).
Local Abbreviation Series := (Series num).
Local Abbreviation DataFrame := (DataFrame num).

Lemma experiment_table_invariant (N : nat) (t : DataFrame) :
  experiment_table N t -> table_invariant t.
Proof.
  intros (Hidx & Hwf & raw & Hc & _). repeat split; auto.
  unfold column. now rewrite Hc.
Qed.

Lemma mean_values_length (t : DataFrame) (n : nat) :
  List.length (mean_values t n) = List.length (index t).
Proof.
  unfold mean_values, mean_axis1. cbn [s_values index iloc_cols_from].
  now rewrite length_map, length_seq.
Qed.

(** C8.  An experiment table (the label row in place, at least one run)
    has 1025 rows, labelled 0 .. 1024, and the pixel column holds 1 .. 1024
    below the label row; [subtract_background] and
    [get_averaged_data_column] keep this, and their columns are the old
    columns, unchanged and in the old order, followed by the new ones. *)
Theorem table_invariant_preserved (N : nat) (t1 : DataFrame) :
  experiment_table N t1 -> 1 <= N ->
  table_invariant t1 /\
  forall t2 n, subtracted_table t1 = Ok (t2, n) ->
    (table_invariant t2 /\ exists added, columns t2 = columns t1 ++ added) /\
    forall t3, averaged_table t2 n = Ok t3 ->
      table_invariant t3 /\
      exists m, columns t3 = columns t2 ++ [("Mean"%string, m)].
Proof.
  intros Ht HN. pose proof (experiment_table_invariant N t1 Ht) as Hinv.
  split; [exact Hinv|]. intros t2 n E2.
  destruct Hinv as (Hidx & Hwf & HPixel).
  assert (forall news more objs,
            column {| index := index t1; columns := (columns t1 ++ news) ++ more;
                      objects := objs |}
                   "Pixel" = Some (CNaN :: pixels)) as HP.
  { intros news more objs. unfold column in *. cbn [columns]. rewrite <- app_assoc.
    destruct (find (fun c => String.eqb (fst c) "Pixel") (columns t1)) as [c|] eqn:Ec;
      [|discriminate].
    now rewrite (@find_app_found _ "Pixel"%string (columns t1) (news ++ more) c Ec). }
  pose proof E2 as E2'.
  rewrite (@experiment_table_subtracted _ _ N t1 Ht HN) in E2'.
  apply bind_Ok in E2'. destruct E2' as (news & Enews & E2'). inversion E2'.
  subst t2 n. clear E2'.
  assert (Forall (fun c => List.length (snd c) = List.length (index t1))
                 (columns t1 ++ news)) as Hwf2.
  { apply Forall_app. split; [exact Hwf|].
    apply difference_columns_rows with (ks := seq 1 (N - 1)); auto.
    rewrite Hidx. apply RangeIndex_not_nil. lia. }
  split.
  - split; [|now exists news].
    repeat split; auto.
    specialize (HP news [] (difference_objects t1 (seq 1 (N - 1)) (objects t1))).
    now rewrite app_nil_r in HP.
  - intros t3 E3.
    destruct (@finished_from_table _ _ N t1 _ t3 _ Ht HN E2 E3)
      as (news' & Enews' & _ & _ & Et3).
    assert (news' = news) by congruence. subst news'.
    split.
    + rewrite Et3. repeat split; auto.
      unfold well_formed. cbn [index columns].
      apply Forall_app. split; [exact Hwf2|].
      constructor; [|constructor]. cbn [snd].
      now rewrite mean_values_length.
    + eexists. rewrite Et3. reflexivity.
Qed.

Lemma py_range_from_1 (N : nat) :
  1 <= N -> py_range 1 (Z.of_nat (S N) - 1) = map Z.of_nat (seq 1 (N - 1)).
Proof.
  intros HN. unfold py_range.
  replace (Z.to_nat (Z.of_nat (S N) - 1 - 1)) with (N - 1) by lia.
  rewrite <- seq_shift, map_map. apply map_ext. intros i. lia.
Qed.

(** C6.  On an aggregated table with [N >= 1] run columns
    [add_run_numbers] returns a table with one row more, rows labelled
    [0 .. 1024]; its row 0 is an empty cell (the missing value NaN, which
    is what the numeric pixel column keeps of the [None] of the list), then
    ["BG"], then the integers 1, 2, ..., N-1; the old rows follow from row
    1 on, each cell in its column; and the column names are unchanged. *)
Theorem add_run_numbers_label_row (N : nat) (d : DataFrame) :
  aggregated_table N d -> 1 <= N ->
  exists d',
    add_run_numbers d = Ok d' /\
    index d' = RangeIndex (S n_pixels) /\
    column_names d' = column_names d /\
    map (fun c => nth 0 (snd c) CNaN) (columns d') =
      CNaN :: CStr "BG" :: map (fun k => CNum (of_Z (Z.of_nat k))) (seq 1 (N - 1)) /\
    (forall j c, nth_error (columns d') j = Some c ->
                 isna (nth 0 (snd c) CNaN) = true <-> j = 0) /\
    forall j r, cell_iloc d' j (S r) = cell_iloc d j r.
Proof.
  intros (Hidx & Hwf & Hlen & Hnum) HN.
  assert (List.length (columns d) = List.length (labels_for (num := num) (List.length (columns d))))
    as Hlab by (rewrite labels_for_length; lia).
  rewrite (@add_run_numbers_spec _ _ d n_pixels Hidx).
  - eexists. split; [reflexivity|]. cbn [index columns]. split; [reflexivity|].
    unfold column_names. cbn [columns].
    split; [now apply label_columns_names|].
    assert (map (fun c => nth 0 (snd c) CNaN)
                (label_columns (columns d) (labels_for (List.length (columns d)))) =
            CNaN :: CStr "BG" :: map (fun k => CNum (of_Z (Z.of_nat k))) (seq 1 (N - 1)))
      as Hrow.
    { rewrite label_columns_first_row by exact Hlab.
      rewrite Hlen. unfold labels_for. cbn [List.app]. do 2 f_equal.
      rewrite py_range_from_1 by exact HN. now rewrite map_map. }
    split; [exact Hrow|]. split.
    + intros j c Hc.
      apply (f_equal (fun l => nth_error l j)) in Hrow.
      rewrite nth_error_map, Hc in Hrow. cbn [option_map] in Hrow.
      destruct j as [|[|j]]; cbn [nth_error] in Hrow.
      * injection Hrow as E. split; intros _; [reflexivity|]. now rewrite E.
      * injection Hrow as E. split; [|discriminate]. intros Hna.
        rewrite E in Hna. discriminate Hna.
      * rewrite nth_error_map in Hrow.
        destruct (nth_error (seq 1 (N - 1)) j); [|discriminate Hrow].
        injection Hrow as E. split; [|discriminate]. intros Hna.
        rewrite E in Hna. discriminate Hna.
    + intros j r. unfold cell_iloc. cbn [columns].
      now apply label_columns_cell.
  - unfold well_formed in Hwf. now rewrite Hidx, RangeIndex_length in Hwf.
  - lia.
  - exact Hnum.
Qed.

(** C5, what the code does.  For a folder without any run file the row of
    run numbers still has its two cells, the empty one and ["BG"], while the
    table has the pixel column alone: [add_run_numbers] raises ValueError,
    and so do [iterate_over_runs] and the whole pass over the folder. *)
Theorem zero_runs_raise_ValueError (fs : folder) :
  runs_of fs = [] ->
  iterate_over_runs (num := num) fs = Raise ValueError /\
  finished_table (num := num) fs = Raise ValueError.
Proof.
  intros Hruns.
  assert (iterate_over_runs (num := num) fs = Raise ValueError) as E.
  { rewrite iterate_over_runs_spec by (rewrite Hruns; constructor).
    rewrite Hruns. reflexivity. }
  split; [exact E|]. rewrite finished_table_stages, E. reflexivity.
Qed.

Lemma objects_of_runs_other (name : string) (runs : folder) :
  ~ In name (map fst runs) ->
  existsb (String.eqb name) (objects_of_runs runs) = false.
Proof. intros Hn. unfold objects_of_runs. now rewrite objects_fold_other. Qed.

(** The dtypes of the table of [iterate_over_runs]: the pixel column is
    numeric, the first run column has dtype [object]. *)
Lemma labelled_objects_Pixel (runs : folder) :
  Forall (fun e => endswith (fst e) ".asc" = true) runs ->
  existsb (String.eqb "Pixel"%string) (labelled_objects runs) = false.
Proof.
  intros Hasc. rewrite Forall_forall in Hasc. unfold labelled_objects.
  rewrite existsb_app, objects_of_runs_other.
  - destruct runs as [|e rest]; [reflexivity|].
    destruct (existsb _ (objects_of_runs (e :: rest))); [reflexivity|].
    cbn [existsb orb]. destruct (String.eqb_spec "Pixel"%string (fst e)) as [E|]; [|reflexivity].
    specialize (Hasc e (or_introl eq_refl)). rewrite <- E in Hasc. discriminate Hasc.
  - intros Hin. apply in_map_iff in Hin. destruct Hin as (e & He & Hin).
    apply Hasc in Hin. rewrite He in Hin. discriminate Hin.
Qed.

Lemma labelled_objects_first (e : string * asc_file) (rest : folder) :
  existsb (String.eqb (fst e)) (labelled_objects (e :: rest)) = true.
Proof.
  unfold labelled_objects. rewrite existsb_app.
  destruct (existsb (String.eqb (fst e)) (objects_of_runs (e :: rest))); [reflexivity|].
  cbn [existsb orb]. now rewrite String.eqb_refl.
Qed.

Lemma nanmean_one_missing : nanmean [CNaN (num := num)] = CNaN.
Proof. reflexivity. Qed.

Lemma pixel_means (law : forall x : num, ndiv (nadd (of_Z 0) x) (of_Z 1) = x) :
  map (fun c : cell => nanmean [c]) (CNaN :: pixels) = CNaN :: pixels.
Proof.
  cbn [map]. rewrite nanmean_one_missing. f_equal. unfold pixels.
  rewrite map_map. apply map_ext. intros x.
  unfold nanmean, nsum. cbn [present_numbers flat_map List.app fold_left List.length].
  now rewrite law.
Qed.

(** C10, as the code has it.  For a folder with exactly one run file, one
    that [asc_read] returns a table for: [subtract_background] appends
    nothing and returns the count 0; the slice [iloc[:, -0:]] in
    [get_averaged_data_column] is then the whole table, the pixel column
    and the background run, not an empty selection.  The label ["BG"]
    makes the sum over these two columns fail, and pandas repeats the mean
    over the columns of a numeric dtype: the pixel column alone, since the
    label has turned the run column into a column of dtype [object].  So
    each cell of [Mean] is the mean of the one cell of the pixel column in
    its row, NaN in the label row and below it the pixel number itself (in
    any arithmetic where [(0 + x) / 1 = x]): the measured intensities play
    no part in it. *)
Theorem one_run_mean_is_the_pixel_column (fs : folder) (name : string)
    (lines : list (list string)) :
  runs_of fs = [(name, Lines lines)] ->
  is_plain lines = true ->
  exists t1 t,
    iterate_over_runs fs = Ok t1 /\
    subtracted_table t1 = Ok (t1, 0) /\
    iloc_cols_from t1 (-1 * Z.of_nat 0) = t1 /\
    is_object t1 "Pixel" = false /\
    is_object t1 name = true /\
    finished_table fs = Ok t /\
    column_names t = ["Pixel"%string; name; "Mean"%string] /\
    column t "Pixel" = Some (CNaN :: pixels) /\
    column t "Mean" = Some (map (fun c => nanmean [c]) (CNaN :: pixels)) /\
    ((forall x : num, ndiv (nadd (of_Z 0) x) (of_Z 1) = x) ->
     column t "Mean" = column t "Pixel").
Proof.
  intros Hruns Hplain.
  assert (endswith name ".asc" = true) as Hasc.
  { apply (runs_of_endswith fs (name, Lines lines)). rewrite Hruns. now left. }
  assert (name <> "Mean"%string) as HnM by (intros ->; discriminate Hasc).
  assert (name <> "Pixel"%string) as HnP by (intros ->; discriminate Hasc).
  pose (data := align n_pixels (convert_column (num := num) (map (field 1) (records lines)))).
  pose (t1 := {| index := RangeIndex (S n_pixels);
                 columns := [("Pixel"%string, CNaN :: pixels (num := num));
                             (name, CStr "BG" :: data)];
                 objects := labelled_objects [(name, Lines lines)] |}).
  assert (iterate_over_runs fs = Ok t1) as E1.
  { rewrite iterate_over_runs_spec
      by (rewrite Hruns; cbn [map fst]; constructor; [intros []|constructor]).
    rewrite Hruns. cbn [mapM]. unfold run_column. cbn [snd fst].
    destruct (run_series_plain _ Hplain) as (o & ->). reflexivity. }
  assert (experiment_table 1 t1) as Ht.
  { repeat split.
    - unfold well_formed, t1. cbn [index columns]. rewrite RangeIndex_length.
      constructor; [|constructor; [|constructor]]; cbn [snd List.length].
      + now rewrite pixels_length.
      + unfold data. now rewrite align_length.
    - exists [(name, CStr "BG" :: data)]. repeat split.
      constructor; [exact Hasc|constructor]. }
  assert (subtracted_table t1 = Ok (t1, 0)) as E2.
  { rewrite (@experiment_table_subtracted _ _ 1 t1 Ht (le_n 1)).
    cbn [Nat.sub seq mapM bind difference_objects fold_left]. now rewrite app_nil_r. }
  assert (is_object t1 "Pixel" = false) as HoP.
  { unfold is_object, t1. cbn [objects]. apply labelled_objects_Pixel.
    constructor; [exact Hasc|constructor]. }
  assert (is_object t1 name = true) as Hon.
  { unfold is_object, t1. cbn [objects].
    apply (labelled_objects_first (name, Lines lines) []). }
  exists t1. eexists. split; [exact E1|]. split; [exact E2|].
  split; [apply iloc_minus_zero|]. split; [exact HoP|]. split; [exact Hon|].
  rewrite finished_table_stages, E1. cbn [bind]. rewrite E2. cbn [bind].
  rewrite averaged_table_spec.
  assert (mean_values t1 0 = map (fun c => nanmean [c]) (CNaN :: pixels)) as Hm.
  { unfold t1. rewrite mean_values_one_run by assumption.
    rewrite RangeIndex_length.
    rewrite <- (map_map (fun r => nth r (CNaN :: pixels) CNaN) (fun c => nanmean [c])).
    apply (f_equal (map (fun c : cell => nanmean [c]))).
    replace (S n_pixels) with (List.length (CNaN :: pixels (num := num)))
      by (cbn [List.length]; now rewrite pixels_length).
    apply nth_seq_self. }
  rewrite Hm. split; [reflexivity|].
  assert (set_column "Mean" (map (fun c => nanmean [c]) (CNaN :: pixels)) (columns t1) =
          columns t1 ++ [("Mean"%string, map (fun c => nanmean [c]) (CNaN :: pixels))])
    as Hset.
  { apply set_column_fresh. unfold t1. cbn [columns map fst].
    intros [E|[E|[]]]; [discriminate|congruence]. }
  split; [|split; [|split]].
  - unfold column_names. cbn [columns]. rewrite Hset. reflexivity.
  - unfold column. cbn [columns]. rewrite Hset. reflexivity.
  - unfold column. cbn [columns]. now rewrite find_set_column.
  - intros law. unfold column. cbn [columns]. rewrite find_set_column, Hset.
    cbn [option_map snd]. rewrite (pixel_means law). reflexivity.
Qed.

Lemma convert_column_nth (fields : list string) (i : nat) (s : string) :
  nth_error fields i = Some s ->
  (is_na_text s = true -> nth_error (convert_column fields) i = Some CNaN) /\
  (is_na_text s = false -> reads_as_number s = false ->
   nth_error (convert_column fields) i = Some (CStr s)).
Proof.
  intros Hs. unfold convert_column. split.
  - intros Hna.
    destruct (forallb _ fields); rewrite nth_error_map, Hs; cbn [option_map];
      now rewrite Hna.
  - intros Hna Hnum.
    destruct (forallb (fun s0 => is_na_text s0 || reads_as_number s0) fields) eqn:Hall.
    + rewrite forallb_forall in Hall.
      specialize (Hall s (nth_error_In _ _ Hs)).
      rewrite Hna, Hnum in Hall. discriminate.
    + rewrite nth_error_map, Hs. cbn [option_map]. now rewrite Hna.
Qed.

(** C9, as the code has it.  [asc_read] raises OSError on a file that
    cannot be opened, UnicodeDecodeError on one that is not UTF-8, and
    ParserError on lines of which a record after the first has more than
    two fields while the first has at most two; among the files that are
    followed it raises on no other lines.  The files that are not followed
    are those with a first record of more than two fields, with a single
    record of one field, or with a column of booleans, and no other.  On
    lines that are [is_plain] it returns a table with the columns [Pixel]
    and [value] and one row per record, blank lines left out; a record
    without a second field gets a missing value, and an intensity field
    that is not a number (and not a missing-value text) is kept as a
    string: neither raises. *)
Theorem asc_read_raises_on_wide_records :
  asc_read (num := num) Unreadable = Raise OSError /\
  asc_read (num := num) Undecodable = Raise UnicodeDecodeError /\
  forall lines : list (list string),
    (forall e, asc_read (num := num) (Lines lines) = Raise e <->
       e = ParserError /\
       exists first rest,
         records lines = first :: rest /\
         List.length first <= 2 /\
         exists r, In r rest /\ 2 < List.length r) /\
    (asc_read (num := num) (Lines lines) = Unmodelled ->
     exists first rest,
       records lines = first :: rest /\
       (2 < List.length first \/
        (List.length first = 1 /\ rest = []) \/
        reads_as_booleans (num := num) (map (field 0) (records lines)) = true \/
        reads_as_booleans (num := num) (map (field 1) (records lines)) = true)) /\
    (is_plain (num := num) lines = true ->
     exists t,
       asc_read (Lines lines) = Ok t /\
       index t = RangeIndex (List.length (records lines)) /\
       column_names t = ["Pixel"%string; "value"%string] /\
       forall i r, nth_error (records lines) i = Some r ->
         (List.length r = 1 -> cell_of t "value" i = Some CNaN) /\
         (forall s, nth_error r 1 = Some s ->
                    is_na_text s = false -> reads_as_number s = false ->
                    cell_of t "value" i = Some (CStr s))).
Proof.
  split; [reflexivity|]. split; [reflexivity|]. intros lines. split; [|split].
  - intros e. cbn [asc_read].
    destruct (records lines) as [|first rest].
    { split; [discriminate|]. intros (_ & f & r & E & _). discriminate E. }
    destruct (Nat.ltb_spec 2 (List.length first)) as [Hw|Hw].
    { split; [discriminate|].
      intros (_ & f & r & E & Hf & _). inversion E. subst. lia. }
    destruct (existsb (fun r => 2 <? List.length r) rest) eqn:Ex.
    + split.
      * intros [= <-]. split; [reflexivity|]. exists first, rest.
        split; [reflexivity|]. split; [exact Hw|].
        apply existsb_exists in Ex. destruct Ex as (r & Hr & Hl).
        exists r. split; [exact Hr|]. now apply Nat.ltb_lt.
      * now intros (-> & _).
    + split.
      * destruct ((List.length first =? 1) && (List.length rest =? 0)); [discriminate|].
        cbv zeta. destruct (reads_as_booleans _ || reads_as_booleans _); discriminate.
      * intros (_ & f & rs & E & _ & r & Hr & Hl). inversion E. subst f rs.
        assert (existsb (fun r => 2 <? List.length r) rest = true); [|congruence].
        apply existsb_exists. exists r. split; [exact Hr|]. now apply Nat.ltb_lt.
  - cbn [asc_read]. destruct (records lines) as [|first rest]; [discriminate|].
    intros E. exists first, rest. split; [reflexivity|].
    destruct (Nat.ltb_spec 2 (List.length first)) as [Hw|Hw]; [now left|].
    destruct (existsb (fun r => 2 <? List.length r) rest); [discriminate E|].
    destruct ((List.length first =? 1) && (List.length rest =? 0)) eqn:E1.
    + right. left. apply andb_true_iff in E1. destruct E1 as [E1 E0].
      apply Nat.eqb_eq in E1, E0. split; [exact E1|]. now destruct rest.
    + cbv zeta in E. right. right.
      destruct (reads_as_booleans (map (field 0) (first :: rest))); [now left|].
      destruct (reads_as_booleans (map (field 1) (first :: rest))); [now right|].
      discriminate E.
  - intros Hp. destruct (asc_read_plain _ Hp) as (objs & E).
    eexists. split; [exact E|]. cbn [index columns].
    split; [reflexivity|]. split; [reflexivity|].
    intros i r Hr. unfold cell_of, column.
    cbn [columns find fst String.eqb Ascii.eqb Bool.eqb option_map snd].
    assert (nth_error (map (field 1) (records lines)) i = Some (field 1 r)) as Hv
      by (rewrite nth_error_map, Hr; reflexivity).
    destruct (convert_column_nth _ _ _ Hv) as [Hna Htext]. split.
    + intros Hlen. apply Hna.
      destruct r as [|a [|b r]]; try discriminate Hlen. reflexivity.
    + intros s Hs. assert (field 1 r = s) as <-; [|exact Htext].
      unfold field. now apply nth_error_nth.
Qed.

End Invariant.

(** ** The main loop *)

Section MainLoop.

Context {num : Type} `{Numeric num}.

Local Abbreviation DataFrame := (DataFrame num).

Lemma load_last (h : list DataFrame) (t : DataFrame) :
  load (h ++ [t]) (List.length h) = Ok t.
Proof.
  unfold load. rewrite nth_error_app2 by lia. now rewrite Nat.sub_diag.
Qed.

Lemma store_last (h : list DataFrame) (t d : DataFrame) :
  store (h ++ [t]) (List.length h) d = h ++ [d].
Proof. induction h as [|x h IH]; simpl; [reflexivity|]. now rewrite IH. Qed.

(** Tables that are already in the store play no part in a call whose
    global [df] and parameter are both the newest table. *)
Lemma subtract_loop_newest (h : list DataFrame) (cols : list string) :
  forall (i : nat) (t : DataFrame),
    subtract_loop (List.length h) (List.length h) cols i (h ++ [t]) =
    (x <- subtract_loop 0 0 cols i [t] ;; Ok (h ++ fst x, snd x)).
Proof.
  induction cols as [|c cols IH]; intros i t.
  - reflexivity.
  - cbn [subtract_loop]. rewrite load_last. cbn [load nth_error bind].
    destruct (column_difference t (i + 1) 1) as [s|e|]; cbn [bind]; try reflexivity.
    destruct (setitem t (run_column_name i) s) as [d|e|]; cbn [bind]; try reflexivity.
    rewrite store_last. cbn [store]. apply IH.
Qed.

Lemma subtract_loop_one_table (cols : list string) :
  forall (i : nat) (t : DataFrame) (h' : list DataFrame) (n : nat),
    subtract_loop 0 0 cols i [t] = Ok (h', n) -> exists t', h' = [t'].
Proof.
  intros i t h' n E. apply subtract_loop_heap_length in E.
  destruct h' as [|t' [|x h']]; try discriminate E. now exists t'.
Qed.

(** One pass of the loop body in any store: the finished table of the
    folder is appended to the store and nothing else changes. *)
Lemma process_folder_spec (fs : folder) (h : list DataFrame) :
  process_folder fs h =
  (t <- finished_table fs ;; Ok (h ++ [t], List.length h)).
Proof.
  rewrite finished_table_stages. unfold process_folder, subtracted_table.
  destruct (iterate_over_runs fs) as [t1|e|]; cbn [bind]; try reflexivity.
  unfold alloc, subtract_background. rewrite load_last.
  cbn [load nth_error bind]. rewrite subtract_loop_newest.
  destruct (subtract_loop 0 0 (column_names (iloc_cols_from t1 2)) 1 [t1])
    as [[h1 n]|e|] eqn:E; cbn [bind]; try reflexivity.
  destruct (subtract_loop_one_table _ _ _ _ _ E) as (t2 & ->).
  cbn [fst snd load nth_error bind].
  rewrite averaged_table_spec. cbn [bind].
  unfold get_averaged_data_column. rewrite load_last. cbn [bind].
  pose proof (averaged_table_spec t2 (n - 1)) as Ha.
  unfold averaged_table, get_averaged_data_column in Ha.
  cbn [load nth_error bind] in Ha.
  destruct (setitem t2 "Mean" (mean_axis1 (iloc_cols_from t2 (-1 * Z.of_nat (n - 1)))))
    as [d|e|]; cbn [bind store load nth_error] in *; try discriminate Ha.
  inversion Ha. now rewrite store_last.
Qed.

(** The main loop: every folder gets the table it would get on its own. *)
Lemma main_loop_spec (folders : list folder) :
  forall h : list DataFrame,
    main_loop folders h =
    (ts <- mapM finished_table folders ;;
     Ok (h ++ ts, seq (List.length h) (List.length folders))).
Proof.
  induction folders as [|fs folders IH]; intros h.
  - cbn [main_loop mapM bind List.length seq]. now rewrite app_nil_r.
  - cbn [main_loop mapM]. rewrite process_folder_spec.
    destruct (finished_table fs) as [t|e|]; cbn [bind]; try reflexivity.
    rewrite IH. destruct (mapM finished_table folders) as [ts|e|]; cbn [bind];
      try reflexivity.
    rewrite <- app_assoc, length_app. cbn [List.app List.length seq].
    now rewrite Nat.add_1_r.
Qed.

End MainLoop.

(** * The rest of the code *)

(** ** Paths *)

Lemma split_not_nil (sep : ascii) (s : string) : split sep s <> [].
Proof.
  induction s as [|c rest IH]; simpl; [discriminate|].
  destruct (Ascii.eqb c sep); [discriminate|].
  destruct (split sep rest); discriminate.
Qed.

Lemma split_without_separator (sep : ascii) (s : string) :
  contains sep s = false -> split sep s = [s].
Proof.
  induction s as [|c rest IH]; simpl; [reflexivity|].
  intros E. apply orb_false_iff in E. destruct E as [Ec Erest].
  rewrite Ec, (IH Erest). reflexivity.
Qed.

Lemma split_components_in (c sep : ascii) (s : string) :
  forall w, In w (split sep s) -> contains c w = true -> contains c s = true.
Proof.
  induction s as [|a rest IH]; simpl; intros w Hw Hc.
  - destruct Hw as [<-|[]]. exact Hc.
  - destruct (Ascii.eqb a sep) eqn:Ea.
    + destruct Hw as [<-|Hw]; [discriminate Hc|].
      rewrite (IH w Hw Hc). apply orb_true_r.
    + pose proof (split_not_nil sep rest) as Hne.
      destruct (split sep rest) as [|w0 ws] eqn:Es; [congruence|].
      destruct Hw as [<-|Hw].
      * simpl in Hc. apply orb_true_iff in Hc. destruct Hc as [Hc|Hc].
        -- rewrite Hc. reflexivity.
        -- rewrite (IH w0 (or_introl eq_refl) Hc). apply orb_true_r.
      * rewrite (IH w (or_intror Hw) Hc). apply orb_true_r.
Qed.

Lemma split_components_clean (sep : ascii) (s : string) :
  Forall (fun w => contains sep w = false) (split sep s).
Proof.
  induction s as [|c rest IH]; simpl; [repeat constructor|].
  destruct (Ascii.eqb_spec c sep) as [->|Hc]; [now constructor|].
  destruct (split sep rest) as [|w ws]; [repeat constructor; simpl|].
  - apply orb_false_iff. split; [now apply Ascii.eqb_neq|reflexivity].
  - apply Forall_cons_iff in IH. destruct IH as [Hw Hws].
    constructor; [|exact Hws]. simpl. rewrite Hw.
    apply orb_false_iff. split; [now apply Ascii.eqb_neq|reflexivity].
Qed.

(** X1.  [split] and [join] are inverse on the way back: joining the
    components of [s.split(sep)] with the separator gives [s] again, and no
    component holds the separator. *)
Theorem split_join_round_trip (sep : ascii) (s : string) :
  String.concat (String sep EmptyString) (split sep s) = s /\
  Forall (fun w => contains sep w = false) (split sep s).
Proof.
  split; [|apply split_components_clean].
  induction s as [|c rest IH]; simpl; [reflexivity|].
  pose proof (split_not_nil sep rest) as Hne.
  destruct (Ascii.eqb_spec c sep) as [->|Hc].
  - destruct (split sep rest) as [|w ws] eqn:Es; [congruence|].
    simpl. simpl in IH. now rewrite IH.
  - destruct (split sep rest) as [|w ws] eqn:Es; [congruence|].
    destruct ws as [|w' ws']; simpl in *; now rewrite IH.
Qed.

Lemma split_snoc (sep : ascii) (dir name : string) :
  contains sep name = false ->
  split sep (String.append dir (String sep name)) = split sep dir ++ [name].
Proof.
  intros Hn. induction dir as [|c rest IH]; simpl.
  - rewrite Ascii.eqb_refl. now rewrite split_without_separator.
  - destruct (Ascii.eqb c sep); rewrite IH; [reflexivity|].
    pose proof (split_not_nil sep rest) as Hne.
    destruct (split sep rest); [congruence|reflexivity].
Qed.

Lemma last_any_default {A : Type} (l : list A) (d d' : A) :
  l <> [] -> last l d = last l d'.
Proof.
  induction l as [|a l IH]; [congruence|]. intros _.
  destruct l as [|b l]; [reflexivity|].
  change (last (b :: l) d = last (b :: l) d'). apply IH. discriminate.
Qed.

Lemma getitem_last_split (path : string) :
  getitem_last (split slash path) = Ok (last_component path).
Proof.
  unfold getitem_last, last_component.
  pose proof (split_not_nil slash path) as Hne.
  destruct (split slash path) as [|w ws] eqn:E; [congruence|].
  f_equal. apply last_any_default. discriminate.
Qed.

(** X2.  The name taken from a directory path, [path.split("/")[-1]],
    never raises and holds no slash; for a path [dir + "/" + name] whose
    last part [name] has no slash it is [name], whatever [dir] is, and for
    a path without any slash it is the path itself. *)
Theorem split_last_component (path : string) :
  getitem_last (split slash path) = Ok (last_component path) /\
  contains slash (last_component path) = false /\
  (forall dir name,
     path = String.append dir (String slash name) ->
     contains slash name = false ->
     last_component path = name) /\
  (contains slash path = false -> last_component path = path).
Proof.
  split; [apply getitem_last_split|]. split; [|split].
  - pose proof (split_components_clean slash path) as Hall.
    rewrite Forall_forall in Hall. apply Hall.
    unfold last_component.
    pose proof (split_not_nil slash path) as Hne.
    destruct (split slash path) as [|w ws] eqn:E; [congruence|].
    destruct (@exists_last _ (w :: ws)) as (l & a & ->); [discriminate|].
    rewrite last_last. apply in_or_app. right. now left.
  - intros dir name -> Hname. unfold last_component.
    rewrite split_snoc by exact Hname. apply last_last.
  - intros Hp. unfold last_component. now rewrite split_without_separator.
Qed.

Lemma replace_length (old new : ascii) (s : string) :
  String.length (replace old new s) = String.length s.
Proof. induction s; simpl; congruence. Qed.

(** X3.  After [path.replace("\\", "/")] no backslash is left in the
    path, every other character stays where it was, and a path without a
    backslash is returned unchanged. *)
Theorem replace_backslash_normalises (path : string) :
  contains backslash (replace backslash slash path) = false /\
  String.length (replace backslash slash path) = String.length path /\
  (forall i c, String.get i path = Some c -> c <> backslash ->
               String.get i (replace backslash slash path) = Some c) /\
  (contains backslash path = false -> replace backslash slash path = path).
Proof.
  split; [|split; [apply replace_length|split]].
  - induction path as [|c rest IH]; simpl; [reflexivity|].
    rewrite IH, orb_false_r.
    destruct (Ascii.eqb_spec c backslash) as [->|Hc]; [reflexivity|].
    now apply Ascii.eqb_neq.
  - induction path as [|a rest IH]; intros i c Hi Hc; [discriminate|].
    destruct i as [|i]; simpl in *.
    + inversion Hi. subst a.
      destruct (Ascii.eqb_spec c backslash); [contradiction|reflexivity].
    + now apply IH.
  - induction path as [|c rest IH]; simpl; [reflexivity|].
    intros E. apply orb_false_iff in E. destruct E as [Ec Erest].
    now rewrite Ec, (IH Erest).
Qed.

(** ** What [iterate_over_runs] reads and what it ignores *)

Section Aggregation.

Context {num : Type} `{Numeric num}.

Local Abbreviation cell := (cell num).
Local Abbreviation DataFrame := (DataFrame num).

Lemma add_runs_only_runs (fs : folder) :
  forall df : DataFrame, add_runs fs df = add_runs (runs_of fs) df.
Proof.
  induction fs as [|[filename file] rest IH]; intros df; [reflexivity|].
  rewrite runs_of_cons. cbn [fst]. cbn [add_runs].
  destruct (endswith filename ".asc") eqn:E.
  - cbn [add_runs]. rewrite E.
    destruct (asc_read file) as [asc|e|]; cbn [bind]; try reflexivity.
    destruct (iloc_col asc 1) as [s|e|]; cbn [bind]; try reflexivity.
    destruct (setitem df filename s) as [df'|e|]; cbn [bind]; try reflexivity.
    apply IH.
  - apply IH.
Qed.

(** X4.  Entries of the folder whose name does not end in [.asc] play no
    part, readable or not: the table of a folder is the table of its run
    files alone, after aggregation and after the whole pass. *)
Theorem other_files_are_ignored (fs : folder) :
  iterate_over_runs (num := num) fs = iterate_over_runs (runs_of fs) /\
  finished_table (num := num) fs = finished_table (runs_of fs).
Proof.
  assert (iterate_over_runs (num := num) fs = iterate_over_runs (runs_of fs)) as E.
  { unfold iterate_over_runs. now rewrite add_runs_only_runs. }
  split; [exact E|]. now rewrite !finished_table_stages, E.
Qed.

Lemma value_is_object (kp kv : bool) :
  existsb (String.eqb "value")
    ((if kp then ["Pixel"%string] else []) ++ (if kv then ["value"%string] else [])) = kv.
Proof. now destruct kp, kv. Qed.

(** What one run file contributes, read off its records. *)
Lemma run_series_lines (lines : list (list string)) :
  run_series (num := num) (Lines lines) =
  match records lines with
  | [] => Ok {| s_index := []; s_values := []; s_object := true |}
  | first :: rest =>
      if 2 <? List.length first then Unmodelled
      else if existsb (fun r => 2 <? List.length r) rest then Raise ParserError
      else if (List.length first =? 1) && (List.length rest =? 0) then Unmodelled
      else if reads_as_booleans (map (field 0) (first :: rest)) ||
              reads_as_booleans (map (field 1) (first :: rest)) then Unmodelled
      else Ok {| s_index := RangeIndex (List.length (first :: rest));
                 s_values := convert_column (map (field 1) (first :: rest));
                 s_object := keeps_text (map (field 1) (first :: rest)) |}
  end.
Proof.
  unfold run_series. cbn [asc_read].
  destruct (records lines) as [|first rest]; [reflexivity|].
  destruct (2 <? List.length first); [reflexivity|].
  destruct (existsb _ rest); [reflexivity|].
  destruct ((List.length first =? 1) && (List.length rest =? 0)); [reflexivity|].
  cbv zeta. destruct (reads_as_booleans _ || reads_as_booleans _); [reflexivity|].
  cbn [bind iloc_col columns nth_error index]. unfold is_object. cbn [objects].
  now rewrite value_is_object.
Qed.

Lemma records_not_empty (lines : list (list string)) :
  Forall (fun r => r <> []) (records lines).
Proof.
  apply Forall_forall. intros r Hr. unfold records in Hr.
  apply filter_In in Hr. destruct Hr as [_ Hr]. now destruct r.
Qed.

Lemma same_tails (rs rs' : list (list string)) :
  Forall (fun r => r <> []) rs -> Forall (fun r => r <> []) rs' ->
  Forall2 (fun r r' => tl r = tl r') rs rs' ->
  map (@List.length string) rs = map (@List.length string) rs' /\
  map (field 1) rs = map (field 1) rs'.
Proof.
  intros Hrs Hrs' Hs. revert Hrs Hrs'.
  induction Hs as [|r r' rs rs' Hr _ IH]; intros Hrs Hrs'; [now split|].
  apply Forall_cons_iff in Hrs, Hrs'.
  destruct Hrs as [Hne Hrs], Hrs' as [Hne' Hrs'].
  destruct (IH Hrs Hrs') as [IH1 IH2]. cbn [map]. rewrite IH1, IH2.
  destruct r as [|a r]; [congruence|]. destruct r' as [|a' r']; [congruence|].
  cbn [tl] in Hr. subst r'. now split.
Qed.

Lemma wide_by_length (rs : list (list string)) :
  existsb (fun r => 2 <? List.length r) rs =
  existsb (fun n => 2 <? n) (map (@List.length string) rs).
Proof. induction rs as [|r rs IH]; simpl; [reflexivity|now rewrite IH]. Qed.

Lemma run_series_same_intensities (e e' : string * asc_file) :
  same_intensities e e' ->
  run_series (num := num) (snd e) = run_series (snd e').
Proof.
  intros [_ Hf].
  destruct (snd e) as [| |lines], (snd e') as [| |lines'];
    try contradiction; try reflexivity.
  destruct Hf as [Hs Hb].
  destruct (same_tails _ _ (records_not_empty lines) (records_not_empty lines') Hs)
    as [Hlen Hval].
  rewrite !run_series_lines.
  destruct (records lines) as [|first rest], (records lines') as [|first' rest'];
    try discriminate Hlen; [reflexivity|].
  rewrite <- Hb, <- Hval. cbn [map] in Hlen. injection Hlen as Hfirst Hrest.
  rewrite (wide_by_length rest), (wide_by_length rest'), <- Hrest, <- Hfirst.
  assert (List.length rest = List.length rest') as Hl.
  { apply (f_equal (@List.length nat)) in Hrest. now rewrite !length_map in Hrest. }
  cbn [List.length]. now rewrite <- Hl.
Qed.

Lemma add_runs_series (filename : string) (file : asc_file) (rest : folder)
    (df : DataFrame) :
  endswith filename ".asc" = true ->
  add_runs ((filename, file) :: rest) df =
  (s <- run_series file ;; df' <- setitem df filename s ;; add_runs rest df').
Proof.
  intros E. cbn [add_runs]. rewrite E. unfold run_series.
  now destruct (asc_read file).
Qed.

Lemma add_runs_same_intensities (fs fs' : folder) :
  Forall2 same_intensities fs fs' ->
  forall df : DataFrame, add_runs fs df = add_runs fs' df.
Proof.
  induction 1 as [|[n f] [n' f'] fs fs' Hs _ IH]; intros df; [reflexivity|].
  pose proof (run_series_same_intensities _ _ Hs) as Hr.
  destruct Hs as [Hn _]. cbn [fst snd] in Hn, Hr. subst n'.
  destruct (endswith n ".asc") eqn:E.
  - rewrite !add_runs_series by exact E. rewrite Hr.
    destruct (run_series f') as [s|e|]; cbn [bind]; try reflexivity.
    destruct (setitem df n s) as [df'|e|]; cbn [bind]; try reflexivity.
    apply IH.
  - cbn [add_runs]. rewrite E. apply IH.
Qed.

(** X5.  The first field of a record, the pixel field, is never looked
    at.  Take two folders with the same entry names whose files are alike
    entry by entry: both cannot be opened, or both cannot be decoded, or
    both are read and their records (the lines that are not blank, in
    order) agree one by one in everything after the first field, and the
    first fields make a column of booleans in both files or in neither.
    Then the two folders have the same outcome, table or exception, after
    aggregation and after the whole pass.  Rows are matched by the position
    of the record in its file, not by pixel number. *)
Theorem pixel_fields_are_ignored (fs fs' : folder) :
  Forall2 same_intensities fs fs' ->
  iterate_over_runs (num := num) fs = iterate_over_runs fs' /\
  finished_table (num := num) fs = finished_table fs'.
Proof.
  intros Hs.
  assert (iterate_over_runs (num := num) fs = iterate_over_runs fs') as E.
  { unfold iterate_over_runs. now rewrite (add_runs_same_intensities fs fs' Hs). }
  split; [exact E|]. now rewrite !finished_table_stages, E.
Qed.

Lemma run_column_is_ok (n : nat) (x : string * asc_file) :
  is_ok (run_column (num := num) n x) = is_ok (asc_read (num := num) (snd x)).
Proof.
  unfold run_column, run_series.
  destruct (asc_read (snd x)) as [asc|e|] eqn:E; cbn [bind]; try reflexivity.
  destruct (asc_read_shape _ E) as (p & v & objs & -> & _). reflexivity.
Qed.

Lemma run_column_Raise (n : nat) (x : string * asc_file) (e : exn) :
  run_column (num := num) n x = Raise e <-> asc_read (num := num) (snd x) = Raise e.
Proof.
  unfold run_column, run_series.
  destruct (asc_read (snd x)) as [asc|e'|] eqn:E; cbn [bind].
  - destruct (asc_read_shape _ E) as (p & v & objs & -> & _). cbn. split; discriminate.
  - split; intros [= <-]; reflexivity.
  - split; discriminate.
Qed.

Lemma asc_read_exn (f : asc_file) (e : exn) :
  asc_read (num := num) f = Raise e ->
  e = OSError \/ e = UnicodeDecodeError \/ e = ParserError.
Proof.
  destruct f as [| |lines]; cbn [asc_read].
  - intros [= <-]. now left.
  - intros [= <-]. right. now left.
  - destruct (records lines) as [|first rest]; [discriminate|].
    destruct (2 <? List.length first); [discriminate|].
    destruct (existsb _ rest); [intros [= <-]; right; now right|].
    destruct ((List.length first =? 1) && (List.length rest =? 0)); [discriminate|].
    cbv zeta. destruct (reads_as_booleans _ || reads_as_booleans _); discriminate.
Qed.

Lemma all_read (n : nat) (l : folder) :
  Forall (fun x => is_ok (run_column (num := num) n x) = true) l <->
  Forall (fun x => is_ok (asc_read (num := num) (snd x)) = true) l.
Proof.
  split; intros Hall; eapply Forall_impl; try exact Hall;
    intros x Hx; cbv beta in *; [now rewrite <- (run_column_is_ok n)|
                                 now rewrite (run_column_is_ok n)].
Qed.

(** X6.  The outcomes of [iterate_over_runs] on a folder listed under
    distinct names.  It raises [e] exactly when either the folder has no
    run file and [e] is ValueError, or [asc_read] raises [e] on a run file
    and returns a table for every run file listed before it: the first
    file that cannot be read decides.  It returns a table exactly when
    there is at least one run file and [asc_read] returns a table for
    every one of them.  The exceptions it
    can raise are ValueError, OSError, UnicodeDecodeError and ParserError.
    (A folder in which a file that [asc_read] does not follow comes before
    any file that raises is not followed either: nothing is said of it.) *)
Theorem iterate_over_runs_outcomes (fs : folder) :
  NoDup (map fst fs) ->
  (forall e,
     iterate_over_runs (num := num) fs = Raise e <->
     (e = ValueError /\ runs_of fs = []) \/
     (exists done x rest,
        runs_of fs = done ++ x :: rest /\
        Forall (fun y => is_ok (asc_read (num := num) (snd y)) = true) done /\
        asc_read (num := num) (snd x) = Raise e)) /\
  ((exists t, iterate_over_runs (num := num) fs = Ok t) <->
   runs_of fs <> [] /\
   Forall (fun y => is_ok (asc_read (num := num) (snd y)) = true) (runs_of fs)) /\
  (forall e, iterate_over_runs (num := num) fs = Raise e ->
             e = ValueError \/ e = OSError \/ e = UnicodeDecodeError \/ e = ParserError).
Proof.
  intros Hnd.
  rewrite iterate_over_runs_spec
    by (unfold runs_of; now apply filter_keeps_names_distinct).
  destruct (mapM (run_column (num := num) n_pixels) (runs_of fs)) as [cs|e0|] eqn:E;
    cbn [bind].
  - assert (Forall (fun y => is_ok (asc_read (num := num) (snd y)) = true) (runs_of fs))
      as Hread by (apply (all_read n_pixels), mapM_Ok_all; eauto).
    pose proof (@mapM_length _ _ _ _ _ E) as Hlen.
    assert (forall e done x rest,
              runs_of fs = done ++ x :: rest ->
              asc_read (num := num) (snd x) = Raise e -> False) as Hno.
    { intros e done x rest Hl Hx. rewrite Hl in Hread.
      apply Forall_app in Hread. destruct Hread as [_ Hread].
      apply Forall_cons_iff in Hread. destruct Hread as [Hread _].
      rewrite Hx in Hread. discriminate Hread. }
    destruct cs as [|c cs].
    + destruct (runs_of fs) as [|x l] eqn:Er; [|discriminate Hlen].
      split.
      { intros e. split.
        - intros [= <-]. now left.
        - intros [[-> _]|(done & x & rest & Hl & _)]; [reflexivity|].
          now destruct done. }
      split. { split; [intros (t & Et); discriminate Et|intros [Hne _]; congruence]. }
      intros e [= <-]. now left.
    + destruct (runs_of fs) as [|x l] eqn:Er; [discriminate Hlen|].
      split.
      { intros e. split; [discriminate|].
        intros [[_ Hnil]|(done & y & rest & Hl & _ & Hy)]; [discriminate Hnil|].
        exfalso. exact (Hno e done y rest Hl Hy). }
      split. { split; [intros _; split; [discriminate|exact Hread]|].
               intros _. eexists. reflexivity. }
      intros e. discriminate.
  - destruct (@mapM_Raise _ _ _ _ _ E) as (done & x & rest & Hl & Hdone & Hx).
    apply (all_read n_pixels) in Hdone. apply run_column_Raise in Hx.
    split.
    { intros e. split.
      - intros [= <-]. right. now exists done, x, rest.
      - intros [[_ Hnil]|(done' & x' & rest' & Hl' & Hdone' & Hx')].
        + rewrite Hnil in Hl. now destruct done.
        + apply (all_read n_pixels) in Hdone'. apply (run_column_Raise n_pixels) in Hx'.
          rewrite Hl' in E. rewrite (@mapM_first_failure _ _ _ _ rest' _ _ Hdone' Hx') in E.
          congruence. }
    split.
    { split; [intros (t & Et); discriminate Et|].
      intros [_ Hread]. exfalso. rewrite Hl in Hread.
      apply Forall_app in Hread. destruct Hread as [_ Hread].
      apply Forall_cons_iff in Hread. destruct Hread as [Hread _].
      rewrite Hx in Hread. discriminate Hread. }
    intros e [= <-]. right. exact (asc_read_exn _ _ Hx).
  - apply (f_equal (fun r => match r with Unmodelled => true | _ => false end)) in E.
    assert (forall e done x rest,
              runs_of fs = done ++ x :: rest ->
              Forall (fun y => is_ok (asc_read (num := num) (snd y)) = true) done ->
              asc_read (num := num) (snd x) = Raise e -> False) as Hno.
    { intros e done x rest Hl Hdone Hx.
      apply (all_read n_pixels) in Hdone. apply (run_column_Raise n_pixels) in Hx.
      rewrite Hl, (@mapM_first_failure _ _ _ _ rest _ _ Hdone Hx) in E. discriminate E. }
    split.
    { intros e. split; [discriminate|].
      intros [[_ Hnil]|(done & x & rest & Hl & Hdone & Hx)].
      - rewrite Hnil in E. discriminate E.
      - exfalso. exact (Hno e done x rest Hl Hdone Hx). }
    split.
    { split; [intros (t & Et); discriminate Et|].
      intros [_ Hread]. apply (all_read n_pixels), mapM_Ok_all in Hread.
      destruct Hread as (bs & Ebs). rewrite Ebs in E. discriminate E. }
    intros e. discriminate.
Qed.

Lemma find_by_name (l : list (string * list cell)) :
  forall i c,
    NoDup (map fst l) -> nth_error l i = Some c ->
    find (fun x => String.eqb (fst x) (fst c)) l = Some c.
Proof.
  induction l as [|x l IH]; intros i c Hnd Hi; [destruct i; discriminate|].
  cbn [map] in Hnd. apply NoDup_cons_iff in Hnd. destruct Hnd as [Hx Hl].
  destruct i as [|i]; cbn [nth_error find] in *.
  - inversion Hi. subst x. now rewrite String.eqb_refl.
  - destruct (String.eqb_spec (fst x) (fst c)) as [E|_].
    + exfalso. apply Hx. rewrite E. apply in_map. now apply nth_error_In with (n := i).
    + now apply (IH i).
Qed.

Lemma label_columns_nth (cols : list (string * list cell)) :
  forall labels i c v,
    nth_error cols i = Some c -> nth_error labels i = Some v ->
    nth_error (label_columns cols labels) i = Some (fst c, v :: snd c).
Proof.
  induction cols as [|x cols IH]; intros [|u labels] [|i] c v Hc Hv;
    try discriminate; cbn [label_columns zip_with nth_error] in *.
  - now inversion Hc; inversion Hv.
  - now apply IH.
Qed.

Lemma labels_for_nth (ncols j : nat) :
  S j < ncols ->
  nth_error (labels_for (num := num) ncols) (S j) =
  Some (if Nat.eqb j 0 then CStr "BG" else CNum (of_Z (Z.of_nat j))).
Proof.
  intros Hj. unfold labels_for. cbn [List.app nth_error].
  destruct j as [|j]; [reflexivity|]. cbn [nth_error Nat.eqb].
  unfold py_range. rewrite !nth_error_map, nth_error_seq.
  destruct (Nat.ltb_spec j (Z.to_nat (Z.of_nat ncols - 1 - 1))); [|lia].
  cbn [option_map]. do 3 f_equal. lia.
Qed.

(** X7.  In the table of a folder listed under distinct names, the
    column of the [j]-th run file in listing order (counting from 0)
    carries the label ["BG"] for [j = 0] and the integer [j] otherwise, and
    at data row [r] of 1 .. 1024 the intensity field of the [r]-th record
    of that file, its [r]-th line that is not blank.  Blank lines take no
    row, so every record after one moves up; a file with fewer records
    leaves NaN in the rows it does not reach, and the records after the
    1024th of a longer file appear nowhere. *)
Theorem run_columns_hold_the_file_records (fs : folder) (t : DataFrame) :
  NoDup (map fst fs) ->
  iterate_over_runs fs = Ok t ->
  forall j name lines,
    nth_error (runs_of fs) j = Some (name, Lines lines) ->
    cell_of t name 0 =
      Some (if Nat.eqb j 0 then CStr "BG" else CNum (of_Z (Z.of_nat j))) /\
    forall r, 1 <= r <= n_pixels ->
      cell_of t name r =
        Some (nth (r - 1) (convert_column (map (field 1) (records lines))) CNaN).
Proof.
  intros Hnd E j name lines Hj.
  destruct (@iterate_over_runs_table _ _ fs t Hnd E) as (_ & _ & Hnames & _).
  rewrite iterate_over_runs_spec in E
    by (unfold runs_of; now apply filter_keeps_names_distinct).
  apply bind_Ok in E. destruct E as (cs & Ecs & E).
  destruct (@mapM_nth_error _ _ _ _ _ Ecs j _ Hj) as (c & Hc & Erun).
  unfold run_column in Erun. cbn [snd fst] in Erun.
  apply bind_Ok in Erun. destruct Erun as (s & Es & Erun).
  destruct (run_series_Ok _ Es) as (lines' & Hl & _ & _ & Hv).
  injection Hl as <-. rewrite Hv in Erun.
  inversion Erun. subst c. clear Erun.
  pose proof (@mapM_length _ _ _ _ _ Ecs) as Hlen.
  destruct cs as [|c0 cs0] eqn:Hcs; [discriminate E|]. rewrite <- Hcs in *.
  assert (j < List.length cs) as Hjlt by (apply nth_error_Some; congruence).
  injection E as Et.
  assert (nth_error (columns t) (S j) =
          Some (name, (if Nat.eqb j 0 then CStr "BG" else CNum (of_Z (Z.of_nat j)))
                      :: align n_pixels (convert_column (map (field 1) (records lines)))))
    as Hcol.
  { rewrite <- Et. cbn [columns].
    apply (label_columns_nth (("Pixel"%string, pixels) :: cs)
             (labels_for (S (List.length cs))) (S j)
             (name, align n_pixels (convert_column (map (field 1) (records lines))))).
    - exact Hc.
    - apply labels_for_nth. lia. }
  assert (column t name =
          Some ((if Nat.eqb j 0 then CStr "BG" else CNum (of_Z (Z.of_nat j)))
                :: align n_pixels (convert_column (map (field 1) (records lines)))))
    as Hfind.
  { assert (NoDup (map fst (columns t))) as Hdistinct.
    { change (NoDup (column_names t)). rewrite Hnames.
      constructor.
      - intros Hin. apply in_map_iff in Hin. destruct Hin as (x & Hx & Hin).
        apply runs_of_endswith in Hin. rewrite Hx in Hin. discriminate Hin.
      - unfold runs_of. now apply filter_keeps_names_distinct. }
    pose proof (find_by_name (columns t) (S j) _ Hdistinct Hcol) as Hf.
    cbn [fst] in Hf. unfold column. now rewrite Hf. }
  unfold cell_of. rewrite Hfind. split; [reflexivity|].
  intros r Hr. destruct r as [|r]; [lia|]. cbn [nth_error].
  unfold align. rewrite nth_error_map, nth_error_seq.
  destruct (Nat.ltb_spec r n_pixels); [|lia].
  cbn [option_map]. do 2 f_equal. lia.
Qed.

End Aggregation.

(** ** Failures and edge cases of subtraction and averaging *)

Section Edges.

Context {num : Type} `{Numeric num}.

Local Abbreviation cell := (cell num).
Local Abbreviation DataFrame := (DataFrame num).

Lemma sub_cells_fail (xs ys : list cell) (e : exn) :
  sub_cells xs ys = Raise e -> e = TypeError.
Proof.
  unfold sub_cells. intros E. apply mapM_Raise in E.
  destruct E as (_ & [x y] & _ & _ & _ & E). cbn [fst snd] in E.
  unfold sub_cell in E. destruct (isna x || isna y); [discriminate|].
  destruct x, y; try discriminate; now inversion E.
Qed.

Lemma difference_columns_fail (N : nat) (t : DataFrame) (e : exn) :
  experiment_table N t ->
  mapM (difference_column t) (seq 1 (N - 1)) = Raise e -> e = TypeError.
Proof.
  intros Ht E. pose proof (@experiment_table_columns _ _ N t Ht) as Hc.
  apply mapM_Raise in E. destruct E as (done & k & rest & Hl & _ & E).
  assert (In k (seq 1 (N - 1))) as Hk by (rewrite Hl; apply in_or_app; right; now left).
  apply in_seq in Hk.
  unfold difference_column, column_difference, iloc_rows1_col in E.
  destruct (@nth_error_defined _ (columns t) (k + 1)) as ([na ca] & Ea); [lia|].
  destruct (@nth_error_defined _ (columns t) 1) as ([nb cb] & Eb); [lia|].
  rewrite Ea, Eb in E. cbn [bind s_values s_index] in E.
  destruct (sub_cells (skipn 1 ca) (skipn 1 cb)) as [vals|e'|] eqn:Ev;
    cbn [bind] in E; try discriminate.
  inversion E. subst e'. now apply sub_cells_fail in Ev.
Qed.

(** X8.  The failures of the pass over one folder, listed under distinct
    names.  If it raises [e], then one of three things holds.  Either
    [asc_read] raises [e] on a run file, having returned a table for every
    run file listed before it, and [e] is OSError (the file cannot be
    opened), UnicodeDecodeError (its bytes are no text) or ParserError (a
    record with more than two fields after the first record).  Or [e] is
    ValueError and the folder has no run file.  Or [e] is TypeError, there
    are at least two run files, and not all of them hold numbers only: a
    text among the intensities met the subtraction.  No IndexError, no
    NameError, no KeyError, and nothing is raised by the averaging.
    (Nothing is said of a folder with a file that [asc_read] does not
    follow, unless a file listed before it raises.) *)
Theorem finished_table_failures (fs : folder) (e : exn) :
  NoDup (map fst fs) ->
  finished_table (num := num) fs = Raise e ->
  ((e = OSError \/ e = UnicodeDecodeError \/ e = ParserError) /\
   exists done x rest,
     runs_of fs = done ++ x :: rest /\
     Forall (fun y => is_ok (asc_read (num := num) (snd y)) = true) done /\
     asc_read (num := num) (snd x) = Raise e) \/
  (e = ValueError /\ runs_of fs = []) \/
  (e = TypeError /\ 2 <= List.length (runs_of fs) /\
   ~ (forall x, In x (runs_of fs) -> numeric_file (num := num) (snd x))).
Proof.
  intros Hnd E. rewrite finished_table_stages in E.
  destruct (iterate_over_runs (num := num) fs) as [t1|e1|] eqn:E1; cbn [bind] in E;
    [| |discriminate E].
  - right. right.
    destruct (@iterate_over_runs_table _ _ fs t1 Hnd E1) as (Ht & HN & _).
    rewrite (@experiment_table_subtracted _ _ _ t1 Ht HN) in E.
    destruct (mapM (difference_column t1) (seq 1 (List.length (runs_of fs) - 1)))
      as [news|e2|] eqn:E2; cbn [bind] in E; [| |discriminate E].
    + rewrite averaged_table_spec in E. discriminate E.
    + inversion E. subst e2.
      assert (e = TypeError) as -> by (eapply difference_columns_fail; eauto).
      split; [reflexivity|]. split.
      * destruct (List.length (runs_of fs)) as [|[|n]]; [lia| |lia].
        discriminate E2.
      * intros Hnum.
        destruct (iterate_over_runs_total fs Hnd HN Hnum) as (t1' & E1' & Hdata).
        assert (t1' = t1) by congruence. subst t1'.
        destruct (@subtracted_table_total _ _ _ t1 Ht Hdata HN) as (t2 & E3).
        rewrite (@experiment_table_subtracted _ _ _ t1 Ht HN), E2 in E3.
        discriminate E3.
  - inversion E. subst e1.
    rewrite iterate_over_runs_spec in E1
      by (unfold runs_of; now apply filter_keeps_names_distinct).
    destruct (mapM (run_column (num := num) n_pixels) (runs_of fs)) as [cs|e'|] eqn:Ecs;
      cbn [bind] in E1; [| |discriminate E1].
    + pose proof (@mapM_length _ _ _ _ _ Ecs) as Hlen.
      destruct cs as [|c cs]; [|discriminate E1].
      right. left. split; [now inversion E1|].
      destruct (runs_of fs); [reflexivity|discriminate Hlen].
    + inversion E1. subst e'.
      destruct (@mapM_Raise _ _ _ _ _ Ecs) as (done & x & rest & Hl & Hdone & Hx).
      apply (all_read n_pixels) in Hdone. apply run_column_Raise in Hx.
      left. split; [exact (asc_read_exn _ _ Hx)|]. now exists done, x, rest.
Qed.

(** X9.  On a table with at most two columns [subtract_background] does
    nothing: the store is unchanged and the count is 0.  The loop body
    never runs, so the global [df] is not even read and may be unbound. *)
Theorem subtract_background_without_runs (df dataframe : nat) (h : list DataFrame)
    (t : DataFrame) :
  load h dataframe = Ok t ->
  List.length (columns t) <= 2 ->
  subtract_background df dataframe h = Ok (h, (dataframe, 0)).
Proof.
  intros Hload Hlen. unfold subtract_background. rewrite Hload. cbn [bind].
  assert (column_names (iloc_cols_from t 2) = []) as ->.
  { unfold column_names, iloc_cols_from, slice_start. cbn [columns].
    change (2 <? 0)%Z with false. change (Z.to_nat 2) with 2. cbv iota.
    rewrite skipn_all2 by lia. reflexivity. }
  reflexivity.
Qed.

(** X10.  On a table with three or more columns the first pass of the
    loop reads the global [df]: the call raises NameError when [df] is not
    bound, and IndexError when the table [df] is bound to has two columns
    or fewer (a stale table of a folder with a single run). *)
Theorem subtract_background_needs_df (df dataframe : nat) (h : list DataFrame)
    (t : DataFrame) :
  load h dataframe = Ok t ->
  3 <= List.length (columns t) ->
  (load h df = Raise NameError ->
   subtract_background df dataframe h = Raise NameError) /\
  (forall g, load h df = Ok g -> List.length (columns g) <= 2 ->
             subtract_background df dataframe h = Raise IndexError).
Proof.
  intros Hload Hlen. unfold subtract_background. rewrite Hload. cbn [bind].
  assert (exists c cols, column_names (iloc_cols_from t 2) = c :: cols) as (c & cols & ->).
  { unfold column_names, iloc_cols_from, slice_start. cbn [columns].
    change (2 <? 0)%Z with false. change (Z.to_nat 2) with 2. cbv iota.
    destruct (columns t) as [|c0 [|c1 [|c2 rest]]]; simpl in Hlen; try lia.
    simpl. eauto. }
  cbn [subtract_loop]. split.
  - intros ->. reflexivity.
  - intros g -> Hg. cbn [bind]. unfold column_difference, iloc_rows1_col.
    destruct (nth_error (columns g) (1 + 1)) eqn:E; [|reflexivity].
    exfalso. assert (1 + 1 < List.length (columns g)); [|lia].
    apply nth_error_Some. congruence.
Qed.

End Edges.

(** ** A stale [df], and what averaging leaves alone *)

Section Stale.

Context {num : Type} `{Numeric num}.

Local Abbreviation cell := (cell num).
Local Abbreviation DataFrame := (DataFrame num).

Lemma stale_loop_spec (g : DataFrame) (idx : list Z) :
  idx <> [] ->
  forall (cols : list string) (i : nat) (cs : list (string * list cell))
         (objs : list string),
    subtract_loop 0 1 cols i [g; {| index := idx; columns := cs; objects := objs |}] =
    (news <- mapM (stale_column g idx) (seq i (List.length cols)) ;;
     Ok ([g; {| index := idx; columns := set_columns news cs;
                objects := difference_objects g (seq i (List.length cols)) objs |}],
         i + List.length cols)).
Proof.
  intros Hne. induction cols as [|c cols IH]; intros i cs objs.
  - cbn [subtract_loop List.length seq mapM bind set_columns fold_left].
    unfold difference_objects. cbn [fold_left]. now rewrite Nat.add_0_r.
  - cbn [subtract_loop List.length seq mapM load nth_error bind].
    unfold stale_column at 1.
    destruct (column_difference g (i + 1) 1) as [s|e|] eqn:Ed; cbn [bind];
      try reflexivity.
    rewrite setitem_rows by exact Hne. cbn [index columns objects].
    destruct (reindex s idx) as [cells|e|]; cbn [bind]; try reflexivity.
    cbn [store]. rewrite IH. replace (i + 1) with (S i) by lia.
    destruct (mapM (stale_column g idx) (seq (S i) (List.length cols))) as [news|e|];
      cbn [bind]; try reflexivity.
    unfold set_columns, difference_objects, difference_is_object.
    cbn [fold_left fst snd]. replace (i + 1) with (S i) in Ed by lia.
    replace (i + 1) with (S i) by lia. rewrite Ed.
    do 2 f_equal. lia.
Qed.

Lemma stale_call_spec (g t : DataFrame) :
  index t <> [] ->
  subtract_background 0 1 [g; t] =
  (news <- mapM (stale_column g (index t)) (seq 1 (List.length (columns t) - 2)) ;;
   Ok ([g; {| index := index t; columns := set_columns news (columns t);
              objects := difference_objects g (seq 1 (List.length (columns t) - 2))
                                            (objects t) |}],
       (1, List.length (columns t) - 2))).
Proof.
  intros Hne. destruct t as [idx cs objs]. cbn [index columns objects] in *.
  unfold subtract_background. cbn [load nth_error bind].
  rewrite (stale_loop_spec g idx Hne).
  assert (List.length (column_names
            (iloc_cols_from {| index := idx; columns := cs; objects := objs |} 2))
          = List.length cs - 2) as ->.
  { unfold column_names, iloc_cols_from, slice_start. cbn [columns].
    rewrite length_map, length_skipn.
    change (2 <? 0)%Z with false. change (Z.to_nat 2) with 2. cbv iota. lia. }
  destruct (mapM (stale_column g idx) (seq 1 (List.length cs - 2))) as [news|e|];
    cbn [bind]; try reflexivity.
  do 3 f_equal. lia.
Qed.

Lemma find_set_column_other (name other : string) (cells : list cell)
    (cols : list (string * list cell)) :
  other <> name ->
  find (fun c => String.eqb (fst c) other) (set_column name cells cols) =
  find (fun c => String.eqb (fst c) other) cols.
Proof.
  intros Hne. induction cols as [|[n c] rest IH]; simpl.
  - destruct (String.eqb_spec name other); [congruence|reflexivity].
  - destruct (String.eqb_spec n name) as [->|Hn]; simpl.
    + destruct (String.eqb_spec name other); [congruence|reflexivity].
    + destruct (String.eqb n other); [reflexivity|exact IH].
Qed.

Lemma find_in_set_columns (news : list (string * list cell)) :
  NoDup (map fst news) ->
  forall cs c, In c news ->
    find (fun x => String.eqb (fst x) (fst c)) (set_columns news cs) = Some c.
Proof.
  induction news as [|x news IH] using rev_ind; intros Hnd cs c Hc; [destruct Hc|].
  unfold set_columns in *. rewrite fold_left_app. cbn [fold_left].
  rewrite map_app in Hnd. cbn [map] in Hnd.
  apply in_app_or in Hc. destruct Hc as [Hc|[<-|[]]].
  - rewrite find_set_column_other.
    + apply IH; [|exact Hc]. now apply NoDup_remove_1 in Hnd; rewrite app_nil_r in Hnd.
    + intros E. apply NoDup_remove_2 in Hnd. apply Hnd. rewrite app_nil_r, <- E.
      now apply in_map.
  - rewrite find_set_column. now destruct x.
Qed.

Lemma stale_columns_names (g : DataFrame) (idx : list Z) (ks : list nat)
    (news : list (string * list cell)) :
  mapM (stale_column g idx) ks = Ok news -> map fst news = map run_column_name ks.
Proof.
  apply mapM_fst. intros k c E. unfold stale_column in E.
  apply bind_Ok in E. destruct E as (s & _ & E).
  apply bind_Ok in E. destruct E as (cells & _ & E). now inversion E.
Qed.

(** X11.  With the global [df] bound to another table [g] than the
    input, [subtract_background] leaves [g] as it is, and what it puts
    under ["Run: k"] is decided by [g] and by the row labels of the input
    alone: a second input with the same row labels and the same number of
    columns gets the same count and, name by name, the same columns
    ["Run: 1"] .. ["Run: n"], whatever its cells are. *)
Theorem appended_columns_come_from_df (g t t' : DataFrame) :
  index t' = index t ->
  index t <> [] ->
  List.length (columns t') = List.length (columns t) ->
  forall h n,
    subtract_background 0 1 [g; t] = Ok (h, (1, n)) ->
    exists d d',
      h = [g; d] /\
      subtract_background 0 1 [g; t'] = Ok ([g; d'], (1, n)) /\
      forall k, 1 <= k <= n ->
        exists cells,
          column d (run_column_name k) = Some cells /\
          column d' (run_column_name k) = Some cells.
Proof.
  intros Hidx Hne Hlen h n E.
  rewrite (stale_call_spec g t Hne) in E.
  assert (index t' <> []) as Hne' by congruence.
  rewrite (stale_call_spec g t' Hne'), Hidx, Hlen.
  destruct (mapM (stale_column g (index t)) (seq 1 (List.length (columns t) - 2)))
    as [news|e|] eqn:Enews; cbn [bind] in *; try discriminate E.
  inversion E. subst h n. clear E.
  eexists. eexists. split; [reflexivity|]. split; [reflexivity|].
  intros k Hk.
  pose proof (stale_columns_names _ _ _ _ Enews) as Hnames.
  pose proof (@mapM_length _ _ _ _ _ Enews) as Hl. rewrite length_seq in Hl.
  destruct (@nth_error_defined _ news (k - 1)) as ([name cells] & Hc); [lia|].
  assert (name = run_column_name k) as ->.
  { apply (f_equal (fun l => nth_error l (k - 1))) in Hnames.
    rewrite !nth_error_map, Hc, nth_error_seq in Hnames.
    destruct (Nat.ltb_spec (k - 1) (List.length (columns t) - 2)); [|lia].
    cbn [option_map fst] in Hnames. inversion Hnames. f_equal. lia. }
  assert (NoDup (map fst news)) as Hnd by (rewrite Hnames; apply run_names_NoDup).
  exists cells. unfold column. cbn [columns].
  pose proof (nth_error_In _ _ Hc) as Hin.
  pose proof (find_in_set_columns news Hnd (columns t) _ Hin) as H1.
  pose proof (find_in_set_columns news Hnd (columns t') _ Hin) as H2.
  cbn [fst] in H1, H2. rewrite H1, H2.
  split; reflexivity.
Qed.

Lemma set_column_names_present (name : string) (cells : list cell)
    (cols : list (string * list cell)) :
  In name (map fst cols) -> map fst (set_column name cells cols) = map fst cols.
Proof.
  induction cols as [|[n c] rest IH]; simpl; [intros []|].
  destruct (String.eqb_spec n name) as [->|Hn]; simpl; [reflexivity|].
  intros [E|Hin]; [contradiction|]. now rewrite IH.
Qed.

(** X12.  [get_averaged_data_column] never raises and touches nothing
    but [Mean]: the row labels and every column of another name are kept as
    they are, [Mean] has one cell per row, a table that already had a
    [Mean] column keeps its column names (the column is overwritten where
    it stands), and any other table gets [Mean] as a new last column. *)
Theorem averaging_changes_only_Mean (t : DataFrame) (number_of_runs : nat) :
  exists t',
    averaged_table t number_of_runs = Ok t' /\
    index t' = index t /\
    (forall name, name <> "Mean"%string -> column t' name = column t name) /\
    (exists m, column t' "Mean" = Some m /\ List.length m = List.length (index t)) /\
    (In "Mean"%string (column_names t) -> column_names t' = column_names t) /\
    (~ In "Mean"%string (column_names t) ->
     columns t' = columns t ++ [("Mean"%string, mean_values t number_of_runs)]).
Proof.
  rewrite averaged_table_spec. eexists. split; [reflexivity|].
  cbn [index columns]. split; [reflexivity|]. split; [|split; [|split]].
  - intros name Hname. unfold column. cbn [columns].
    now rewrite find_set_column_other.
  - exists (mean_values t number_of_runs). split.
    + unfold column. cbn [columns]. now rewrite find_set_column.
    + apply mean_values_length.
  - intros Hin. unfold column_names. cbn [columns].
    now apply set_column_names_present.
  - intros Hnin. now apply set_column_fresh.
Qed.

(** X13.  The count handed to [get_averaged_data_column] is clamped by
    the slice: with a count of at least the number of columns the mean is
    taken over all columns, exactly as with the count 0. *)
Theorem averaging_count_is_clamped (t : DataFrame) (number_of_runs : nat) :
  List.length (columns t) <= number_of_runs ->
  averaged_table t number_of_runs = averaged_table t 0.
Proof.
  intros Hn. rewrite !averaged_table_spec. do 3 f_equal.
  unfold mean_values. do 2 f_equal.
  rewrite iloc_minus_zero. destruct t as [idx cs objs]. cbn [columns] in Hn.
  unfold iloc_cols_from, slice_start. cbn [index columns]. f_equal.
  destruct (Z.ltb_spec (-1 * Z.of_nat number_of_runs) 0).
  - replace (Z.to_nat _) with 0 by lia. reflexivity.
  - replace (Z.to_nat (-1 * Z.of_nat number_of_runs)) with 0 by lia. reflexivity.
Qed.

Lemma nanmean_all_missing (cs : list cell) :
  Forall (fun c => c = CNaN) cs -> nanmean cs = CNaN.
Proof.
  intros Hall. unfold nanmean.
  assert (present_numbers cs = []) as ->; [|reflexivity].
  induction Hall as [|c cs -> _ IH]; simpl; auto.
Qed.

(** X14.  The label row stays out of the arithmetic: in the finished
    table of a folder with at least two run files (listed under distinct
    names) row 0 of every column ["Run: k"] and of [Mean] is NaN, whatever
    the labels in that row are. *)
Theorem label_row_is_not_averaged (fs : folder) (t : DataFrame) :
  NoDup (map fst fs) ->
  2 <= List.length (runs_of fs) ->
  finished_table fs = Ok t ->
  cell_of t "Mean" 0 = Some CNaN /\
  forall k, 1 <= k <= List.length (runs_of fs) - 1 ->
    cell_of t (run_column_name k) 0 = Some CNaN.
Proof.
  intros Hnd HN E.
  destruct (finished_table_folder fs t Hnd E)
    as (t1 & t2 & news & E1 & Ht & _ & E2 & E3 & Enews & Et2 & Et).
  pose proof (@mapM_length _ _ _ _ _ Enews) as Hlen. rewrite length_seq in Hlen.
  pose proof (@difference_columns_names _ _ _ _ _ Enews) as Hnames.
  pose proof (@difference_columns_no_text _ _ _ _ _ Enews) as Htext.
  pose proof (@experiment_table_rows _ _ _ _ Ht) as Hrows.
  assert (Hwf : well_formed t1) by (now destruct Ht as (_ & Hwf & _)).
  assert (forall c, In c news -> nth_error (snd c) 0 = Some CNaN) as Hzero.
  { intros c Hc. destruct (@mapM_In _ _ _ _ _ c Enews Hc) as (k & _ & Ek).
    now destruct (@difference_column_cells _ _ t1 k c Hwf Ek) as (_ & _ & H0 & _). }
  split.
  - subst t. unfold cell_of, column. cbn [columns].
    rewrite find_app_fresh.
    2:{ rewrite map_app, in_app_iff. intros [Hin|Hin].
        - now apply (@experiment_table_no_Mean _ _ _ _ Ht).
        - rewrite Hnames in Hin. now apply run_names_no_Mean in Hin. }
    cbn [find fst String.eqb Ascii.eqb Bool.eqb option_map snd].
    rewrite Et2, <- Hlen.
    rewrite mean_values_trailing by (auto; lia).
    rewrite Hrows. cbn [seq map nth_error]. f_equal.
    apply nanmean_all_missing. unfold row_cells. apply Forall_map.
    rewrite Forall_forall. intros c Hc. specialize (Hzero c Hc).
    now apply nth_error_nth with (d := CNaN) in Hzero.
  - intros k Hk. subst t. unfold cell_of, column. cbn [columns].
    rewrite <- app_assoc.
    rewrite find_app_fresh by (now apply experiment_table_no_run_names with
                                 (N := List.length (runs_of fs))).
    rewrite (@find_run_column _ news 1 k) by (rewrite ?Hnames, Hlen; auto; lia).
    destruct (@nth_error_defined _ news (k - 1)) as (c & Hc); [lia|].
    rewrite Hc. cbn [option_map]. apply Hzero. now apply nth_error_In with (n := k - 1).
Qed.

End Stale.

(** ** The path lists and the sheets *)

Section Sheets.

Context {num : Type} `{Numeric num}.

Local Abbreviation cell := (cell num).
Local Abbreviation DataFrame := (DataFrame num).
Local Abbreviation IndexedFrame := (IndexedFrame num).

Lemma path_loop_spec (raw : list string) :
  forall l n,
    path_loop raw l n =
    Ok (l ++ map (fun d => String.append d "/") raw, n ++ map last_component raw).
Proof.
  induction raw as [|d raw IH]; intros l n; cbn [path_loop map].
  - now rewrite !app_nil_r.
  - rewrite getitem_last_split. cbn [bind]. rewrite IH, <- !app_assoc. reflexivity.
Qed.

Lemma mapM_map {A B C : Type} (f : B -> result C) (g : A -> B) (l : list A) :
  mapM f (map g l) = mapM (fun a => f (g a)) l.
Proof. induction l as [|a l IH]; simpl; [reflexivity|now rewrite IH]. Qed.

(** The main loop, sheet by sheet: every pass appends the finished table
    of its folder to the store and its sheet to [dataframes]; the tables in
    the store play no part in later passes. *)
Lemma sheets_loop_spec (fs : filesystem) (sub_directory_list : list string) :
  forall (h : list DataFrame) (dataframes : list IndexedFrame),
    match sheets_loop fs sub_directory_list h dataframes with
    | Ok (h', out) =>
        exists sheets,
          mapM (final_table_at fs) sub_directory_list = Ok sheets /\
          out = dataframes ++ sheets /\
          List.length h' = List.length h + List.length sub_directory_list
    | Raise e => mapM (final_table_at fs) sub_directory_list = Raise e
    | Unmodelled => mapM (final_table_at fs) sub_directory_list = Unmodelled
    end.
Proof.
  induction sub_directory_list as [|d rest IH]; intros h dataframes;
    cbn [sheets_loop mapM].
  - exists []. rewrite app_nil_r. cbn [List.length]. repeat split; auto.
  - unfold final_table_at at 1 3 5.
    destruct (listing fs d) as [l|e|]; cbn [bind]; try reflexivity.
    rewrite process_folder_spec.
    destruct (finished_table l) as [t|e|]; cbn [bind]; try reflexivity.
    rewrite load_last. cbn [bind].
    destruct (set_index t "Pixel") as [s|e|]; cbn [bind]; try reflexivity.
    specialize (IH (h ++ [t]) (dataframes ++ [s])).
    destruct (sheets_loop fs rest (h ++ [t]) (dataframes ++ [s])) as [[h' out]|e|].
    + destruct IH as (sheets & -> & -> & Hlen). cbn [bind].
      exists (s :: sheets). rewrite <- app_assoc. repeat split; auto.
      rewrite Hlen, length_app. cbn [List.length]. lia.
    + rewrite IH. reflexivity.
    + rewrite IH. reflexivity.
Qed.

(** The script up to the writer: the names are the last components of the
    directory paths, the tables those of the directories one by one. *)
Lemma before_writer_spec (fs : filesystem) (walk : list string) :
  before_writer fs walk =
  (sheets <- mapM (fun d => final_table_at fs (sub_folder_path d)) (skipn 1 walk) ;;
   Ok (map sheet_name_of (skipn 1 walk), sheets)).
Proof.
  unfold before_writer. rewrite path_loop_spec. cbn [bind List.app].
  unfold raw_sub_directory_list, all_sub_directories.
  rewrite skipn_map, !map_map.
  change (fun x => String.append (replace backslash slash x) "/") with sub_folder_path.
  change (fun x => last_component (replace backslash slash x)) with sheet_name_of.
  rewrite <- (mapM_map (final_table_at fs) sub_folder_path).
  pose proof (sheets_loop_spec fs (map sub_folder_path (skipn 1 walk)) [] []) as Hs.
  destruct (sheets_loop fs (map sub_folder_path (skipn 1 walk)) [] []) as [[h out]|e|].
  - destruct Hs as (sheets & -> & -> & _). reflexivity.
  - now rewrite Hs.
  - now rewrite Hs.
Qed.

Lemma listing_names (fs : filesystem) (directory : string) (l : folder) :
  listing fs directory = Ok l ->
  listdir fs directory = Some (map fst l).
Proof.
  unfold listing. destruct (listdir fs directory) as [names|]; [|discriminate].
  intros [= <-]. rewrite map_map. cbn [fst]. now rewrite map_id.
Qed.

Lemma listing_distinct (fs : filesystem) (directory : string) (l : folder) :
  distinct_listing fs directory -> listing fs directory = Ok l -> NoDup (map fst l).
Proof.
  unfold distinct_listing. intros Hd E. now rewrite (listing_names _ _ _ E) in Hd.
Qed.

Lemma finished_table_exn (fs : folder) (e : exn) :
  NoDup (map fst fs) ->
  finished_table (num := num) fs = Raise e ->
  e = OSError \/ e = UnicodeDecodeError \/ e = ParserError \/
  e = ValueError \/ e = TypeError.
Proof.
  intros Hnd E. rewrite finished_table_stages in E.
  destruct (iterate_over_runs (num := num) fs) as [t1|e1|] eqn:E1; cbn [bind] in E;
    [| |discriminate E].
  - destruct (@iterate_over_runs_table _ _ fs t1 Hnd E1) as (Ht & HN & _).
    rewrite (@experiment_table_subtracted _ _ _ t1 Ht HN) in E.
    destruct (mapM (difference_column t1) (seq 1 (List.length (runs_of fs) - 1)))
      as [news|e2|] eqn:E2; cbn [bind] in E; [| |discriminate E].
    + rewrite averaged_table_spec in E. discriminate E.
    + inversion E. subst e2. do 4 right. eapply difference_columns_fail; eauto.
  - inversion E. subst e1.
    rewrite iterate_over_runs_spec in E1
      by (unfold runs_of; now apply filter_keeps_names_distinct).
    destruct (mapM (run_column (num := num) n_pixels) (runs_of fs)) as [cs|e'|] eqn:Ecs;
      cbn [bind] in E1; [| |discriminate E1].
    + destruct cs as [|c cs]; [|discriminate E1]. do 3 right. left. now inversion E1.
    + inversion E1. subst e'.
      destruct (@mapM_Raise _ _ _ _ _ Ecs) as (done & x & rest & _ & _ & Hx).
      apply run_column_Raise in Hx.
      destruct (asc_read_exn _ _ Hx) as [-> | [-> | ->]]; auto.
Qed.

Lemma filter_other_names (name : string) (cols : list (string * list cell)) :
  ~ In name (map fst cols) ->
  filter (fun c => negb (String.eqb (fst c) name)) cols = cols.
Proof.
  induction cols as [|[n c] cols IH]; simpl; [reflexivity|]. intros Hn.
  destruct (String.eqb_spec n name) as [->|_]; [tauto|]. simpl. rewrite IH; tauto.
Qed.

Lemma finished_table_Pixel_first (fs : folder) (t : DataFrame) :
  NoDup (map fst fs) ->
  finished_table fs = Ok t ->
  exists rest,
    columns t = ("Pixel"%string, CNaN :: pixels) :: rest /\
    map fst rest =
      map fst (runs_of fs) ++
      map run_column_name (seq 1 (List.length (runs_of fs) - 1)) ++ ["Mean"%string] /\
    ~ In "Pixel"%string (map fst rest).
Proof.
  intros Hnd E.
  destruct (finished_table_folder fs t Hnd E)
    as (t1 & t2 & news & E1 & Ht & _ & _ & _ & Enews & _ & ->).
  destruct (@iterate_over_runs_table _ _ fs t1 Hnd E1) as (_ & _ & Hnames & _).
  destruct Ht as (_ & _ & raw & Hcols & _ & _).
  unfold column_names in Hnames. rewrite Hcols in Hnames. cbn [map fst] in Hnames.
  injection Hnames as Hraw.
  cbn [columns]. rewrite Hcols. cbn [List.app].
  eexists. split; [reflexivity|].
  assert (forall m : list cell,
            map fst ((raw ++ news) ++ [("Mean"%string, m)]) =
            map fst (runs_of fs) ++
            map run_column_name (seq 1 (List.length (runs_of fs) - 1)) ++ ["Mean"%string])
    as Hn.
  { intros m. rewrite !map_app, Hraw, (@difference_columns_names _ _ _ _ _ Enews).
    now rewrite <- app_assoc. }
  split; [apply Hn|]. rewrite Hn. rewrite !in_app_iff. intros [Hin|[Hin|Hin]].
  - apply in_map_iff in Hin. destruct Hin as (x & Hx & Hin).
    apply runs_of_endswith in Hin. rewrite Hx in Hin. discriminate Hin.
  - apply in_map_iff in Hin. destruct Hin as (k & Hk & _).
    now apply run_column_name_not_Pixel in Hk.
  - destruct Hin as [Hin|[]]. discriminate Hin.
Qed.

(** X15.  The sheet of a folder (listed under distinct names) is its
    finished table without the pixel column, which has become the row
    labels: NaN on top, the label of the row of run numbers, then the
    pixels 1 .. 1024.  The columns left are the run files in listing order,
    ["Run: 1"] .. ["Run: N-1"] and [Mean], with the label row still in
    them. *)
Theorem sheet_is_finished_table_without_Pixel (fs : filesystem) (directory : string)
    (sheet : IndexedFrame) :
  distinct_listing fs directory ->
  final_table_at fs directory = Ok sheet ->
  exists l t,
    listing fs directory = Ok l /\
    finished_table l = Ok t /\
    row_labels sheet = CNaN :: pixels /\
    columns t = ("Pixel"%string, row_labels sheet) :: sheet_columns sheet /\
    map fst (sheet_columns sheet) =
      map fst (runs_of l) ++
      map run_column_name (seq 1 (List.length (runs_of l) - 1)) ++ ["Mean"%string].
Proof.
  intros Hd E. unfold final_table_at in E.
  destruct (listing fs directory) as [l|e|] eqn:El; cbn [bind] in E;
    try discriminate E.
  destruct (finished_table l) as [t|e|] eqn:Et; cbn [bind] in E;
    try discriminate E.
  pose proof (listing_distinct _ _ _ Hd El) as Hnd.
  destruct (finished_table_Pixel_first l t Hnd Et) as (rest & Hcols & Hnames & Hfresh).
  unfold set_index in E. rewrite Hcols in E.
  cbn [find fst snd String.eqb Ascii.eqb Bool.eqb filter negb] in E.
  rewrite filter_other_names in E by exact Hfresh.
  inversion E. subst sheet. clear E. cbn [row_labels sheet_columns].
  exists l, t. repeat split; auto.
Qed.

(** X16.  The pass over one directory (listed under distinct names) can
    raise OSError (the directory cannot be listed, or a run file cannot be
    opened), UnicodeDecodeError and ParserError (from reading a run file),
    ValueError (no run file) and TypeError (a text met the subtraction),
    and nothing else: [set_index("Pixel")] never fails with KeyError, there
    is no IndexError and no NameError.  (Nothing is said of a directory
    with a file that [asc_read] does not follow, unless a file listed
    before it raises.) *)
Theorem directory_failures (fs : filesystem) (directory : string) (e : exn) :
  distinct_listing fs directory ->
  final_table_at (num := num) fs directory = Raise e ->
  e = OSError \/ e = UnicodeDecodeError \/ e = ParserError \/
  e = ValueError \/ e = TypeError.
Proof.
  intros Hd E. unfold final_table_at in E.
  destruct (listing fs directory) as [l|e0|] eqn:El; cbn [bind] in E;
    [| |discriminate E].
  - pose proof (listing_distinct _ _ _ Hd El) as Hnd.
    destruct (finished_table l) as [t|e1|] eqn:Et; cbn [bind] in E;
      [| |discriminate E].
    + destruct (finished_table_Pixel_first l t Hnd Et) as (rest & Hcols & _).
      unfold set_index in E. rewrite Hcols in E.
      cbn [find fst String.eqb Ascii.eqb Bool.eqb] in E. discriminate E.
    + inversion E. subst e1. exact (finished_table_exn l e Hnd Et).
  - unfold listing in El. destruct (listdir fs directory); [discriminate El|].
    inversion El. subst e0. inversion E. now left.
Qed.

Lemma last_component_keeps_out (c : ascii) (path : string) :
  contains c path = false -> contains c (last_component path) = false.
Proof.
  intros Hp. destruct (contains c (last_component path)) eqn:E; [|reflexivity].
  rewrite <- Hp. symmetry.
  apply (split_components_in c slash path (last_component path)); [|exact E].
  unfold last_component. pose proof (split_not_nil slash path) as Hne.
  destruct (@exists_last _ (split slash path) Hne) as (l & a & ->).
  rewrite last_last. apply in_or_app. right. now left.
Qed.

Lemma replace_removes (old new : ascii) (s : string) :
  old <> new -> contains old (replace old new s) = false.
Proof.
  intros Hne. induction s as [|c rest IH]; simpl; [reflexivity|].
  rewrite IH, orb_false_r.
  destruct (Ascii.eqb_spec c old) as [->|Hc]; apply Ascii.eqb_neq; congruence.
Qed.

(** X17.  What the script has in hand when it reaches the Excel writer
    (the writer itself is not modelled).  When the main loop has come to
    its end, [sub_directory_names] and [dataframes] have one element each
    for every directory that [os.walk] yields after the start path, in
    that order: the [k]-th name is the last component of the path of the
    [k]-th directory and the [k]-th table is the sheet of that directory
    alone, whatever the directories before it held.  No name holds a slash
    or a backslash; two directories with the same last component give the
    same name twice. *)
Theorem one_name_and_table_per_directory (fs : filesystem) (walk : list string)
    (sub_directory_names : list string) (dataframes : list IndexedFrame) :
  before_writer fs walk = Ok (sub_directory_names, dataframes) ->
  List.length sub_directory_names = List.length walk - 1 /\
  List.length dataframes = List.length walk - 1 /\
  (forall k directory,
     nth_error walk (S k) = Some directory ->
     nth_error sub_directory_names k = Some (sheet_name_of directory) /\
     exists sheet,
       nth_error dataframes k = Some sheet /\
       final_table_at fs (sub_folder_path directory) = Ok sheet) /\
  Forall (fun s => contains slash s = false /\ contains backslash s = false)
         sub_directory_names.
Proof.
  intros E. rewrite before_writer_spec in E.
  apply bind_Ok in E. destruct E as (sheets & Es & E).
  injection E as <- <-.
  pose proof (@mapM_length _ _ _ _ _ Es) as Hlen.
  split; [|split; [|split]].
  - rewrite length_map. destruct walk; simpl; lia.
  - rewrite Hlen. destruct walk; simpl; lia.
  - intros k directory Hk.
    destruct walk as [|w walk]; [discriminate Hk|].
    cbn [nth_error] in Hk. cbn [skipn] in *.
    split; [now rewrite nth_error_map, Hk|].
    destruct (@mapM_nth_error _ _ _ _ _ Es k _ Hk) as (sheet & Hs & Ef).
    now exists sheet.
  - apply Forall_forall. intros name Hin.
    apply in_map_iff in Hin. destruct Hin as (d & <- & _).
    unfold sheet_name_of. split.
    + pose proof (split_components_clean slash (replace backslash slash d)) as Hall.
      rewrite Forall_forall in Hall. apply Hall. unfold last_component.
      pose proof (split_not_nil slash (replace backslash slash d)) as Hne.
      destruct (@exists_last _ _ Hne) as (l & a & ->).
      rewrite last_last. apply in_or_app. right. now left.
    + apply last_component_keeps_out. apply replace_removes. discriminate.
Qed.

(** X18.  The script raises [e] before it reaches the Excel writer (the
    writer itself is not modelled) exactly when the pass over one of the
    directories after the start path raises [e] and the pass over every
    directory before it returns a sheet: the failure is that of the first
    failing directory.  The path lists and the main loop add no failure of
    their own (the subscript [[-1]] is always in range), and nothing has
    been written when the script stops there, because the writer is
    created after the main loop. *)
Theorem script_stops_at_first_failing_directory (fs : filesystem) (walk : list string)
    (e : exn) :
  before_writer (num := num) fs walk = Raise e <->
  exists done directory rest,
    skipn 1 walk = done ++ directory :: rest /\
    Forall (fun d => is_ok (final_table_at (num := num) fs (sub_folder_path d)) = true)
           done /\
    final_table_at (num := num) fs (sub_folder_path directory) = Raise e.
Proof.
  rewrite before_writer_spec. split.
  - intros E.
    destruct (mapM (fun d => final_table_at (num := num) fs (sub_folder_path d))
                   (skipn 1 walk)) as [sheets|e'|] eqn:Es; cbn [bind] in E;
      try discriminate E.
    inversion E. subst e'.
    destruct (@mapM_Raise _ _ _ _ _ Es) as (done & d & rest & Hl & Hdone & Hd).
    now exists done, d, rest.
  - intros (done & d & rest & Hl & Hdone & Hd). rewrite Hl.
    now rewrite (@mapM_first_failure _ _
                   (fun d => final_table_at (num := num) fs (sub_folder_path d))
                   done rest d e Hdone Hd).
Qed.

End Sheets.

(** ** What [asc_read] makes of the intensity fields *)

Section Reading.

Context {num : Type} `{Numeric num}.

Local Abbreviation cell := (cell num).
Local Abbreviation DataFrame := (DataFrame num).


End Reading.

(** * The worked folders *)

Local Open Scope string_scope.

Lemma folder_700_names : NoDup (map fst folder_700).
Proof.
  repeat constructor; cbn; intuition discriminate.
Qed.

Lemma table_of_ok (r : result (DataFrame Q)) : is_ok r = true -> r = Ok (table_of r).
Proof. destruct r; [reflexivity|discriminate|discriminate]. Qed.

Lemma table_700_run : iterate_over_runs folder_700 = Ok table_700.
Proof. apply table_of_ok. vm_compute. reflexivity. Qed.

Lemma finished_700_run : finished_table folder_700 = Ok finished_700.
Proof. apply table_of_ok. vm_compute. reflexivity. Qed.

Lemma table_700_experiment : experiment_table 3 table_700.
Proof.
  exact (proj1 (@iterate_over_runs_table _ _ folder_700 table_700
                  folder_700_names table_700_run)).
Qed.

(** The scenario of the specification: [Run: 1] is 5, [Run: 2] is 2 and
    [Mean] is 3.5 in every pixel row. *)
Example folder_700_scenario : constant_rows finished_700 5 2 (7 # 2) = true.
Proof. vm_compute. reflexivity. Qed.

Lemma well_formed_check {num : Type} (d : DataFrame num) :
  forallb (fun c => Nat.eqb (List.length (snd c)) (List.length (index d))) (columns d) = true ->
  well_formed d.
Proof.
  intros Hall. unfold well_formed. apply Forall_forall. intros c Hc.
  rewrite forallb_forall in Hall. apply Nat.eqb_eq. exact (Hall c Hc).
Qed.

Lemma aggregated_example_table : aggregated_table 2 aggregated_example.
Proof.
  split; [reflexivity|]. split; [|split; [reflexivity|]].
  - unfold well_formed, aggregated_example. cbn [index columns].
    rewrite RangeIndex_length.
    apply Forall_cons; [apply pixels_length|].
    apply Forall_cons; [apply repeat_length|].
    apply Forall_cons; [apply repeat_length|].
    apply Forall_nil.
  - intros c Hc. cbn [aggregated_example columns nth_error] in Hc.
    injection Hc as <-. reflexivity.
Qed.

(** ** C2: the global [df] decides what is appended *)

(** C2.  Two calls of [subtract_background] on the same input table, the
    table of folder 700 (runs 10, 15, 12): with the global [df] bound to a
    table of these contents the appended ["Run: 1"] is 15 - 10 = 5 in every
    data row; with [df] bound to the table of another folder (runs 20, 50,
    12) it is 50 - 20 = 30, values that occur nowhere in the input table.
    The appended column is not a function of the input table. *)
Theorem subtract_background_reads_global_df :
  exists t g1 g2 : DataFrame Q,
    appended_column g1 t "Run: 1" = Some (CNaN :: repeat (CNum (5 # 1)%Q) n_pixels) /\
    appended_column g2 t "Run: 1" = Some (CNaN :: repeat (CNum (30 # 1)%Q) n_pixels) /\
    appended_column g1 t "Run: 1" <> appended_column g2 t "Run: 1".
Proof.
  exists table_700, table_700, other_table.
  assert (appended_column table_700 table_700 "Run: 1" =
          Some (CNaN :: repeat (CNum (5 # 1)%Q) n_pixels)) as E1
    by (vm_compute; reflexivity).
  assert (appended_column other_table table_700 "Run: 1" =
          Some (CNaN :: repeat (CNum (30 # 1)%Q) n_pixels)) as E2
    by (vm_compute; reflexivity).
  split; [exact E1|]. split; [exact E2|].
  rewrite E1, E2. intros E.
  apply (f_equal (fun o => match o with
                           | Some (_ :: c :: _) => Some c
                           | _ => None
                           end)) in E.
  lazy in E. discriminate E.
Qed.

(** ** The claims at the worked folders *)

Lemma subtract_background_is_run_minus_background_witness :
  experiment_table 3 table_700 /\ 2 <= 3 /\
  ((numeric_data table_700 -> exists t2, subtracted_table table_700 = Ok (t2, 3 - 1)) /\
   forall t2 n, subtracted_table table_700 = Ok (t2, n) ->
     forall k r, 1 <= k <= 3 - 1 -> 1 <= r <= n_pixels ->
       exists x y z,
         cell_iloc table_700 (k + 1) r = Some x /\
         cell_iloc table_700 1 r = Some y /\
         cell_of t2 (run_column_name k) r = Some z /\
         sub_cell x y = Ok z /\
         (forall a b, x = CNum a -> y = CNum b -> z = CNum (nsub a b))).
Proof.
  split; [exact table_700_experiment|]. split; [lia|].
  apply (subtract_background_is_run_minus_background (N := 3) (t := table_700)).
  - exact table_700_experiment.
  - lia.
Defined.

Lemma mean_is_average_of_run_columns_witness :
  NoDup (map fst folder_700) /\
  2 <= List.length (runs_of folder_700) /\
  finished_table folder_700 = Ok finished_700 /\
  forall r, 1 <= r <= n_pixels ->
    exists zs : list (cell Q),
      List.length zs = List.length (runs_of folder_700) - 1 /\
      (forall k, 1 <= k <= List.length (runs_of folder_700) - 1 ->
         cell_of finished_700 (run_column_name k) r = nth_error zs (k - 1)) /\
      cell_of finished_700 "Mean" r = Some (nanmean zs) /\
      (forall xs, zs = map CNum xs ->
         cell_of finished_700 "Mean" r = Some (CNum (average xs))).
Proof.
  split; [exact folder_700_names|].
  split; [vm_compute; lia|].
  split; [exact finished_700_run|].
  apply (mean_is_average_of_run_columns folder_700 finished_700).
  - exact folder_700_names.
  - vm_compute. lia.
  - exact finished_700_run.
Defined.

(** C4 as the specification words it fails: in the finished table of the
    short folder row 4 has no value in ["Run: 2"], one of the two trailing
    columns that are averaged, and yet its [Mean] is not missing: it is 5,
    the one value that is present. *)
Lemma mean_of_row_with_missing_value_is_present :
  row_under short_finished ["Run: 1"; "Run: 2"; "Mean"] 4 =
  [Some (CNum (5 # 1)%Q); Some CNaN; Some (CNum (5 # 1)%Q)].
Proof. vm_compute. reflexivity. Qed.

Lemma mean_leaves_missing_values_out_witness :
  1 <= 2 /\
  columns two_row_table = (firstn 4 (columns two_row_table) ++
                           skipn 4 (columns two_row_table))%list /\
  List.length (skipn 4 (columns two_row_table)) = 2 /\
  has_text (skipn 4 (columns two_row_table)) = false /\
  exists t',
    averaged_table two_row_table 2 = Ok t' /\
    forall r, r < List.length (index two_row_table) ->
      (present_numbers (row_cells (skipn 4 (columns two_row_table)) r) = [] ->
       cell_of t' "Mean" r = Some CNaN) /\
      (present_numbers (row_cells (skipn 4 (columns two_row_table)) r) <> [] ->
       cell_of t' "Mean" r =
         Some (CNum (average
                       (present_numbers (row_cells (skipn 4 (columns two_row_table)) r))))) /\
      (cell_of t' "Mean" r = Some CNaN <->
       forallb isna (row_cells (skipn 4 (columns two_row_table)) r) = true).
Proof.
  split; [lia|]. split; [reflexivity|]. split; [reflexivity|]. split; [reflexivity|].
  apply (mean_leaves_missing_values_out two_row_table 2
           (firstn 4 (columns two_row_table)) (skipn 4 (columns two_row_table))).
  - lia.
  - reflexivity.
  - reflexivity.
  - reflexivity.
Defined.

Lemma zero_runs_raise_ValueError_witness :
  runs_of no_run_folder = [] /\
  iterate_over_runs (num := Q) no_run_folder = Raise ValueError /\
  finished_table (num := Q) no_run_folder = Raise ValueError.
Proof.
  split; [reflexivity|].
  apply (zero_runs_raise_ValueError no_run_folder). reflexivity.
Defined.

Lemma add_run_numbers_label_row_witness :
  aggregated_table 2 aggregated_example /\ 1 <= 2 /\
  exists d',
    add_run_numbers aggregated_example = Ok d' /\
    index d' = RangeIndex (S n_pixels) /\
    column_names d' = column_names aggregated_example /\
    map (fun c => nth 0 (snd c) CNaN) (columns d') =
      CNaN :: CStr "BG" :: map (fun k => CNum (of_Z (Z.of_nat k))) (seq 1 (2 - 1)) /\
    (forall j c, nth_error (columns d') j = Some c ->
                 isna (nth 0 (snd c) CNaN) = true <-> j = 0) /\
    forall j r, cell_iloc d' j (S r) = cell_iloc aggregated_example j r.
Proof.
  split; [exact aggregated_example_table|]. split; [lia|].
  apply (add_run_numbers_label_row 2 aggregated_example).
  - exact aggregated_example_table.
  - lia.
Defined.

Lemma finished_table_columns_witness :
  NoDup (map fst folder_700) /\
  1 <= List.length (runs_of folder_700) /\
  ((forall e, In e (runs_of folder_700) -> numeric_file (num := Q) (snd e)) ->
   exists t : DataFrame Q, finished_table folder_700 = Ok t) /\
  (forall t : DataFrame Q, finished_table folder_700 = Ok t ->
     column_names t =
       (("Pixel" :: map fst (runs_of folder_700)) ++
        map run_column_name (seq 1 (List.length (runs_of folder_700) - 1)) ++ ["Mean"])%list /\
     NoDup (column_names t)) /\
  (forall (t1 t2 : DataFrame Q) n,
     iterate_over_runs folder_700 = Ok t1 ->
     subtracted_table t1 = Ok (t2, n) ->
     n = List.length (runs_of folder_700) - 1 /\
     forall k, 1 <= k <= List.length (runs_of folder_700) - 1 ->
       exists s,
         k + 1 <= List.length (runs_of folder_700) /\
         column_difference t1 (k + 1) 1 = Ok s /\
         column t2 (run_column_name k) = Some (CNaN :: s_values s)).
Proof.
  split; [exact folder_700_names|].
  split; [vm_compute; lia|].
  apply (finished_table_columns folder_700).
  - exact folder_700_names.
  - vm_compute. lia.
Defined.

Lemma table_invariant_preserved_witness :
  experiment_table 3 table_700 /\ 1 <= 3 /\
  table_invariant table_700 /\
  forall t2 n, subtracted_table table_700 = Ok (t2, n) ->
    (table_invariant t2 /\ exists added, columns t2 = (columns table_700 ++ added)%list) /\
    forall t3, averaged_table t2 n = Ok t3 ->
      table_invariant t3 /\
      exists m, columns t3 = (columns t2 ++ [("Mean", m)])%list.
Proof.
  split; [exact table_700_experiment|]. split; [lia|].
  apply (table_invariant_preserved 3 table_700).
  - exact table_700_experiment.
  - lia.
Defined.

(** C9 as the specification words it fails: a record whose intensity is
    not a number and a record without a second field are both read without
    an error. *)
Lemma asc_read_accepts_malformed_rows :
  asc_read (num := Q) (Lines [["1"; "abc"]; ["2"]]) =
  Ok {| index := [0%Z; 1%Z];
        columns := [("Pixel", [CNum (1 # 1)%Q; CNum (2 # 1)%Q]);
                    ("value", [CStr "abc"; CNaN])];
        objects := ["value"] |}.
Proof. vm_compute. reflexivity. Qed.

Lemma asc_read_raises_on_wide_records_witness :
  asc_read (num := Q) Unreadable = Raise OSError /\
  asc_read (num := Q) Undecodable = Raise UnicodeDecodeError /\
  asc_read (num := Q) (Lines [["1"; "10"]; []; ["2"; "11"; "12"]]) = Raise ParserError /\
  exists t,
    asc_read (num := Q) (Lines [["1"; "abc"]; []; ["2"]]) = Ok t /\
    index t = [0%Z; 1%Z] /\
    cell_of t "value" 0 = Some (CStr "abc") /\
    cell_of t "value" 1 = Some CNaN.
Proof.
  destruct (asc_read_raises_on_wide_records (num := Q)) as (Hopen & Hdecode & Hlines).
  split; [exact Hopen|]. split; [exact Hdecode|]. split.
  - apply (proj2 (proj1 (Hlines [["1"; "10"]; []; ["2"; "11"; "12"]]) ParserError)).
    split; [reflexivity|].
    exists ["1"; "10"], [["2"; "11"; "12"]].
    split; [reflexivity|]. split; [simpl; lia|].
    exists ["2"; "11"; "12"]. split; [now left|simpl; lia].
  - destruct (proj2 (proj2 (Hlines [["1"; "abc"]; []; ["2"]])) eq_refl)
      as (t & Et & Hidx & _ & Hrows).
    exists t. split; [exact Et|]. split; [exact Hidx|]. split.
    + apply (proj2 (Hrows 0 ["1"; "abc"] eq_refl) "abc"); reflexivity.
    + apply (proj1 (Hrows 1 ["2"] eq_refl)). reflexivity.
Defined.

(** C10 as it is worded fails: in the finished table of the folder with one
    run of constant intensity 10, row 1 has pixel 1 and intensity 10, and
    its [Mean] is 1, the pixel number, not their average 11/2.  The whole
    [Mean] column is the pixel column. *)
Lemma one_run_mean_is_not_the_average :
  row_under one_run_finished ["Pixel"; "run1.asc"; "Mean"] 1 =
  [Some (CNum (1 # 1)%Q); Some (CNum (10 # 1)%Q); Some (CNum (1 # 1)%Q)] /\
  cell_of one_run_finished "Mean" 1 <>
  Some (CNum (average [(1 # 1)%Q; (10 # 1)%Q])) /\
  column one_run_finished "Mean" = column one_run_finished "Pixel".
Proof.
  assert (row_under one_run_finished ["Pixel"; "run1.asc"; "Mean"] 1 =
          [Some (CNum (1 # 1)%Q); Some (CNum (10 # 1)%Q); Some (CNum (1 # 1)%Q)]) as E
    by (vm_compute; reflexivity).
  split; [exact E|]. split; [|vm_compute; reflexivity].
  apply (f_equal (fun l => nth 2 l None)) in E.
  unfold row_under in E. cbn [map nth] in E.
  rewrite E. vm_compute. discriminate.
Qed.

Lemma one_run_mean_is_the_pixel_column_witness :
  runs_of one_run_folder = [("run1.asc", constant_run "10" 1024)] /\
  is_plain (num := Q) (map (fun i => [format_nat i; "10"]) (seq 1 1024)) = true /\
  exists t1 t : DataFrame Q,
    iterate_over_runs one_run_folder = Ok t1 /\
    subtracted_table t1 = Ok (t1, 0) /\
    iloc_cols_from t1 (-1 * Z.of_nat 0) = t1 /\
    is_object t1 "Pixel" = false /\
    is_object t1 "run1.asc" = true /\
    finished_table one_run_folder = Ok t /\
    column_names t = ["Pixel"; "run1.asc"; "Mean"] /\
    column t "Pixel" = Some (CNaN :: pixels) /\
    column t "Mean" = Some (map (fun c => nanmean [c]) (CNaN :: pixels)) /\
    ((forall x : Q, ndiv (nadd (of_Z 0) x) (of_Z 1) = x) ->
     column t "Mean" = column t "Pixel").
Proof.
  split; [reflexivity|]. split; [vm_compute; reflexivity|].
  apply (one_run_mean_is_the_pixel_column (num := Q) one_run_folder "run1.asc"
           (map (fun i => [format_nat i; "10"]) (seq 1 1024))).
  - reflexivity.
  - vm_compute. reflexivity.
Defined.

(** ** The rest of the code on the worked folders *)

Lemma split_last_component_witness : last_component "data/700" = "700".
Proof.
  apply (proj1 (proj2 (proj2 (split_last_component "data/700"))) "data" "700");
    reflexivity.
Defined.

Lemma same_intensities_renumbered :
  Forall2 (same_intensities (num := Q)) plain_folder renumbered_folder.
Proof.
  unfold plain_folder, renumbered_folder.
  apply Forall2_cons; [|apply Forall2_cons; [|apply Forall2_nil]].
  - split; [reflexivity|]. cbn [snd]. split; [|vm_compute; reflexivity].
    change (Forall2 (fun r r' : list string => tl r = tl r')
              [["1"; "10"]; ["2"; "11"]] [["7"; "10"]; ["x"; "11"]]).
    repeat constructor.
  - split; [reflexivity|]. cbn [snd]. split; [|vm_compute; reflexivity].
    change (Forall2 (fun r r' : list string => tl r = tl r')
              [["1"; "15"]] [[""; "15"]]).
    repeat constructor.
Qed.

Lemma pixel_fields_are_ignored_witness :
  Forall2 (same_intensities (num := Q)) plain_folder renumbered_folder /\
  iterate_over_runs (num := Q) plain_folder = iterate_over_runs renumbered_folder /\
  finished_table (num := Q) plain_folder = finished_table renumbered_folder.
Proof.
  split; [exact same_intensities_renumbered|].
  apply (pixel_fields_are_ignored (num := Q) plain_folder renumbered_folder
           same_intensities_renumbered).
Defined.

Lemma iterate_over_runs_outcomes_witness :
  NoDup (map fst folder_700) /\
  (forall e,
     iterate_over_runs (num := Q) folder_700 = Raise e <->
     (e = ValueError /\ runs_of folder_700 = []) \/
     (exists done x rest,
        runs_of folder_700 = (done ++ x :: rest)%list /\
        Forall (fun y => is_ok (asc_read (num := Q) (snd y)) = true) done /\
        asc_read (num := Q) (snd x) = Raise e)) /\
  ((exists t, iterate_over_runs (num := Q) folder_700 = Ok t) <->
   runs_of folder_700 <> [] /\
   Forall (fun y => is_ok (asc_read (num := Q) (snd y)) = true) (runs_of folder_700)) /\
  (forall e, iterate_over_runs (num := Q) folder_700 = Raise e ->
             e = ValueError \/ e = OSError \/ e = UnicodeDecodeError \/ e = ParserError).
Proof.
  split; [exact folder_700_names|].
  apply (iterate_over_runs_outcomes (num := Q) folder_700 folder_700_names).
Defined.

Lemma run_columns_hold_the_file_records_witness :
  NoDup (map fst folder_700) /\
  iterate_over_runs folder_700 = Ok table_700 /\
  nth_error (runs_of folder_700) 1 = Some ("run2.asc", constant_run "15" 1024) /\
  cell_of table_700 "run2.asc" 0 = Some (CNum (of_Z (Z.of_nat 1))) /\
  forall r, 1 <= r <= n_pixels ->
    cell_of table_700 "run2.asc" r =
      Some (nth (r - 1)
              (convert_column
                 (map (field 1)
                    (records (map (fun i => [format_nat i; "15"]) (seq 1 1024)))))
              CNaN).
Proof.
  split; [exact folder_700_names|]. split; [exact table_700_run|].
  split; [reflexivity|].
  apply (run_columns_hold_the_file_records (num := Q) folder_700 table_700
           folder_700_names table_700_run 1 "run2.asc"
           (map (fun i => [format_nat i; "15"]) (seq 1 1024))).
  reflexivity.
Defined.

Lemma finished_table_failures_witness :
  NoDup (map fst no_run_folder) /\
  finished_table (num := Q) no_run_folder = Raise ValueError /\
  (((ValueError = OSError \/ ValueError = UnicodeDecodeError \/ ValueError = ParserError) /\
    exists done x rest,
      runs_of no_run_folder = (done ++ x :: rest)%list /\
      Forall (fun y => is_ok (asc_read (num := Q) (snd y)) = true) done /\
      asc_read (num := Q) (snd x) = Raise ValueError) \/
   (ValueError = ValueError /\ runs_of no_run_folder = []) \/
   (ValueError = TypeError /\ 2 <= List.length (runs_of no_run_folder) /\
    ~ (forall x, In x (runs_of no_run_folder) -> numeric_file (num := Q) (snd x)))).
Proof.
  assert (NoDup (map fst no_run_folder)) as Hnd
    by (repeat constructor; cbn; intuition discriminate).
  assert (finished_table (num := Q) no_run_folder = Raise ValueError) as E
    by (vm_compute; reflexivity).
  split; [exact Hnd|]. split; [exact E|].
  apply (finished_table_failures (num := Q) no_run_folder ValueError Hnd E).
Defined.

Lemma subtract_background_without_runs_witness :
  load [one_run_rows] 0 = Ok one_run_rows /\
  List.length (columns one_run_rows) <= 2 /\
  subtract_background 5 0 [one_run_rows] = Ok ([one_run_rows], (0, 0)).
Proof.
  split; [reflexivity|]. split; [vm_compute; lia|].
  apply (subtract_background_without_runs (num := Q) 5 0 [one_run_rows] one_run_rows).
  - reflexivity.
  - vm_compute. lia.
Defined.

Lemma subtract_background_needs_df_witness :
  load [one_run_rows; fresh_rows] 1 = Ok fresh_rows /\
  3 <= List.length (columns fresh_rows) /\
  (load [one_run_rows; fresh_rows] 0 = Raise NameError ->
   subtract_background 0 1 [one_run_rows; fresh_rows] = Raise NameError) /\
  (forall g, load [one_run_rows; fresh_rows] 0 = Ok g ->
             List.length (columns g) <= 2 ->
             subtract_background 0 1 [one_run_rows; fresh_rows] = Raise IndexError).
Proof.
  split; [reflexivity|]. split; [vm_compute; lia|].
  apply (subtract_background_needs_df (num := Q) 0 1 [one_run_rows; fresh_rows] fresh_rows).
  - reflexivity.
  - vm_compute. lia.
Defined.

Lemma appended_columns_come_from_df_witness :
  exists h : list (DataFrame Q),
    index later_rows = index fresh_rows /\
    index fresh_rows <> [] /\
    List.length (columns later_rows) = List.length (columns fresh_rows) /\
    subtract_background 0 1 [stale_rows; fresh_rows] = Ok (h, (1, 2)) /\
    exists d d',
      h = [stale_rows; d] /\
      subtract_background 0 1 [stale_rows; later_rows] = Ok ([stale_rows; d'], (1, 2)) /\
      forall k, 1 <= k <= 2 ->
        exists cells,
          column d (run_column_name k) = Some cells /\
          column d' (run_column_name k) = Some cells.
Proof.
  eexists. split; [reflexivity|]. split; [discriminate|]. split; [reflexivity|].
  split; [vm_compute; reflexivity|].
  apply (appended_columns_come_from_df (num := Q) stale_rows fresh_rows later_rows).
  - reflexivity.
  - discriminate.
  - reflexivity.
  - vm_compute. reflexivity.
Defined.

Lemma averaging_count_is_clamped_witness :
  List.length (columns two_row_table) <= 9 /\
  averaged_table two_row_table 9 = averaged_table two_row_table 0.
Proof.
  split; [vm_compute; lia|].
  apply (averaging_count_is_clamped (num := Q) two_row_table 9).
  vm_compute. lia.
Defined.

Lemma label_row_is_not_averaged_witness :
  NoDup (map fst folder_700) /\
  2 <= List.length (runs_of folder_700) /\
  finished_table folder_700 = Ok finished_700 /\
  cell_of finished_700 "Mean" 0 = Some CNaN /\
  forall k, 1 <= k <= List.length (runs_of folder_700) - 1 ->
    cell_of finished_700 (run_column_name k) 0 = Some CNaN.
Proof.
  split; [exact folder_700_names|]. split; [vm_compute; lia|].
  split; [exact finished_700_run|].
  apply (label_row_is_not_averaged (num := Q) folder_700 finished_700).
  - exact folder_700_names.
  - vm_compute. lia.
  - exact finished_700_run.
Defined.

Lemma disk_700_listing : listing disk_700 "data/700/" = Ok folder_700.
Proof. vm_compute. reflexivity. Qed.

Lemma disk_700_distinct : distinct_listing disk_700 "data/700/".
Proof. exact folder_700_names. Qed.

Lemma sheet_700_run : final_table_at disk_700 "data/700/" = Ok sheet_700.
Proof.
  assert (exists s, final_table_at (num := Q) disk_700 "data/700/" = Ok s) as (s & E).
  { unfold final_table_at. rewrite disk_700_listing. cbn [bind].
    rewrite finished_700_run. cbn [bind].
    destruct (finished_table_Pixel_first folder_700 finished_700 folder_700_names
                finished_700_run) as (rest & Hcols & _).
    unfold set_index. rewrite Hcols.
    cbn [find fst String.eqb Ascii.eqb Bool.eqb]. eauto. }
  unfold sheet_700. rewrite E. reflexivity.
Qed.

Lemma sheet_is_finished_table_without_Pixel_witness :
  distinct_listing disk_700 "data/700/" /\
  final_table_at disk_700 "data/700/" = Ok sheet_700 /\
  exists l t,
    listing disk_700 "data/700/" = Ok l /\
    finished_table l = Ok t /\
    row_labels sheet_700 = CNaN :: pixels /\
    columns t = ("Pixel", row_labels sheet_700) :: sheet_columns sheet_700 /\
    map fst (sheet_columns sheet_700) =
      (map fst (runs_of l) ++
       map run_column_name (seq 1 (List.length (runs_of l) - 1)) ++ ["Mean"])%list.
Proof.
  split; [exact disk_700_distinct|]. split; [exact sheet_700_run|].
  apply (sheet_is_finished_table_without_Pixel (num := Q) disk_700 "data/700/" sheet_700).
  - exact disk_700_distinct.
  - exact sheet_700_run.
Defined.

Lemma directory_failures_witness :
  distinct_listing disk_700 "data/" /\
  final_table_at (num := Q) disk_700 "data/" = Raise ValueError /\
  (ValueError = OSError \/ ValueError = UnicodeDecodeError \/ ValueError = ParserError \/
   ValueError = ValueError \/ ValueError = TypeError).
Proof.
  assert (distinct_listing disk_700 "data/") as Hd
    by (repeat constructor; cbn; intuition discriminate).
  assert (final_table_at (num := Q) disk_700 "data/" = Raise ValueError) as E
    by (vm_compute; reflexivity).
  split; [exact Hd|]. split; [exact E|].
  apply (directory_failures (num := Q) disk_700 "data/" ValueError Hd E).
Defined.

Lemma before_writer_700_run : before_writer disk_700 walk_700 = Ok (["700"], [sheet_700]).
Proof.
  rewrite before_writer_spec. unfold walk_700. cbn [skipn map mapM].
  change (sub_folder_path "data\700") with "data/700/".
  rewrite sheet_700_run. reflexivity.
Qed.

Lemma one_name_and_table_per_directory_witness :
  before_writer disk_700 walk_700 = Ok (["700"], [sheet_700]) /\
  List.length ["700"] = List.length walk_700 - 1 /\
  List.length [sheet_700] = List.length walk_700 - 1 /\
  (forall k directory,
     nth_error walk_700 (S k) = Some directory ->
     nth_error ["700"] k = Some (sheet_name_of directory) /\
     exists sheet,
       nth_error [sheet_700] k = Some sheet /\
       final_table_at disk_700 (sub_folder_path directory) = Ok sheet) /\
  Forall (fun s => contains slash s = false /\ contains backslash s = false) ["700"].
Proof.
  split; [exact before_writer_700_run|].
  apply (one_name_and_table_per_directory (num := Q) disk_700 walk_700
           ["700"] [sheet_700]).
  exact before_writer_700_run.
Defined.

